(** * Storage adapters of the photo-sharing application

    A shallow embedding of the three storage back ends
    ([local_storage_service.py], [storage_service.py],
    [aws_storage_service.py]) and of the start-up selection in [app.py],
    followed by the properties of the adapter contract.

    Conventions.
    - A Python method that can raise is a computation in the monad [M]:
      it takes the state of the outside world (file system, blob service,
      S3 service), returns a value or an exception, and always returns the
      world it left behind, because a Python exception does not undo the
      effects that preceded it.
    - [try: ... except Exception as e: print(...); raise] propagates the
      exception unchanged, so it is the identity on computations; console
      output is not part of the model.
    - Time stamps are integers, in microseconds since the epoch, the
      resolution of [datetime]. *)

From Stdlib Require Import List String Ascii Strings.Byte ZArith Bool Lia Permutation Sorted.
Import ListNotations.
Open Scope string_scope.
Open Scope Z_scope.

Set Implicit Arguments.

(** ** Exceptions and the world-passing monad *)

Definition bytes := list Byte.byte.

(** The exception classes the adapters and their collaborators raise.  All
    of them derive from [Exception]. *)
Inductive exn : Type :=
| FileNotFoundError
| FileExistsError
| NotADirectoryError
| IsADirectoryError
| PermissionError
| ValueError
| NoCredentialsError
| ClientError (code : string)      (* botocore: e.response['Error']['Code'] *)
| ResourceExistsError              (* azure.core.exceptions *)
| ResourceNotFoundError            (* azure.core.exceptions *)
| OtherError (what : string).      (* any other Exception: time-out, DNS, HTTP 5xx *)

Inductive result (A : Type) : Type :=
| Ok (a : A)
| Raise (e : exn).
Arguments Ok {A} a.
Arguments Raise {A} e.

Definition M (W A : Type) : Type := W -> result A * W.

Definition ret {W A} (a : A) : M W A := fun w => (Ok a, w).

Definition raise {W A} (e : exn) : M W A := fun w => (Raise e, w).

Definition bind {W A B} (c : M W A) (k : A -> M W B) : M W B :=
  fun w =>
    match c w with
    | (Ok a, w') => k a w'
    | (Raise e, w') => (Raise e, w')
    end.

(** [try: c except <handled by h>]: the handler sees the exception and the
    world as the failed body left it. *)
Definition try_except {W A} (c : M W A) (h : exn -> M W A) : M W A :=
  fun w =>
    match c w with
    | (Ok a, w') => (Ok a, w')
    | (Raise e, w') => h e w'
    end.

(** A read of the world that cannot fail. *)
Definition gets {W A} (f : W -> A) : M W A := fun w => (Ok (f w), w).

Declare Scope monad_scope.
Delimit Scope monad_scope with monad.
Notation "x <- c ;; k" := (bind c (fun x => k))
  (at level 61, c at next level, right associativity) : monad_scope.
Notation "c ;;; k" := (bind c (fun _ => k))
  (at level 61, right associativity) : monad_scope.
Open Scope monad_scope.

(** ** Strings and POSIX paths *)

Definition slash : ascii := "/"%char.

Fixpoint contains_slash (s : string) : bool :=
  match s with
  | EmptyString => false
  | String c s' => Ascii.eqb c slash || contains_slash s'
  end.

Definition startswith_slash (s : string) : bool :=
  match s with
  | String c _ => Ascii.eqb c slash
  | EmptyString => false
  end.

Fixpoint endswith_slash (s : string) : bool :=
  match s with
  | EmptyString => false
  | String c EmptyString => Ascii.eqb c slash
  | String _ s' => endswith_slash s'
  end.

(** [posixpath.join(a, b)] for two arguments. *)
Definition os_path_join (a b : string) : string :=
  if startswith_slash b then b
  else if String.eqb a "" || endswith_slash a then a ++ b
  else a ++ "/" ++ b.

(** [p[:i], p[i:]] with [i = p.rfind('/') + 1]. *)
Fixpoint rsplit_slash (p : string) : string * string :=
  match p with
  | EmptyString => ("", "")
  | String c p' =>
      let (h, t) := rsplit_slash p' in
      if negb (String.eqb h "") then (String c h, t)
      else if Ascii.eqb c slash then (String c "", t)
      else ("", String c t)
  end.

(** [s.rstrip('/')]. *)
Fixpoint rstrip_slash (s : string) : string :=
  match s with
  | EmptyString => ""
  | String c s' =>
      let r := rstrip_slash s' in
      if String.eqb r "" && Ascii.eqb c slash then "" else String c r
  end.

(** [posixpath.dirname]: the head is stripped of trailing slashes unless it
    consists of slashes only. *)
Definition os_path_dirname (p : string) : string :=
  let h := fst (rsplit_slash p) in
  if String.eqb (rstrip_slash h) "" then h else rstrip_slash h.

(** The prefixes of [acc ++ s] that stop just before a slash of [s], and
    [acc ++ s] itself: the directories [os.makedirs] walks through, outermost
    first. *)
Fixpoint path_prefixes (acc s : string) : list string :=
  match s with
  | EmptyString => [acc]
  | String c s' =>
      if Ascii.eqb c slash
      then (if String.eqb (rstrip_slash acc) "" then [] else [acc])
           ++ path_prefixes (acc ++ String c "") s'
      else path_prefixes (acc ++ String c "") s'
  end.

(** [s.lower()] on ASCII letters. *)
Definition ascii_lower (c : ascii) : ascii :=
  let n := nat_of_ascii c in
  if (Nat.leb 65 n && Nat.leb n 90)%bool then ascii_of_nat (n + 32) else c.

Fixpoint lower (s : string) : string :=
  match s with
  | EmptyString => ""
  | String c s' => String (ascii_lower c) (lower s')
  end.

(** An object name that is one path component: not empty, no slash, and
    neither of the two directory links.  [werkzeug.secure_filename], which
    the upload handler applies, returns such a name or the empty string.
    Whether the system takes the path made from the name is [os_refusal]'s
    matter, below. *)
Definition valid_name (name : string) : bool :=
  negb (String.eqb name "") && negb (contains_slash name)
  && negb (String.eqb name ".") && negb (String.eqb name "..").

(** ** The file system seen by [os] and [open]

    A file system is the list of its nodes by path, in the order in which
    [os.listdir] enumerates them, with the clock the kernel stamps changes
    with.  Paths are compared as written: the model is exact for paths
    without [.], [..], empty components and symbolic links, which are the
    paths the adapter builds from a valid name.  A relative path is
    relative to the working directory, which exists. *)

Inductive node : Type :=
| File (data : bytes) (ctime : Z)
| Dir (ctime : Z).

Record filesystem : Type := mkFs {
  nodes : list (string * node);
  clock : Z
}.

Record stat_result : Type := mkStat {
  st_size : Z;
  st_ctime : Z
}.

Fixpoint lookup {A} (k : string) (l : list (string * A)) : option A :=
  match l with
  | [] => None
  | (k', v) :: l' => if String.eqb k k' then Some v else lookup k l'
  end.

(** Replace the value at [k], keeping its place, or add it at the end. *)
Fixpoint store {A} (k : string) (v : A) (l : list (string * A)) : list (string * A) :=
  match l with
  | [] => [(k, v)]
  | (k', v') :: l' =>
      if String.eqb k k' then (k, v) :: l' else (k', v') :: store k v l'
  end.

Definition remove_key {A} (k : string) (l : list (string * A)) : list (string * A) :=
  filter (fun kv => negb (String.eqb k (fst kv))) l.

Definition fs_lookup (fs : filesystem) (p : string) : option node :=
  lookup p (nodes fs).

Definition os_path_exists (p : string) (fs : filesystem) : bool :=
  match fs_lookup fs p with Some _ => true | None => false end.

Definition os_path_isdir (p : string) (fs : filesystem) : bool :=
  match fs_lookup fs p with Some (Dir _) => true | _ => false end.

(** The directory a new entry at [p] goes into must exist. *)
Definition parent_ready (p : string) (fs : filesystem) : result unit :=
  let d := os_path_dirname p in
  if String.eqb d "" then Ok tt
  else match fs_lookup fs d with
       | Some (Dir _) => Ok tt
       | Some (File _ _) => Raise NotADirectoryError
       | None => Raise FileNotFoundError
       end.

(** The paths Python and the kernel refuse whatever the file system
    holds: Python raises [ValueError] on an embedded null byte; the kernel
    answers [ENAMETOOLONG], an [OSError], for a path of [PATH_MAX] bytes or
    more, or with a component of more than [NAME_MAX] bytes.  A string is
    the path as encoded, one character a byte. *)
Definition NAME_MAX : Z := 255.
Definition PATH_MAX : Z := 4096.

Fixpoint contains_nul (s : string) : bool :=
  match s with
  | EmptyString => false
  | String c s' => Ascii.eqb c Ascii.zero || contains_nul s'
  end.

(** Whether a component of [s] is too long, [run] bytes of the current
    component having been read. *)
Fixpoint component_too_long (run : Z) (s : string) : bool :=
  match s with
  | EmptyString => Z.ltb NAME_MAX run
  | String c s' =>
      if Ascii.eqb c slash then Z.ltb NAME_MAX run || component_too_long 0 s'
      else component_too_long (run + 1) s'
  end.

Definition os_refusal (p : string) : option exn :=
  if contains_nul p then Some ValueError
  else if Z.leb PATH_MAX (Z.of_nat (String.length p)) || component_too_long 0 p
       then Some (OtherError "OSError: [Errno 36] File name too long")
       else None.

(** One step of [os.makedirs(.., exist_ok=True)]: a path the system does
    not take is an error; otherwise an existing directory is left alone, a
    missing one is created, a regular file in the way is an error, [err]. *)
Definition mkdir_exist_ok (err : exn) (q : string) : M filesystem unit :=
  fun fs =>
    match os_refusal q with
    | Some e => (Raise e, fs)
    | None =>
        match fs_lookup fs q with
        | Some (Dir _) => (Ok tt, fs)
        | Some (File _ _) => (Raise err, fs)
        | None => (Ok tt, mkFs (List.app (nodes fs) [(q, Dir (clock fs))]) (clock fs))
        end
    end.

(** A regular file at the path itself makes [mkdir] raise
    [FileExistsError]; one at an ancestor makes the [mkdir] below it raise
    [NotADirectoryError]. *)
Fixpoint mkdir_all (qs : list string) : M filesystem unit :=
  match qs with
  | [] => ret tt
  | q :: qs' =>
      mkdir_exist_ok (match qs' with
                      | [] => FileExistsError
                      | _ :: _ => NotADirectoryError
                      end) q ;;;
      mkdir_all qs'
  end.

(** [os.makedirs(p, exist_ok=True)]. *)
Definition os_makedirs (p : string) : M filesystem unit :=
  fun fs =>
    if os_path_isdir p fs then (Ok tt, fs)
    else if String.eqb p "" then (Raise FileNotFoundError, fs)
    else mkdir_all (path_prefixes "" p) fs.

(** [open(p, 'wb')]: creates the file or truncates it. *)
Definition open_wb (p : string) : M filesystem unit :=
  fun fs =>
    match os_refusal p with
    | Some e => (Raise e, fs)
    | None =>
        match fs_lookup fs p with
        | Some (Dir _) => (Raise IsADirectoryError, fs)
        | Some (File _ _) =>
            (Ok tt, mkFs (store p (File [] (clock fs)) (nodes fs)) (clock fs))
        | None =>
            match parent_ready p fs with
            | Ok _ => (Ok tt, mkFs (store p (File [] (clock fs)) (nodes fs)) (clock fs))
            | Raise e => (Raise e, fs)
            end
        end
    end.

(** [f.write(b)] on the file opened at [p]. *)
Definition f_write (p : string) (b : bytes) : M filesystem unit :=
  fun fs =>
    match fs_lookup fs p with
    | Some (File d _) => (Ok tt, mkFs (store p (File (List.app d b) (clock fs)) (nodes fs)) (clock fs))
    | Some (Dir _) => (Raise IsADirectoryError, fs)
    | None => (Raise FileNotFoundError, fs)
    end.

(** [open(p, 'rb').read()]. *)
Definition read_rb (p : string) : M filesystem bytes :=
  fun fs =>
    match fs_lookup fs p with
    | Some (File d _) => (Ok d, fs)
    | Some (Dir _) => (Raise IsADirectoryError, fs)
    | None => (Raise FileNotFoundError, fs)
    end.

(** [os.remove(p)]. *)
Definition os_remove (p : string) : M filesystem unit :=
  fun fs =>
    match fs_lookup fs p with
    | Some (File _ _) => (Ok tt, mkFs (remove_key p (nodes fs)) (clock fs))
    | Some (Dir _) => (Raise IsADirectoryError, fs)
    | None => (Raise FileNotFoundError, fs)
    end.

(** The name of [p] inside directory [d], when [p] is an entry of [d]. *)
Fixpoint strip_prefix (pre s : string) : option string :=
  match pre, s with
  | EmptyString, _ => Some s
  | String a pre', String b s' => if Ascii.eqb a b then strip_prefix pre' s' else None
  | String _ _, EmptyString => None
  end.

Definition child_name (d p : string) : option string :=
  match strip_prefix (os_path_join d "") p with
  | Some n => if negb (String.eqb n "") && negb (contains_slash n) then Some n else None
  | None => None
  end.

Fixpoint children (d : string) (l : list (string * node)) : list string :=
  match l with
  | [] => []
  | (p, _) :: l' =>
      match child_name d p with
      | Some n => n :: children d l'
      | None => children d l'
      end
  end.

(** [os.listdir(d)]. *)
Definition os_listdir (d : string) : M filesystem (list string) :=
  fun fs =>
    match fs_lookup fs d with
    | Some (Dir _) => (Ok (children d (nodes fs)), fs)
    | Some (File _ _) => (Raise NotADirectoryError, fs)
    | None => (Raise FileNotFoundError, fs)
    end.

(** [os.stat(p)]. *)
Definition os_stat (p : string) : M filesystem stat_result :=
  fun fs =>
    match fs_lookup fs p with
    | Some (File d t) => (Ok (mkStat (Z.of_nat (List.length d)) t), fs)
    | Some (Dir t) => (Ok (mkStat 0 t), fs)
    | None => (Raise FileNotFoundError, fs)
    end.

(** The clock moves between calls; [at_time t] is the world at instant [t]. *)
Definition at_time (t : Z) (fs : filesystem) : filesystem := mkFs (nodes fs) t.

(** ** Uploaded payloads and listing entries *)

(** What callers pass as [file_stream]: an object with a [read] method
    (a buffer and the position of the next read) or a [bytes] value. *)
Inductive file_stream : Type :=
| FileObj (buffer : bytes) (pos : nat)
| RawBytes (b : bytes).

(** What reading the payload to its end yields. *)
Definition stream_rest (s : file_stream) : bytes :=
  match s with
  | FileObj buf pos => skipn pos buf
  | RawBytes b => b
  end.

(** [io.BytesIO(b)]. *)
Definition BytesIO (b : bytes) : file_stream := FileObj b 0.

(** The dictionary every [list_files] builds per object. *)
Record file_info : Type := mkInfo {
  name : string;
  url : string;
  size : Z;
  created : string;
  content_type : string
}.

(** [list.sort(key=.., reverse=True)] on the [created] strings: descending,
    and stable, so entries with equal keys keep their order. *)
Fixpoint insert_desc (x : file_info) (l : list file_info) : list file_info :=
  match l with
  | [] => [x]
  | y :: l' =>
      if String.ltb (created x) (created y) then y :: insert_desc x l'
      else x :: y :: l'
  end.

Fixpoint sort_created_desc (l : list file_info) : list file_info :=
  match l with
  | [] => []
  | x :: l' => insert_desc x (sort_created_desc l')
  end.

(** ** [local_storage_service.py]: class [LocalFileStorage] *)

Module Local.

Record LocalFileStorage : Type := mkLocal {
  storage_path : string;
  container_name : string;
  full_path : string
}.

(** [__init__(self, storage_path='uploads', container_name='photos')]. *)
Definition init (storage_path container_name : string) : LocalFileStorage :=
  mkLocal storage_path container_name (os_path_join storage_path container_name).

Definition create_container (self : LocalFileStorage) : M filesystem bool :=
  os_makedirs (full_path self) ;;;
  ret true.

(** [shutil.copyfileobj(fsrc, f)]: the chunks it copies add up to what is
    left of the source from its current position. *)
Definition shutil_copyfileobj (fsrc : file_stream) (file_path : string) : M filesystem unit :=
  f_write file_path (stream_rest fsrc).

Definition upload_file (self : LocalFileStorage) (stream : file_stream)
    (filename : string) : M filesystem string :=
  create_container self ;;;
  let file_path := os_path_join (full_path self) filename in
  open_wb file_path ;;;
  match stream with
  | FileObj _ _ => shutil_copyfileobj stream file_path   (* hasattr(file_stream, 'read') *)
  | RawBytes b => f_write file_path b
  end ;;;
  ret ("/" ++ storage_path self ++ "/" ++ container_name self ++ "/" ++ filename).

Definition download_file (self : LocalFileStorage) (filename : string) : M filesystem bytes :=
  let file_path := os_path_join (full_path self) filename in
  found <- gets (os_path_exists file_path) ;;
  if negb found then raise FileNotFoundError
  else read_rb file_path.

Definition delete_file (self : LocalFileStorage) (filename : string) : M filesystem bool :=
  let file_path := os_path_join (full_path self) filename in
  found <- gets (os_path_exists file_path) ;;
  if negb found then ret false
  else os_remove file_path ;;; ret true.

Definition file_exists (self : LocalFileStorage) (filename : string) : M filesystem bool :=
  try_except
    (let file_path := os_path_join (full_path self) filename in
     gets (os_path_exists file_path))
    (fun _ => ret false).

Definition get_file_url (self : LocalFileStorage) (filename : string)
    (expiry_hours : Z) : string :=
  "/" ++ storage_path self ++ "/" ++ container_name self ++ "/" ++ filename.

Section Runtime.

(** The two library functions whose tables are not part of the repository:
    [mimetypes.guess_type] (its first component) and
    [datetime.strftime('%Y-%m-%d %H:%M:%S')] of the local time of a whole
    second. *)
Variable guess_type : string -> option string.
Variable strftime : Z -> string.

(** [datetime.fromtimestamp(t).strftime(..)]: the fraction of the second
    is dropped. *)
Definition format_created (t : Z) : string := strftime (t / 1000000).

Definition infer_content_type (filename : string) : string :=
  match guess_type filename with
  | Some t => t
  | None => "application/octet-stream"
  end.

(** The body of the [for filename in os.listdir(..)] loop; [None] is
    [continue]. *)
Definition list_entry (self : LocalFileStorage) (filename : string)
    : M filesystem (option file_info) :=
  let file_path := os_path_join (full_path self) filename in
  isdir <- gets (os_path_isdir file_path) ;;
  if isdir then ret None
  else
    stats <- os_stat file_path ;;
    let content_type := infer_content_type filename in
    ret (Some (mkInfo filename
                 ("/" ++ storage_path self ++ "/" ++ container_name self ++ "/" ++ filename)
                 (st_size stats)
                 (format_created (st_ctime stats))
                 content_type)).

Fixpoint list_loop (self : LocalFileStorage) (names : list string)
    : M filesystem (list file_info) :=
  match names with
  | [] => ret []
  | filename :: rest =>
      o <- list_entry self filename ;;
      file_list <- list_loop self rest ;;
      ret (match o with Some i => i :: file_list | None => file_list end)
  end.

Definition list_files (self : LocalFileStorage) : M filesystem (list file_info) :=
  found <- gets (os_path_exists (full_path self)) ;;
  if negb found then ret []
  else
    names <- os_listdir (full_path self) ;;
    file_list <- list_loop self names ;;
    ret (sort_created_desc file_list).

End Runtime.

Section Info.

Variable guess_type : string -> option string.
Variable strftime : Z -> string.
(** Python floats, [round(total_size / (1024 * 1024), 2)] and [str(e)] are
    taken as given. *)
Variable float : Type.
Variable round_mb : Z -> float.
Variable str : exn -> string.

(** The three dictionaries [get_storage_info] can return, by their keys. *)
Inductive storage_info : Type :=
| InfoMissing (total_files total_size : Z) (storage_path : string)
| InfoStats (total_files total_size : Z) (total_size_mb : float)
            (storage_path storage_type : string)
| InfoError (total_files total_size : Z) (error : string).

(** [sum(f['size'] for f in files)]. *)
Definition sum_sizes (files : list file_info) : Z :=
  fold_left (fun acc f => acc + size f) files 0.

Definition get_storage_info (self : LocalFileStorage) : M filesystem storage_info :=
  try_except
    (found <- gets (os_path_exists (full_path self)) ;;
     if negb found then ret (InfoMissing 0 0 (full_path self))
     else
       files <- list_files guess_type strftime self ;;
       let total_size := sum_sizes files in
       ret (InfoStats (Z.of_nat (List.length files)) total_size (round_mb total_size)
                      (full_path self) "local"))
    (fun e => ret (InfoError 0 0 (str e))).

End Info.

End Local.

(** ** Remote services

    A cloud SDK client talks to a service over the network.  The world of a
    cloud adapter is the state of the service together with a fault
    schedule, the part of the environment the adapter does not control:
    each SDK call consumes one slot of the schedule; [Some e] makes that
    call raise [e] without reaching the service (time-out, unreachable
    endpoint, rejected credentials, a missing package), [None] or an
    exhausted schedule lets the call proceed: the client checks its
    arguments, and the service answers. *)

Record remote (S : Type) : Type := mkRemote {
  service : S;
  faults : list (option exn)
}.

Definition sdk_call {S A} (op : S -> result A * S) : M (remote S) A :=
  fun w =>
    match faults w with
    | Some e :: rest => (Raise e, mkRemote (service w) rest)
    | None :: rest => let (r, s') := op (service w) in (r, mkRemote s' rest)
    | [] => let (r, s') := op (service w) in (r, mkRemote s' [])
    end.

(** ** [storage_service.py]: class [AzureBlobStorage] *)

Module Azure.

Record ContentSettings : Type := mkContentSettings {
  cs_content_type : string
}.

Record blob : Type := mkBlob {
  blob_data : bytes;
  content_settings : option ContentSettings;
  creation_time : option Z
}.

Record container : Type := mkContainer {
  public_access : string;
  blobs : list (string * blob)       (* in the order [list_blobs] yields them *)
}.

Record blob_service : Type := mkService {
  containers : list (string * container);
  service_clock : Z
}.

Definition world : Type := remote blob_service.

(** *** The SDK calls the adapter makes *)

(** [BlobServiceClient.from_connection_string]: no request is sent; a
    malformed string is a fault of the call. *)
Definition from_connection_string (connection_string : string) : M world unit :=
  sdk_call (fun s => (Ok tt, s)).

(** [container_client.create_container(public_access=..)]. *)
Definition sdk_create_container (cname access : string) : M world unit :=
  sdk_call (fun s =>
    match lookup cname (containers s) with
    | Some _ => (Raise ResourceExistsError, s)
    | None => (Ok tt, mkService (store cname (mkContainer access []) (containers s))
                               (service_clock s))
    end).

(** [get_blob_client(container=.., blob=..)] followed by
    [blob_client.upload_blob(data, overwrite=True, content_settings=..)];
    no client is built for an empty blob name: [ValueError], and no
    request. *)
Definition sdk_upload_blob (cname bname : string) (data : bytes)
    (settings : ContentSettings) : M world unit :=
  sdk_call (fun s =>
    if String.eqb bname "" then (Raise ValueError, s) else
    match lookup cname (containers s) with
    | None => (Raise ResourceNotFoundError, s)
    | Some c =>
        let b := mkBlob data (Some settings) (Some (service_clock s)) in
        (Ok tt, mkService (store cname (mkContainer (public_access c) (store bname b (blobs c)))
                             (containers s))
                          (service_clock s))
    end).

(** [get_blob_client(..)] followed by
    [blob_client.download_blob().readall()]; [ValueError] for an empty blob
    name. *)
Definition sdk_download_blob (cname bname : string) : M world bytes :=
  sdk_call (fun s =>
    if String.eqb bname "" then (Raise ValueError, s) else
    match lookup cname (containers s) with
    | None => (Raise ResourceNotFoundError, s)
    | Some c =>
        match lookup bname (blobs c) with
        | None => (Raise ResourceNotFoundError, s)
        | Some b => (Ok (blob_data b), s)
        end
    end).

(** [get_blob_client(..)] followed by [blob_client.delete_blob()];
    [ValueError] for an empty blob name. *)
Definition sdk_delete_blob (cname bname : string) : M world unit :=
  sdk_call (fun s =>
    if String.eqb bname "" then (Raise ValueError, s) else
    match lookup cname (containers s) with
    | None => (Raise ResourceNotFoundError, s)
    | Some c =>
        match lookup bname (blobs c) with
        | None => (Raise ResourceNotFoundError, s)
        | Some _ =>
            (Ok tt, mkService (store cname (mkContainer (public_access c)
                                               (remove_key bname (blobs c)))
                                 (containers s))
                              (service_clock s))
        end
    end).

(** [container_client.list_blobs()], iterated to its end. *)
Definition sdk_list_blobs (cname : string) : M world (list (string * blob)) :=
  sdk_call (fun s =>
    match lookup cname (containers s) with
    | None => (Raise ResourceNotFoundError, s)
    | Some c => (Ok (blobs c), s)
    end).

(** [blob_client.exists()]: the SDK itself answers [False] when the service
    reports that the blob or its container is not there.  The refusal of an
    empty blob name is left out here: [file_exists] turns every exception
    into [False], the answer for a name no container holds. *)
Definition sdk_blob_exists (cname bname : string) : M world bool :=
  sdk_call (fun s =>
    match lookup cname (containers s) with
    | None => (Ok false, s)
    | Some c =>
        match lookup bname (blobs c) with
        | None => (Ok false, s)
        | Some _ => (Ok true, s)
        end
    end).

(** *** The adapter *)

Record AzureBlobStorage : Type := mkAzure {
  connection_string : string;
  container_name : string;
  account_url : string     (* the endpoint the SDK derives from the connection string *)
}.

Section Runtime.

Variable guess_type : string -> option string.
Variable strftime : Z -> string.
(** The blob endpoint a connection string designates. *)
Variable endpoint_of : string -> string.

(** [container_client.url] and [blob_client.url]. *)
Definition container_url (self : AzureBlobStorage) : string :=
  account_url self ++ "/" ++ container_name self.

Definition blob_url (self : AzureBlobStorage) (filename : string) : string :=
  account_url self ++ "/" ++ container_name self ++ "/" ++ filename.

(** [__init__(self, connection_string, container_name='photos')];
    [os.environ.get] hands over [None] for an unset variable. *)
Definition init (connection_string : option string) (container_name : string)
    : M world AzureBlobStorage :=
  match connection_string with
  | None => raise ValueError
  | Some cs =>
      if String.eqb cs "" then raise ValueError
      else
        from_connection_string cs ;;;
        ret (mkAzure cs container_name (endpoint_of cs))
  end.

Definition create_container (self : AzureBlobStorage) : M world bool :=
  try_except
    (sdk_create_container (container_name self) "blob" ;;;
     ret true)
    (fun e =>
       match e with
       | ResourceExistsError => ret true
       | _ => raise e
       end).

Definition upload_file (self : AzureBlobStorage) (stream : file_stream)
    (filename : string) : M world string :=
  let content_type :=
    match guess_type filename with
    | Some t => t
    | None => "application/octet-stream"
    end in
  sdk_upload_blob (container_name self) filename (stream_rest stream)
                  (mkContentSettings content_type) ;;;
  ret (blob_url self filename).

Definition download_file (self : AzureBlobStorage) (filename : string) : M world bytes :=
  sdk_download_blob (container_name self) filename.

Definition delete_file (self : AzureBlobStorage) (filename : string) : M world bool :=
  try_except
    (sdk_delete_blob (container_name self) filename ;;;
     ret true)
    (fun e =>
       match e with
       | ResourceNotFoundError => ret false
       | _ => raise e
       end).

Definition blob_info (self : AzureBlobStorage) (nb : string * blob) : file_info :=
  let (bname, b) := nb in
  mkInfo bname
         (container_url self ++ "/" ++ bname)
         (Z.of_nat (List.length (blob_data b)))
         (match creation_time b with
          | Some t => strftime (t / 1000000)
          | None => "Unknown"
          end)
         (match content_settings b with
          | Some cs => cs_content_type cs
          | None => "Unknown"
          end).

Definition list_files (self : AzureBlobStorage) : M world (list file_info) :=
  blobs <- sdk_list_blobs (container_name self) ;;
  ret (map (blob_info self) blobs).

Definition file_exists (self : AzureBlobStorage) (filename : string) : M world bool :=
  try_except
    (sdk_blob_exists (container_name self) filename)
    (fun _ => ret false).

Definition get_file_url (self : AzureBlobStorage) (filename : string)
    (expiry_hours : Z) : string :=
  blob_url self filename.

End Runtime.

End Azure.

(** ** [aws_storage_service.py]: class [AWSS3Storage] *)

Module AWS.

Record s3_object : Type := mkObject {
  body : bytes;
  ContentType : string;
  CacheControl : string;
  LastModified : Z
}.

(** The policy document handed to [json.dumps], one statement. *)
Record bucket_policy : Type := mkPolicy {
  Version : string;
  Sid : string;
  Effect : string;
  Principal : string;
  Action : string;
  Resource : string
}.

Record PublicAccessBlockConfiguration : Type := mkPAB {
  BlockPublicAcls : bool;
  IgnorePublicAcls : bool;
  BlockPublicPolicy : bool;
  RestrictPublicBuckets : bool
}.

Record bucket : Type := mkBucket {
  LocationConstraint : option string;
  policy : option bucket_policy;
  public_access_block : option PublicAccessBlockConfiguration;
  objects : list (string * s3_object)   (* in the order [list_objects_v2] returns them *)
}.

Record s3 : Type := mkS3 {
  buckets : list (string * bucket);
  s3_clock : Z
}.

Definition world : Type := remote s3.

Definition set_bucket (bname : string) (b : bucket) (s : s3) : s3 :=
  mkS3 (store bname b (buckets s)) (s3_clock s).

(** *** The SDK calls the adapter makes *)

(** [boto3.client('s3', ..)]: no request is sent. *)
Definition boto3_client : M world unit :=
  sdk_call (fun s => (Ok tt, s)).

Definition head_bucket (bname : string) : M world unit :=
  sdk_call (fun s =>
    match lookup bname (buckets s) with
    | Some _ => (Ok tt, s)
    | None => (Raise (ClientError "404"), s)
    end).

Definition create_bucket (bname : string) (location : option string) : M world unit :=
  sdk_call (fun s =>
    match lookup bname (buckets s) with
    | Some _ =>
        match location with
        | None => (Ok tt, s)
        | Some _ => (Raise (ClientError "BucketAlreadyOwnedByYou"), s)
        end
    | None => (Ok tt, set_bucket bname (mkBucket location None None []) s)
    end).

Definition put_bucket_policy (bname : string) (p : bucket_policy) : M world unit :=
  sdk_call (fun s =>
    match lookup bname (buckets s) with
    | None => (Raise (ClientError "NoSuchBucket"), s)
    | Some b =>
        (Ok tt, set_bucket bname
                  (mkBucket (LocationConstraint b) (Some p) (public_access_block b) (objects b)) s)
    end).

Definition put_public_access_block (bname : string)
    (c : PublicAccessBlockConfiguration) : M world unit :=
  sdk_call (fun s =>
    match lookup bname (buckets s) with
    | None => (Raise (ClientError "NoSuchBucket"), s)
    | Some b =>
        (Ok tt, set_bucket bname
                  (mkBucket (LocationConstraint b) (policy b) (Some c) (objects b)) s)
    end).

(** botocore validates the parameters of a request before it sends it: an
    empty [Key] is refused. *)
Definition ParamValidationError : exn := OtherError "ParamValidationError".

(** [upload_fileobj(Fileobj, Bucket, Key, ExtraArgs=..)] with the whole
    content of the file object. *)
Definition upload_fileobj (data : bytes) (bname key ctype cache : string) : M world unit :=
  sdk_call (fun s =>
    if String.eqb key "" then (Raise ParamValidationError, s) else
    match lookup bname (buckets s) with
    | None => (Raise (ClientError "NoSuchBucket"), s)
    | Some b =>
        let o := mkObject data ctype cache (s3_clock s) in
        (Ok tt, set_bucket bname
                  (mkBucket (LocationConstraint b) (policy b) (public_access_block b)
                            (store key o (objects b))) s)
    end).

(** [get_object(..)['Body'].read()]. *)
Definition get_object (bname key : string) : M world bytes :=
  sdk_call (fun s =>
    if String.eqb key "" then (Raise ParamValidationError, s) else
    match lookup bname (buckets s) with
    | None => (Raise (ClientError "NoSuchBucket"), s)
    | Some b =>
        match lookup key (objects b) with
        | None => (Raise (ClientError "NoSuchKey"), s)
        | Some o => (Ok (body o), s)
        end
    end).

(** [delete_object]: S3 answers success whether or not the key was there. *)
Definition delete_object (bname key : string) : M world unit :=
  sdk_call (fun s =>
    if String.eqb key "" then (Raise ParamValidationError, s) else
    match lookup bname (buckets s) with
    | None => (Raise (ClientError "NoSuchBucket"), s)
    | Some b =>
        (Ok tt, set_bucket bname
                  (mkBucket (LocationConstraint b) (policy b) (public_access_block b)
                            (remove_key key (objects b))) s)
    end).

(** [list_objects_v2(Bucket=..)]: one page; [None] when the response has no
    ['Contents'] key. *)
Definition list_objects_v2 (bname : string) : M world (option (list (string * s3_object))) :=
  sdk_call (fun s =>
    match lookup bname (buckets s) with
    | None => (Raise (ClientError "NoSuchBucket"), s)
    | Some b =>
        match objects b with
        | [] => (Ok None, s)
        | os => (Ok (Some (firstn 1000 os)), s)
        end
    end).

(** [head_object].  The refusal of an empty key is left out here:
    [file_exists] turns every exception into [False], the answer for a key
    no bucket holds. *)
Definition head_object (bname key : string) : M world unit :=
  sdk_call (fun s =>
    match lookup bname (buckets s) with
    | None => (Raise (ClientError "404"), s)
    | Some b =>
        match lookup key (objects b) with
        | None => (Raise (ClientError "404"), s)
        | Some _ => (Ok tt, s)
        end
    end).

(** *** The adapter *)

Record AWSS3Storage : Type := mkAWS {
  bucket_name : string;
  region_name : string
}.

(** [__init__(self, aws_access_key_id=None, aws_secret_access_key=None,
    region_name='us-east-1', bucket_name='photos')]: both branches build
    the client; the keys only choose where it takes its credentials. *)
Definition init (aws_access_key_id aws_secret_access_key : option string)
    (region_name bucket_name : string) : M world AWSS3Storage :=
  boto3_client ;;;
  ret (mkAWS bucket_name region_name).

Definition public_read_policy (self : AWSS3Storage) : bucket_policy :=
  mkPolicy "2012-10-17" "PublicReadGetObject" "Allow" "*" "s3:GetObject"
           ("arn:aws:s3:::" ++ bucket_name self ++ "/*").

Definition create_container (self : AWSS3Storage) : M world bool :=
  try_except
    (head_bucket (bucket_name self) ;;;
     ret true)
    (fun e =>
       match e with
       | ClientError error_code =>
           if String.eqb error_code "404" then
             (if String.eqb (region_name self) "us-east-1"
              then create_bucket (bucket_name self) None
              else create_bucket (bucket_name self) (Some (region_name self))) ;;;
             put_bucket_policy (bucket_name self) (public_read_policy self) ;;;
             put_public_access_block (bucket_name self) (mkPAB true true false false) ;;;
             ret true
           else raise e
       | _ => raise e
       end).

Definition object_url (self : AWSS3Storage) (key : string) : string :=
  "https://" ++ bucket_name self ++ ".s3." ++ region_name self ++ ".amazonaws.com/" ++ key.

Definition get_file_url (self : AWSS3Storage) (filename : string) : string :=
  object_url self filename.

Section Runtime.

Variable guess_type : string -> option string.
Variable strftime : Z -> string.

Definition upload_file (self : AWSS3Storage) (stream : file_stream)
    (filename : string) : M world string :=
  let content_type :=
    match guess_type filename with
    | Some t => t
    | None => "application/octet-stream"
    end in
  match stream with
  | FileObj buffer _ =>
      (* file_stream.seek(0) *)
      upload_fileobj buffer (bucket_name self) filename content_type "max-age=31536000"
  | RawBytes _ =>
      (* no [read] method: boto3 refuses the argument *)
      raise ValueError
  end ;;;
  ret (object_url self filename).

Definition download_file (self : AWSS3Storage) (filename : string) : M world bytes :=
  get_object (bucket_name self) filename.

Definition delete_file (self : AWSS3Storage) (filename : string) : M world bool :=
  delete_object (bucket_name self) filename ;;;
  ret true.

Definition object_info (self : AWSS3Storage) (ko : string * s3_object) : file_info :=
  let (key, obj) := ko in
  mkInfo key
         (object_url self key)
         (Z.of_nat (List.length (body obj)))
         (strftime (LastModified obj / 1000000))
         "image/*".

Definition list_files (self : AWSS3Storage) : M world (list file_info) :=
  response <- list_objects_v2 (bucket_name self) ;;
  ret (match response with
       | Some contents => map (object_info self) contents
       | None => []
       end).

Definition file_exists (self : AWSS3Storage) (filename : string) : M world bool :=
  try_except
    (head_object (bucket_name self) filename ;;;
     ret true)
    (fun e =>
       match e with
       | ClientError _ => ret false
       | _ => ret false
       end).

End Runtime.

End AWS.

(** ** [app.py]: storage selection at import time, and [/health] *)

Module App.

(** The object bound to the global [storage]. *)
Inductive storage_handle : Type :=
| AWSStorage (s : AWS.AWSS3Storage)
| AzureStorage (s : Azure.AzureBlobStorage)
| LocalStorage (s : Local.LocalFileStorage).

(** The process: the three module globals the selection assigns, and the
    worlds the back ends act on. *)
Record process : Type := mkProcess {
  STORAGE_TYPE : string;
  storage : option storage_handle;
  storage_type_name : string;
  fs : filesystem;
  azure : Azure.world;
  aws : AWS.world
}.

Definition in_fs {A} (c : M filesystem A) : M process A :=
  fun p =>
    let (r, w) := c (fs p) in
    (r, mkProcess (STORAGE_TYPE p) (storage p) (storage_type_name p) w (azure p) (aws p)).

Definition in_azure {A} (c : M Azure.world A) : M process A :=
  fun p =>
    let (r, w) := c (azure p) in
    (r, mkProcess (STORAGE_TYPE p) (storage p) (storage_type_name p) (fs p) w (aws p)).

Definition in_aws {A} (c : M AWS.world A) : M process A :=
  fun p =>
    let (r, w) := c (aws p) in
    (r, mkProcess (STORAGE_TYPE p) (storage p) (storage_type_name p) (fs p) (azure p) w).

Definition assign_STORAGE_TYPE (v : string) : M process unit :=
  fun p => (Ok tt, mkProcess v (storage p) (storage_type_name p) (fs p) (azure p) (aws p)).

Definition assign_storage (v : option storage_handle) : M process unit :=
  fun p => (Ok tt, mkProcess (STORAGE_TYPE p) v (storage_type_name p) (fs p) (azure p) (aws p)).

Definition assign_storage_type_name (v : string) : M process unit :=
  fun p => (Ok tt, mkProcess (STORAGE_TYPE p) (storage p) v (fs p) (azure p) (aws p)).

(** [os.environ] after [load_dotenv()]. *)
Definition environ : Type := list (string * string).

Definition environ_get (env : environ) (k : string) : option string := lookup k env.

Definition environ_get_default (env : environ) (k default : string) : string :=
  match lookup k env with
  | Some v => v
  | None => default
  end.

Section Runtime.

Variable endpoint_of : string -> string.

(** [if STORAGE_TYPE == 'aws': try: ... except Exception as e: ...]. *)
Definition select_aws (env : environ) : M process unit :=
  try_except
    (s <- in_aws (AWS.init (environ_get env "AWS_ACCESS_KEY_ID")
                           (environ_get env "AWS_SECRET_ACCESS_KEY")
                           (environ_get_default env "AWS_REGION" "us-east-1")
                           (environ_get_default env "AWS_BUCKET_NAME" "photos")) ;;
     assign_storage (Some (AWSStorage s)) ;;;
     in_aws (AWS.create_container s) ;;;
     assign_storage_type_name "AWS S3 Storage")
    (fun _ => assign_STORAGE_TYPE "local").

(** [if STORAGE_TYPE == 'azure': try: ... except Exception as e: ...]. *)
Definition select_azure (env : environ) : M process unit :=
  try_except
    (s <- in_azure (Azure.init endpoint_of
                      (environ_get env "AZURE_STORAGE_CONNECTION_STRING")
                      (environ_get_default env "AZURE_CONTAINER_NAME" "photos")) ;;
     assign_storage (Some (AzureStorage s)) ;;;
     in_azure (Azure.create_container s) ;;;
     assign_storage_type_name "Azure Blob Storage")
    (fun _ => assign_STORAGE_TYPE "local").

(** [if STORAGE_TYPE == 'local': try: ... except Exception as e: storage = None]. *)
Definition select_local : M process unit :=
  try_except
    (let s := Local.init "uploads" "photos" in
     assign_storage (Some (LocalStorage s)) ;;;
     in_fs (Local.create_container s) ;;;
     assign_storage_type_name "Local Storage")
    (fun _ => assign_storage None).

(** The module body down to the last [if]. *)
Definition module_init (env : environ) : M process unit :=
  assign_STORAGE_TYPE (lower (environ_get_default env "STORAGE_TYPE" "local")) ;;;
  assign_storage None ;;;
  assign_storage_type_name "Local Storage" ;;;
  t <- gets STORAGE_TYPE ;;
  (if String.eqb t "aws" then select_aws env else ret tt) ;;;
  t <- gets STORAGE_TYPE ;;
  (if String.eqb t "azure" then select_azure env else ret tt) ;;;
  t <- gets STORAGE_TYPE ;;
  (if String.eqb t "local" then select_local else ret tt).

(** The process a start-up in the given worlds ends in. *)
Definition boot (env : environ) (f : filesystem) (az : Azure.world) (s3 : AWS.world)
    : process :=
  snd (module_init env (mkProcess "" None "" f az s3)).

End Runtime.

(** The JSON body of [/health]. *)
Record health_response : Type := mkHealth {
  status : string;
  storage_configured : bool;
  storage_type : string
}.

Definition health (p : process) : health_response :=
  mkHealth "healthy"
           (match storage p with Some _ => true | None => false end)
           (storage_type_name p).

(** *** The request handlers *)

Definition ALLOWED_EXTENSIONS : list string := ["png"; "jpg"; "jpeg"; "gif"; "webp"].

Definition dot : ascii := "."%char.

Fixpoint contains_dot (s : string) : bool :=
  match s with
  | EmptyString => false
  | String c s' => Ascii.eqb c dot || contains_dot s'
  end.

(** [s.rsplit('.', 1)[1]]: what follows the last dot; there is no such
    element when [s] has no dot. *)
Fixpoint after_last_dot (s : string) : option string :=
  match s with
  | EmptyString => None
  | String c s' =>
      match after_last_dot s' with
      | Some ext => Some ext
      | None => if Ascii.eqb c dot then Some s' else None
      end
  end.

Definition allowed_file (filename : string) : bool :=
  contains_dot filename
  && match after_last_dot filename with
     | Some ext => existsb (String.eqb (lower ext)) ALLOWED_EXTENSIONS
     | None => false
     end.

(** An entry of [request.files]: the name the client sent, if any, and the
    stream over the uploaded bytes. *)
Record FileStorage : Type := mkFileStorage {
  filename : option string;
  buffer : bytes;
  position : nat
}.

(** What a view function returns. *)
Inductive response : Type :=
| redirect_to (endpoint : string)              (* redirect(url_for(endpoint)) *)
| redirect_url (location : string)             (* redirect(location) *)
| render_index (storage_type : string)         (* render_template('index.html', ..) *)
| render_gallery (images : list file_info)     (* render_template('gallery.html', ..) *)
| json_success                                 (* jsonify({'success': True}) *)
| json_error (error : string)                  (* jsonify({'error': ..}), 500 *)
| json_health (h : health_response)
| send_from_directory (directory path : string).

(** The process together with the messages flashed into the session, each
    with its category, oldest first. *)
Record webapp : Type := mkWebapp {
  proc : process;
  flashes : list (string * string)
}.

Definition in_proc {A} (c : M process A) : M webapp A :=
  fun w =>
    let (r, p) := c (proc w) in
    (r, mkWebapp p (flashes w)).

Definition flash (message category : string) : M webapp unit :=
  fun w => (Ok tt, mkWebapp (proc w) (List.app (flashes w) [(category, message)])).

Section Handlers.

Variable guess_type : string -> option string.
Variable strftime : Z -> string.
(** [werkzeug.utils.secure_filename] and [str(e)] are taken as given. *)
Variable secure_filename : string -> string.
Variable str : exn -> string.

(** The methods of the object bound to [storage], whichever class it is. *)
Definition storage_upload_file (h : storage_handle) (stream : file_stream)
    (name : string) : M process string :=
  match h with
  | AWSStorage s => in_aws (AWS.upload_file guess_type s stream name)
  | AzureStorage s => in_azure (Azure.upload_file guess_type s stream name)
  | LocalStorage s => in_fs (Local.upload_file s stream name)
  end.

Definition storage_list_files (h : storage_handle) : M process (list file_info) :=
  match h with
  | AWSStorage s => in_aws (AWS.list_files strftime s)
  | AzureStorage s => in_azure (Azure.list_files strftime s)
  | LocalStorage s => in_fs (Local.list_files guess_type strftime s)
  end.

Definition storage_delete_file (h : storage_handle) (name : string) : M process bool :=
  match h with
  | AWSStorage s => in_aws (AWS.delete_file s name)
  | AzureStorage s => in_azure (Azure.delete_file s name)
  | LocalStorage s => in_fs (Local.delete_file s name)
  end.

(** [storage.get_file_url(filename)], with the default [expiry_hours]. *)
Definition storage_get_file_url (h : storage_handle) (name : string) : string :=
  match h with
  | AWSStorage s => AWS.get_file_url s name
  | AzureStorage s => Azure.get_file_url s name 24
  | LocalStorage s => Local.get_file_url s name 24
  end.

(** [index()]. *)
Definition index_view : M webapp response :=
  t <- gets (fun w => storage_type_name (proc w)) ;;
  ret (render_index t).

(** [upload_file()], on the [request.files] of the request. *)
Definition upload_view (files : list (string * FileStorage)) : M webapp response :=
  st <- gets (fun w => storage (proc w)) ;;
  match st with
  | None =>
      flash "Storage service not configured" "error" ;;;
      ret (redirect_to "index")
  | Some h =>
      match lookup "file" files with
      | None =>
          flash "No file selected" "error" ;;;
          ret (redirect_to "index")
      | Some file =>
          match filename file with
          | Some EmptyString =>
              flash "No file selected" "error" ;;;
              ret (redirect_to "index")
          | Some name =>
              (* [file] is true: its name is not empty *)
              if allowed_file name then
                try_except
                  (let filename := secure_filename name in
                   storage_url <- in_proc (storage_upload_file h
                                             (FileObj (buffer file) (position file))
                                             filename) ;;
                   flash ("File uploaded successfully: " ++ filename) "success" ;;;
                   ret (redirect_to "gallery"))
                  (fun e =>
                     flash ("Upload failed: " ++ str e) "error" ;;;
                     ret (redirect_to "index"))
              else
                flash "Invalid file type. Allowed: PNG, JPG, JPEG, GIF, WEBP" "error" ;;;
                ret (redirect_to "index")
          | None =>
              (* [file] is false: no name at all *)
              flash "Invalid file type. Allowed: PNG, JPG, JPEG, GIF, WEBP" "error" ;;;
              ret (redirect_to "index")
          end
      end
  end.

(** [gallery()]. *)
Definition gallery_view : M webapp response :=
  st <- gets (fun w => storage (proc w)) ;;
  match st with
  | None =>
      flash "Storage service not configured" "error" ;;;
      ret (redirect_to "index")
  | Some h =>
      try_except
        (images <- in_proc (storage_list_files h) ;;
         ret (render_gallery images))
        (fun e =>
           flash ("Error loading gallery: " ++ str e) "error" ;;;
           ret (render_gallery []))
  end.

(** [delete_file(filename)]. *)
Definition delete_view (name : string) : M webapp response :=
  st <- gets (fun w => storage (proc w)) ;;
  match st with
  | None => ret (json_error "Storage service not configured")
  | Some h =>
      try_except
        (in_proc (storage_delete_file h name) ;;;
         flash ("File deleted: " ++ name) "success" ;;;
         ret json_success)
        (fun e => ret (json_error (str e)))
  end.

(** [serve_uploaded_file(container, filename)]; with no object bound to
    [storage] the attribute access raises. *)
Definition serve_uploaded_file_view (container name : string) : M webapp response :=
  t <- gets (fun w => STORAGE_TYPE (proc w)) ;;
  if String.eqb t "local" then
    let upload_folder := os_path_join "uploads" container in
    ret (send_from_directory upload_folder name)
  else
    st <- gets (fun w => storage (proc w)) ;;
    match st with
    | Some h => ret (redirect_url (storage_get_file_url h name))
    | None => raise (OtherError "AttributeError")
    end.

(** [health()] as a view. *)
Definition health_view : M webapp response :=
  p <- gets proc ;;
  ret (json_health (health p)).

End Handlers.

End App.

(** ** Vocabulary of the properties *)

(** A directory path the adapter can extend by a separator: not empty and
    not already ending in one. *)
Definition plain_dir (d : string) : bool :=
  negb (String.eqb d "") && negb (endswith_slash d).

(** Whether the blob service holds a blob of that name in that container. *)
Definition azure_has_blob (s : Azure.blob_service) (cname bname : string) : bool :=
  match lookup cname (Azure.containers s) with
  | Some c => match lookup bname (Azure.blobs c) with Some _ => true | None => false end
  | None => false
  end.

(** Whether the bucket is there and holds an object under that key. *)
Definition aws_has_object (s : AWS.s3) (bname key : string) : bool :=
  match lookup bname (AWS.buckets s) with
  | Some b => match lookup key (AWS.objects b) with Some _ => true | None => false end
  | None => false
  end.

(** What the claim on [file_exists] says of the AWS back end: an error of
    the probe other than not-found comes out of [file_exists] as raised. *)
Definition aws_exists_reraises : Prop :=
  forall (self : AWS.AWSS3Storage) filename s e rest,
    e <> ClientError "404" ->
    fst (AWS.file_exists self filename (mkRemote s (Some e :: rest))) = Raise e.

(** The same of the Azure back end. *)
Definition azure_exists_reraises : Prop :=
  forall (self : Azure.AzureBlobStorage) filename s e rest,
    e <> ResourceNotFoundError ->
    fst (Azure.file_exists self filename (mkRemote s (Some e :: rest))) = Raise e.

(** The cloud side of the two [try] blocks: build the adapter, then call
    its [create_container]. *)
Definition aws_setup (env : App.environ) : M AWS.world bool :=
  s <- AWS.init (App.environ_get env "AWS_ACCESS_KEY_ID")
                (App.environ_get env "AWS_SECRET_ACCESS_KEY")
                (App.environ_get_default env "AWS_REGION" "us-east-1")
                (App.environ_get_default env "AWS_BUCKET_NAME" "photos") ;;
  AWS.create_container s.

Definition azure_setup (endpoint_of : string -> string) (env : App.environ)
    : M Azure.world bool :=
  s <- Azure.init endpoint_of
         (App.environ_get env "AZURE_STORAGE_CONNECTION_STRING")
         (App.environ_get_default env "AZURE_CONTAINER_NAME" "photos") ;;
  Azure.create_container s.

(** The configured back end is a cloud one and setting it up raises. *)
Definition cloud_setup_fails (endpoint_of : string -> string) (env : App.environ)
    (az : Azure.world) (s3 : AWS.world) : Prop :=
  (lower (App.environ_get_default env "STORAGE_TYPE" "local") = "aws"
   /\ exists e, fst (aws_setup env s3) = Raise e)
  \/ (lower (App.environ_get_default env "STORAGE_TYPE" "local") = "azure"
      /\ exists e, fst (azure_setup endpoint_of env az) = Raise e).

(** What the claim on the fall-back says. *)
Definition fallback_always_ready : Prop :=
  forall endpoint_of env f az s3,
    cloud_setup_fails endpoint_of env az s3 ->
    App.health (App.boot endpoint_of env f az s3) = App.mkHealth "healthy" true "Local Storage".

(** The file system after three uploads to a fresh disk within one second:
    [a.png] at 0.1 s, [b.png] at 0.2 s and [c.png] at 0.3 s past
    1700000000, looked at 0.9 s past it. *)
Definition three_uploads_in_a_second : filesystem :=
  let self := Local.init "uploads" "photos" in
  let fs1 := snd (Local.upload_file self (BytesIO [x01]) "a.png" (mkFs [] 1700000000100000)) in
  let fs2 := snd (Local.upload_file self (BytesIO [x02]) "b.png" (at_time 1700000000200000 fs1)) in
  let fs3 := snd (Local.upload_file self (BytesIO [x03]) "c.png" (at_time 1700000000300000 fs2)) in
  at_time 1700000000900000 fs3.

(** The entries of the container directory that are not directories, in
    the order [os.listdir] gives them. *)
Definition regular_children (self : Local.LocalFileStorage) (fs : filesystem) : list string :=
  filter (fun n => negb (os_path_isdir (os_path_join (Local.full_path self) n) fs))
         (children (Local.full_path self) (nodes fs)).

(** [y] is not stamped later than [x], as the sort compares the stamps. *)
Definition not_newer (x y : file_info) : Prop :=
  String.ltb (created x) (created y) = false.

(** The listing entry [i] is the dictionary [list_files] builds for a
    regular file of the container directory: its name, the URL of that
    name, the length of its content, its change time cut to the second and
    formatted, and the type looked up from the name. *)
Definition describes_file (guess_type : string -> option string) (strftime : Z -> string)
    (self : Local.LocalFileStorage) (fs : filesystem) (i : file_info) : Prop :=
  exists d t,
    fs_lookup fs (os_path_join (Local.full_path self) (name i)) = Some (File d t)
    /\ i = mkInfo (name i)
                  (Local.get_file_url self (name i) 24)
                  (Z.of_nat (List.length d))
                  (strftime (t / 1000000))
                  (Local.infer_content_type guess_type (name i)).

(** The four ways the selection at start-up can end: one of the three
    back ends bound to [storage], with its own type and label, or nothing
    bound, under the label of the local back end. *)
Definition settled (p : App.process) : Prop :=
  (exists s, App.storage p = Some (App.AWSStorage s)
             /\ App.STORAGE_TYPE p = "aws"
             /\ App.storage_type_name p = "AWS S3 Storage")
  \/ (exists s, App.storage p = Some (App.AzureStorage s)
                /\ App.STORAGE_TYPE p = "azure"
                /\ App.storage_type_name p = "Azure Blob Storage")
  \/ (App.storage p = Some (App.LocalStorage (Local.init "uploads" "photos"))
      /\ App.STORAGE_TYPE p = "local"
      /\ App.storage_type_name p = "Local Storage")
  \/ (App.storage p = None
      /\ App.storage_type_name p = "Local Storage"
      /\ App.STORAGE_TYPE p <> "aws"
      /\ App.STORAGE_TYPE p <> "azure").

(** The uploaded file a request carries, if it carries one the upload
    handler accepts: an entry [file] of [request.files] with a name that is
    not empty and has an allowed extension. *)
Definition upload_candidate (files : list (string * App.FileStorage))
    : option (App.FileStorage * string) :=
  match lookup "file" files with
  | Some file =>
      match App.filename file with
      | Some n => if negb (String.eqb n "") && App.allowed_file n then Some (file, n) else None
      | None => None
      end
  | None => None
  end.

(** * Properties *)

Unset Implicit Arguments.

(** ** Association lists *)

Section AssocLists.

Context {A : Type}.
Implicit Types (k : string) (v : A) (l : list (string * A)).

Lemma lookup_store_eq k v l : lookup k (store k v l) = Some v.
Proof.
  induction l as [|[k' v'] l IH]; simpl.
  - now rewrite String.eqb_refl.
  - destruct (String.eqb k k') eqn:E; simpl.
    + now rewrite String.eqb_refl.
    + now rewrite E.
Qed.

Lemma lookup_remove_eq k l : lookup k (remove_key k l) = None.
Proof.
  unfold remove_key.
  induction l as [|[k' v'] l IH]; simpl; auto.
  destruct (String.eqb k k') eqn:E; simpl; auto.
  now rewrite E.
Qed.

Lemma lookup_app_some k v l l' : lookup k l = Some v -> lookup k (List.app l l') = Some v.
Proof.
  induction l as [|[k0 v0] l IH]; simpl; [discriminate|].
  destruct (String.eqb k k0); auto.
Qed.

Lemma lookup_app_none k l l' : lookup k l = None -> lookup k (List.app l l') = lookup k l'.
Proof.
  induction l as [|[k0 v0] l IH]; simpl; auto.
  destruct (String.eqb k k0); [discriminate | auto].
Qed.

End AssocLists.

(** ** Paths built from a directory and a valid name *)

Lemma valid_name_no_slash n : valid_name n = true -> contains_slash n = false.
Proof.
  unfold valid_name. intros H.
  repeat (apply andb_prop in H; destruct H as [H ?]).
  now destruct (contains_slash n).
Qed.

Lemma valid_name_nonempty n : valid_name n = true -> n <> "".
Proof. intros H ->. discriminate. Qed.

Lemma no_slash_startswith n : contains_slash n = false -> startswith_slash n = false.
Proof.
  destruct n as [|c n]; simpl; auto.
  intros H. now apply orb_false_elim in H.
Qed.

Lemma join_plain d n :
  plain_dir d = true -> contains_slash n = false ->
  os_path_join d n = d ++ "/" ++ n.
Proof.
  intros Hd Hn. unfold os_path_join.
  rewrite (no_slash_startswith _ Hn).
  unfold plain_dir in Hd. apply andb_prop in Hd. destruct Hd as [H1 H2].
  apply negb_true_iff in H1. apply negb_true_iff in H2.
  now rewrite H1, H2.
Qed.

Lemma append_length a b : String.length (a ++ b) = (String.length a + String.length b)%nat.
Proof. induction a; simpl; auto. Qed.

Lemma append_assoc a b c : (a ++ b) ++ c = a ++ (b ++ c).
Proof. induction a; simpl; congruence. Qed.

Lemma rsplit_no_slash n : contains_slash n = false -> rsplit_slash n = ("", n).
Proof.
  induction n as [|c n IH]; simpl; auto.
  intros H. apply orb_false_elim in H. destruct H as [Hc Hn].
  rewrite (IH Hn). simpl. now rewrite Hc.
Qed.

Lemma rsplit_dir_name d n :
  contains_slash n = false ->
  rsplit_slash (d ++ "/" ++ n) = (d ++ "/", n).
Proof.
  intros Hn. induction d as [|c d IH]; simpl.
  - now rewrite (rsplit_no_slash _ Hn).
  - simpl in IH. rewrite IH.
    now destruct d.
Qed.

Lemma rstrip_append_slash d : rstrip_slash (d ++ "/") = rstrip_slash d.
Proof.
  induction d as [|c d IH]; simpl; [reflexivity|].
  now rewrite IH.
Qed.

Lemma rstrip_no_trailing d : endswith_slash d = false -> rstrip_slash d = d.
Proof.
  induction d as [|c d IH]; simpl; auto.
  destruct d as [|c' d].
  - intros ->. reflexivity.
  - intros H. rewrite (IH H). reflexivity.
Qed.

Lemma dirname_dir_name d n :
  plain_dir d = true -> contains_slash n = false ->
  os_path_dirname (d ++ "/" ++ n) = d.
Proof.
  intros Hd Hn. unfold os_path_dirname.
  rewrite (rsplit_dir_name d n Hn). simpl.
  unfold plain_dir in Hd. apply andb_prop in Hd. destruct Hd as [H1 H2].
  apply negb_true_iff in H1. apply negb_true_iff in H2.
  rewrite rstrip_append_slash, (rstrip_no_trailing _ H2), H1.
  reflexivity.
Qed.

Lemma path_prefixes_length acc s q :
  In q (path_prefixes acc s) -> (String.length q <= String.length (acc ++ s))%nat.
Proof.
  revert acc. induction s as [|c s IH]; intros acc; simpl.
  - intros [<- | []]. rewrite append_length. simpl. lia.
  - assert (Hstep : In q (path_prefixes (acc ++ String c "") s) ->
                    (String.length q <= String.length (acc ++ String c s))%nat).
    { intros H. apply IH in H. now rewrite append_assoc in H. }
    destruct (Ascii.eqb c slash); auto.
    intros H. apply in_app_or in H. destruct H as [H | H]; auto.
    destruct (String.eqb (rstrip_slash acc) ""); [destruct H|].
    destruct H as [<- | []]. rewrite append_length. lia.
Qed.

Lemma path_prefixes_last acc s : In (acc ++ s) (path_prefixes acc s).
Proof.
  revert acc. induction s as [|c s IH]; intros acc; simpl.
  - left. induction acc; simpl; congruence.
  - specialize (IH (acc ++ String c "")). rewrite append_assoc in IH. simpl in IH.
    destruct (Ascii.eqb c slash); auto.
    apply in_or_app. now right.
Qed.

(** ** The file system primitives *)

Lemma lookup_snoc {A} k q (v : A) l :
  lookup k (List.app l [(q, v)]) =
  match lookup k l with
  | Some x => Some x
  | None => if String.eqb k q then Some v else None
  end.
Proof.
  destruct (lookup k l) eqn:E.
  - now apply lookup_app_some.
  - now rewrite (lookup_app_none _ _ _ E).
Qed.

Lemma mkdir_all_ok qs : forall fs fs',
  mkdir_all qs fs = (Ok tt, fs') ->
  clock fs' = clock fs
  /\ (forall q, In q qs -> os_path_isdir q fs' = true)
  /\ (forall k, ~ In k qs -> fs_lookup fs' k = fs_lookup fs k)
  /\ (forall k v, fs_lookup fs k = Some v -> fs_lookup fs' k = Some v).
Proof.
  induction qs as [|q qs IH]; intros fs fs' H.
  - inversion H; subst. repeat split; auto; intros q [].
  - cbn [mkdir_all] in H. unfold bind, mkdir_exist_ok in H.
    assert (Hstep : exists fs1,
               mkdir_all qs fs1 = (Ok tt, fs')
               /\ clock fs1 = clock fs
               /\ os_path_isdir q fs1 = true
               /\ (forall k, k <> q -> fs_lookup fs1 k = fs_lookup fs k)
               /\ (forall k v, fs_lookup fs k = Some v -> fs_lookup fs1 k = Some v)).
    { destruct (os_refusal q) as [e|]; [inversion H|].
      destruct (fs_lookup fs q) as [[d t|t]|] eqn:E.
      - inversion H.
      - exists fs. repeat split; auto. unfold os_path_isdir. now rewrite E.
      - eexists. split; [exact H|]. unfold os_path_isdir, fs_lookup in *. simpl.
        repeat split.
        + rewrite lookup_snoc, E, String.eqb_refl. reflexivity.
        + intros k Hk. rewrite lookup_snoc. apply String.eqb_neq in Hk. rewrite Hk.
          now destruct (lookup k (nodes fs)).
        + intros k v Hk. now apply lookup_app_some. }
    destruct Hstep as (fs1 & Hrest & Hclock & Hq & Hother & Hkeep).
    destruct (IH _ _ Hrest) as (IHc & IHd & IHo & IHk).
    repeat split.
    + congruence.
    + intros q' [<- | Hin]; [|now apply IHd].
      unfold os_path_isdir in *.
      destruct (fs_lookup fs1 q) as [[d t|t]|] eqn:E; try discriminate.
      now rewrite (IHk _ _ E).
    + intros k Hk. rewrite IHo, Hother; auto.
      * intros ->. apply Hk. now left.
      * intros Hin. apply Hk. now right.
    + intros k v Hk. apply IHk, Hkeep, Hk.
Qed.

Lemma os_makedirs_ok p fs fs' :
  os_makedirs p fs = (Ok tt, fs') ->
  clock fs' = clock fs
  /\ os_path_isdir p fs' = true
  /\ (forall k, (String.length p < String.length k)%nat -> fs_lookup fs' k = fs_lookup fs k).
Proof.
  unfold os_makedirs. intros H.
  destruct (os_path_isdir p fs) eqn:Ed.
  - inversion H; subst. auto.
  - destruct (String.eqb p "") eqn:Ep; [discriminate|].
    destruct (mkdir_all_ok _ _ _ H) as (Hc & Hd & Ho & _).
    repeat split; auto.
    + apply Hd. exact (path_prefixes_last "" p).
    + intros k Hk. apply Ho. intros Hin.
      apply path_prefixes_length in Hin. simpl in Hin. lia.
Qed.

Lemma os_makedirs_existing p fs :
  os_path_isdir p fs = true -> os_makedirs p fs = (Ok tt, fs).
Proof. unfold os_makedirs. now intros ->. Qed.

Lemma f_write_after_open p b l c :
  f_write p b (mkFs (store p (File [] c) l) c)
  = (Ok tt, mkFs (store p (File b c) (store p (File [] c) l)) c).
Proof.
  unfold f_write, fs_lookup. simpl. now rewrite lookup_store_eq.
Qed.

(** [with open(p, 'wb') as f: f.write(b)], then a value. *)
Lemma write_file_ok {A} p b (u : A) fs r fs' :
  (open_wb p ;;; f_write p b ;;; ret u) fs = (Ok r, fs') ->
  fs_lookup fs' p = Some (File b (clock fs)) /\ r = u /\ clock fs' = clock fs.
Proof.
  unfold bind, open_wb.
  assert (Hw : (let (r0, w') := f_write p b (mkFs (store p (File [] (clock fs)) (nodes fs)) (clock fs)) in
                match r0 with
                | Ok _ => ret u w'
                | Raise e => (Raise e, w')
                end) = (Ok r, fs') ->
               fs_lookup fs' p = Some (File b (clock fs)) /\ r = u /\ clock fs' = clock fs).
  { rewrite f_write_after_open. unfold ret. intros H. inversion H; subst.
    unfold fs_lookup. simpl. now rewrite lookup_store_eq. }
  destruct (os_refusal p) as [e|]; [discriminate|].
  destruct (fs_lookup fs p) as [[d t|t]|].
  - exact Hw.
  - discriminate.
  - destruct (parent_ready p fs); [exact Hw | discriminate].
Qed.

(** A write that went through was of a path the system takes. *)
Lemma write_file_accepted {A} p b (u : A) fs r fs' :
  (open_wb p ;;; f_write p b ;;; ret u) fs = (Ok r, fs') -> os_refusal p = None.
Proof.
  unfold bind, open_wb.
  destruct (os_refusal p) as [e|]; [discriminate | reflexivity].
Qed.

Lemma write_file_succeeds {A} p b (u : A) fs :
  os_refusal p = None ->
  os_path_isdir p fs = false ->
  parent_ready p fs = Ok tt ->
  exists fs', (open_wb p ;;; f_write p b ;;; ret u) fs = (Ok u, fs').
Proof.
  intros Hacc Hnd Hpar. unfold bind, open_wb, os_path_isdir in *. rewrite Hacc.
  destruct (fs_lookup fs p) as [[d t|t]|]; try discriminate.
  - rewrite f_write_after_open. unfold ret. eauto.
  - rewrite Hpar, f_write_after_open. unfold ret. eauto.
Qed.

(** What the system refuses: a name with a null byte, a name of 256 bytes;
    a name of 255 bytes passes. *)
Lemma os_refusal_cases :
  os_refusal (String "a" (String Ascii.zero "b")) = Some ValueError
  /\ os_refusal ("uploads/photos/" ++ string_of_list_ascii (repeat "a"%char 256))
     = Some (OtherError "OSError: [Errno 36] File name too long")
  /\ os_refusal ("uploads/photos/" ++ string_of_list_ascii (repeat "a"%char 255)) = None.
Proof. repeat split; vm_compute; reflexivity. Qed.

(** [open] raises for a path the system refuses, and changes nothing. *)
Lemma open_wb_refused p e fs :
  os_refusal p = Some e -> open_wb p fs = (Raise e, fs).
Proof. unfold open_wb. now intros ->. Qed.

(** ** The local back end *)

Section LocalFacts.

Variable self : Local.LocalFileStorage.

Let file_path (filename : string) : string :=
  os_path_join (Local.full_path self) filename.

(** Both shapes of payload end in one write of what the payload holds. *)
Lemma upload_file_steps stream filename :
  Local.upload_file self stream filename =
  (Local.create_container self ;;;
   open_wb (file_path filename) ;;;
   f_write (file_path filename) (stream_rest stream) ;;;
   ret (Local.get_file_url self filename 24)).
Proof. destruct stream; reflexivity. Qed.

Lemma create_container_inv fs r fs' :
  Local.create_container self fs = (r, fs') ->
  (r = Ok true /\ os_makedirs (Local.full_path self) fs = (Ok tt, fs'))
  \/ (exists e, r = Raise e /\ os_makedirs (Local.full_path self) fs = (Raise e, fs')).
Proof.
  unfold Local.create_container, bind, ret.
  destruct (os_makedirs (Local.full_path self) fs) as [[[]|e] fs1]; intros H; inversion H; subst.
  - now left.
  - right. now exists e.
Qed.

(** What a successful upload leaves behind. *)
Lemma upload_file_ok stream filename fs url fs' :
  Local.upload_file self stream filename fs = (Ok url, fs') ->
  fs_lookup fs' (file_path filename) = Some (File (stream_rest stream) (clock fs))
  /\ url = Local.get_file_url self filename 24
  /\ clock fs' = clock fs.
Proof.
  rewrite upload_file_steps. unfold bind at 1.
  destruct (Local.create_container self fs) as [r fs1] eqn:Ec.
  apply create_container_inv in Ec.
  destruct Ec as [[-> Hmk] | [e [-> _]]]; [|discriminate].
  apply os_makedirs_ok in Hmk. destruct Hmk as (Hclock & _ & _).
  intros H. apply write_file_ok in H. rewrite Hclock in H. exact H.
Qed.

(** An upload that went through was to a path the system takes. *)
Lemma upload_file_accepted stream filename fs url fs' :
  Local.upload_file self stream filename fs = (Ok url, fs') ->
  os_refusal (file_path filename) = None.
Proof.
  rewrite upload_file_steps. unfold bind at 1.
  destruct (Local.create_container self fs) as [[r|e] fs1]; [|discriminate].
  apply write_file_accepted.
Qed.

(** An upload to a path the system refuses raises what [open] raises, once
    the container is in place. *)
Lemma upload_file_refused stream filename fs e :
  os_refusal (file_path filename) = Some e ->
  fst (Local.create_container self fs) = Ok true ->
  fst (Local.upload_file self stream filename fs) = Raise e.
Proof.
  intros Hr Hc. rewrite upload_file_steps. unfold bind at 1.
  destruct (Local.create_container self fs) as [r fs1]. simpl in Hc. subst r.
  unfold bind. now rewrite (open_wb_refused _ _ fs1 Hr).
Qed.

(** When an upload goes through. *)
Lemma upload_file_succeeds stream filename fs :
  valid_name filename = true ->
  os_refusal (file_path filename) = None ->
  plain_dir (Local.full_path self) = true ->
  fst (Local.create_container self fs) = Ok true ->
  os_path_isdir (file_path filename) fs = false ->
  exists url fs', Local.upload_file self stream filename fs = (Ok url, fs').
Proof.
  intros Hv Hacc Hd Hc Hnd.
  pose proof (valid_name_no_slash _ Hv) as Hns.
  rewrite upload_file_steps. unfold bind at 1.
  destruct (Local.create_container self fs) as [r fs1] eqn:Ec. simpl in Hc. subst r.
  apply create_container_inv in Ec.
  destruct Ec as [[_ Hmk] | [e [He _]]]; [|discriminate].
  apply os_makedirs_ok in Hmk. destruct Hmk as (Hclock & Hdir & Hsame).
  assert (Hp : file_path filename = Local.full_path self ++ "/" ++ filename)
    by (apply join_plain; assumption).
  assert (Hlook : fs_lookup fs1 (file_path filename) = fs_lookup fs (file_path filename)).
  { apply Hsame. rewrite Hp, append_length. simpl. lia. }
  assert (Hpar : parent_ready (file_path filename) fs1 = Ok tt).
  { unfold parent_ready. rewrite Hp, (dirname_dir_name _ _ Hd Hns).
    unfold os_path_isdir in Hdir.
    destruct (String.eqb (Local.full_path self) ""); auto.
    destruct (fs_lookup fs1 (Local.full_path self)) as [[d t|t]|]; try discriminate.
    reflexivity. }
  assert (Hnd1 : os_path_isdir (file_path filename) fs1 = false).
  { unfold os_path_isdir in *. now rewrite Hlook. }
  destruct (write_file_succeeds (file_path filename) (stream_rest stream)
              (Local.get_file_url self filename 24) fs1 Hacc Hnd1 Hpar) as [fs' Hw].
  rewrite Hw. eauto.
Qed.

Lemma download_stored filename fs d t :
  fs_lookup fs (file_path filename) = Some (File d t) ->
  Local.download_file self filename fs = (Ok d, fs).
Proof.
  intros H. unfold Local.download_file, bind, gets, os_path_exists, read_rb.
  fold (file_path filename). rewrite H. simpl. now rewrite H.
Qed.

(** A name listed in the directory is what [os.path.join] maps back to the
    entry's path. *)
Lemma child_name_of_join filename :
  valid_name filename = true ->
  plain_dir (Local.full_path self) = true ->
  child_name (Local.full_path self) (file_path filename) = Some filename.
Proof.
  intros Hv Hd.
  pose proof (valid_name_no_slash _ Hv) as Hns.
  unfold child_name, file_path.
  rewrite (join_plain _ _ Hd Hns).
  rewrite (join_plain _ "" Hd eq_refl).
  assert (Hs : forall a b, strip_prefix (a ++ "/" ++ "") (a ++ "/" ++ b) = Some b).
  { induction a as [|c a IH]; intros b; simpl.
    - reflexivity.
    - rewrite Ascii.eqb_refl. apply IH. }
  rewrite Hs, Hns.
  unfold valid_name in Hv.
  repeat (apply andb_prop in Hv; destruct Hv as [Hv ?]).
  now rewrite Hv.
Qed.

Lemma children_of_lookup d p n (l : list (string * node)) v :
  lookup p l = Some v -> child_name d p = Some n -> In n (children d l).
Proof.
  intros Hl Hc. induction l as [|[k x] l IH]; simpl in *; [discriminate|].
  destruct (String.eqb p k) eqn:E.
  - apply String.eqb_eq in E. subst k. rewrite Hc. now left.
  - destruct (child_name d k); [right|]; auto.
Qed.

End LocalFacts.

(** C1.  Round trip on the local back end: for a valid object name, whatever
    [upload_file] wrote is what [download_file] returns, byte for byte.
    Whenever the upload returns, the download returns the payload; and the
    upload does return when the system takes the path of the file (no null
    byte in it, no component over [NAME_MAX], the whole under [PATH_MAX]),
    the container path can be extended by a separator, [create_container]
    succeeds and no directory sits where the file goes. *)
Theorem local_upload_download_roundtrip
    (self : Local.LocalFileStorage) (stream : file_stream) (filename : string)
    (fs : filesystem) :
  valid_name filename = true ->
  (forall url fs',
      Local.upload_file self stream filename fs = (Ok url, fs') ->
      Local.download_file self filename fs' = (Ok (stream_rest stream), fs'))
  /\ (os_refusal (os_path_join (Local.full_path self) filename) = None ->
      plain_dir (Local.full_path self) = true ->
      fst (Local.create_container self fs) = Ok true ->
      os_path_isdir (os_path_join (Local.full_path self) filename) fs = false ->
      exists url fs',
        Local.upload_file self stream filename fs = (Ok url, fs')
        /\ Local.download_file self filename fs' = (Ok (stream_rest stream), fs')).
Proof.
  intros Hv.
  assert (Hround : forall url fs',
             Local.upload_file self stream filename fs = (Ok url, fs') ->
             Local.download_file self filename fs' = (Ok (stream_rest stream), fs')).
  { intros url fs' Hup. apply upload_file_ok in Hup. destruct Hup as (Hfile & _ & _).
    eapply download_stored. exact Hfile. }
  split; [exact Hround|].
  intros Hacc Hd Hc Hnd.
  destruct (upload_file_succeeds self stream filename fs Hv Hacc Hd Hc Hnd)
    as (url & fs' & Hup).
  exists url, fs'. split; [exact Hup | now apply Hround with url].
Qed.

Lemma local_upload_download_roundtrip_witness :
  valid_name "a.png" = true
  /\ exists url fs',
       Local.upload_file (Local.init "uploads" "photos") (RawBytes (repeat xff 10)) "a.png"
                         (mkFs [] 1700000000000000) = (Ok url, fs')
       /\ Local.download_file (Local.init "uploads" "photos") "a.png" fs'
          = (Ok (repeat xff 10), fs').
Proof.
  split; [reflexivity|].
  apply (local_upload_download_roundtrip (Local.init "uploads" "photos")
           (RawBytes (repeat xff 10)) "a.png" (mkFs [] 1700000000000000));
    reflexivity.
Defined.

(** C7.  Deleting on the local back end: after an upload of a name,
    [delete_file] returns [True] and [file_exists] then returns [False];
    for a name the container directory has no entry for, [delete_file]
    returns [False], raises nothing and changes nothing. *)
Theorem local_delete_semantics (self : Local.LocalFileStorage) (filename : string) :
  valid_name filename = true ->
  (forall stream fs url fs1,
      Local.upload_file self stream filename fs = (Ok url, fs1) ->
      exists fs2,
        Local.delete_file self filename fs1 = (Ok true, fs2)
        /\ Local.file_exists self filename fs2 = (Ok false, fs2))
  /\ (plain_dir (Local.full_path self) = true ->
      forall fs,
        ~ In filename (children (Local.full_path self) (nodes fs)) ->
        Local.delete_file self filename fs = (Ok false, fs)).
Proof.
  intros Hv. split.
  - intros stream fs url fs1 Hup.
    apply upload_file_ok in Hup. destruct Hup as (Hfile & _ & _).
    unfold Local.delete_file, Local.file_exists, try_except, bind, gets, ret,
      os_path_exists, os_remove.
    rewrite Hfile. simpl. rewrite Hfile.
    eexists. split; [reflexivity|].
    unfold fs_lookup. simpl. now rewrite lookup_remove_eq.
  - intros Hd fs Hout.
    unfold Local.delete_file, bind, gets, ret, os_path_exists.
    destruct (fs_lookup fs (os_path_join (Local.full_path self) filename)) as [v|] eqn:E;
      [|reflexivity].
    exfalso. apply Hout.
    eapply children_of_lookup; [exact E|].
    now apply child_name_of_join.
Qed.

Lemma local_delete_semantics_witness :
  (exists fs2,
      Local.delete_file (Local.init "uploads" "photos") "a.png"
        (snd (Local.upload_file (Local.init "uploads" "photos") (BytesIO (repeat xff 10))
                "a.png" (mkFs [] 1700000000000000))) = (Ok true, fs2)
      /\ Local.file_exists (Local.init "uploads" "photos") "a.png" fs2 = (Ok false, fs2))
  /\ Local.delete_file (Local.init "uploads" "photos") "a.png"
       (mkFs [("uploads", Dir 0); ("uploads/photos", Dir 0);
              ("uploads/photos/b.png", File [] 0)] 5)
     = (Ok false,
        mkFs [("uploads", Dir 0); ("uploads/photos", Dir 0);
              ("uploads/photos/b.png", File [] 0)] 5).
Proof.
  destruct (local_delete_semantics (Local.init "uploads" "photos") "a.png" eq_refl)
    as [Hafter Habsent].
  split.
  - apply (Hafter (BytesIO (repeat xff 10)) (mkFs [] 1700000000000000)
                  "/uploads/photos/a.png").
    reflexivity.
  - apply Habsent; [reflexivity|].
    simpl. intros [H | []]. discriminate H.
Defined.

(** C9.  The local [get_file_url] does not look at [expiry_hours]: any two
    values give the same string, and that string is the one [upload_file]
    returns for the same name. *)
Theorem local_url_ignores_expiry
    (self : Local.LocalFileStorage) (filename : string) (e1 e2 : Z) :
  Local.get_file_url self filename e1 = Local.get_file_url self filename e2
  /\ forall stream fs url fs',
       Local.upload_file self stream filename fs = (Ok url, fs') ->
       url = Local.get_file_url self filename e1.
Proof.
  split; [reflexivity|].
  intros stream fs url fs' Hup.
  apply upload_file_ok in Hup. now destruct Hup as (_ & -> & _).
Qed.

Lemma local_url_ignores_expiry_witness :
  Local.get_file_url (Local.init "uploads" "photos") "a.png" 1
  = Local.get_file_url (Local.init "uploads" "photos") "a.png" 720
  /\ fst (Local.upload_file (Local.init "uploads" "photos") (BytesIO (repeat xff 10))
            "a.png" (mkFs [] 1700000000000000))
     = Ok (Local.get_file_url (Local.init "uploads" "photos") "a.png" 1).
Proof.
  destruct (local_url_ignores_expiry (Local.init "uploads" "photos") "a.png" 1 720)
    as [Hsame Hup].
  split; [exact Hsame|].
  rewrite <- (Hup (BytesIO (repeat xff 10)) (mkFs [] 1700000000000000)
                  "/uploads/photos/a.png"
                  (snd (Local.upload_file (Local.init "uploads" "photos")
                          (BytesIO (repeat xff 10)) "a.png" (mkFs [] 1700000000000000))));
    reflexivity.
Defined.

(** C10.  The local [upload_file] treats a readable stream and a [bytes]
    value alike: for a byte sequence [b], uploading a stream that reads as
    [b] and uploading [b] itself have the same outcome in every file
    system, and when the upload goes through (a valid name whose path the
    system takes, a container that can be made, no directory in the way) a
    download of the name returns [b] in both cases. *)
Theorem local_upload_stream_or_bytes
    (self : Local.LocalFileStorage) (b : bytes) (stream : file_stream)
    (filename : string) (fs : filesystem) :
  stream_rest stream = b ->
  Local.upload_file self stream filename fs
  = Local.upload_file self (RawBytes b) filename fs
  /\ (valid_name filename = true ->
      os_refusal (os_path_join (Local.full_path self) filename) = None ->
      plain_dir (Local.full_path self) = true ->
      fst (Local.create_container self fs) = Ok true ->
      os_path_isdir (os_path_join (Local.full_path self) filename) fs = false ->
      exists url fs',
        Local.upload_file self stream filename fs = (Ok url, fs')
        /\ Local.upload_file self (RawBytes b) filename fs = (Ok url, fs')
        /\ Local.download_file self filename fs' = (Ok b, fs')).
Proof.
  intros Hb.
  assert (Heq : Local.upload_file self stream filename fs
                = Local.upload_file self (RawBytes b) filename fs).
  { rewrite !upload_file_steps. simpl. now rewrite Hb. }
  split; [exact Heq|].
  intros Hv Hacc Hd Hc Hnd.
  destruct (upload_file_succeeds self (RawBytes b) filename fs Hv Hacc Hd Hc Hnd)
    as (url & fs' & Hup).
  exists url, fs'. repeat split.
  - now rewrite Heq.
  - exact Hup.
  - apply upload_file_ok in Hup. destruct Hup as (Hfile & _ & _).
    eapply download_stored. exact Hfile.
Qed.

Lemma local_upload_stream_or_bytes_witness :
  Local.upload_file (Local.init "uploads" "photos") (BytesIO (repeat xff 10)) "a.png"
                    (mkFs [] 1700000000000000)
  = Local.upload_file (Local.init "uploads" "photos") (RawBytes (repeat xff 10)) "a.png"
                      (mkFs [] 1700000000000000)
  /\ exists url fs',
       Local.upload_file (Local.init "uploads" "photos") (BytesIO (repeat xff 10)) "a.png"
                         (mkFs [] 1700000000000000) = (Ok url, fs')
       /\ Local.upload_file (Local.init "uploads" "photos") (RawBytes (repeat xff 10)) "a.png"
                            (mkFs [] 1700000000000000) = (Ok url, fs')
       /\ Local.download_file (Local.init "uploads" "photos") "a.png" fs'
          = (Ok (repeat xff 10), fs').
Proof.
  destruct (@local_upload_stream_or_bytes (Local.init "uploads" "photos") (repeat xff 10)
              (BytesIO (repeat xff 10)) "a.png" (mkFs [] 1700000000000000) eq_refl)
    as [Hsame Hgo].
  split; [exact Hsame|].
  apply Hgo; reflexivity.
Defined.

(** ** Creating the container *)

Lemma local_create_container_existing (self : Local.LocalFileStorage) fs :
  os_path_isdir (Local.full_path self) fs = true ->
  Local.create_container self fs = (Ok true, fs).
Proof.
  intros H. unfold Local.create_container, bind, ret.
  now rewrite (os_makedirs_existing _ _ H).
Qed.

Lemma local_create_container_twice (self : Local.LocalFileStorage) fs fs1 :
  Local.create_container self fs = (Ok true, fs1) ->
  Local.create_container self fs1 = (Ok true, fs1).
Proof.
  intros H. apply create_container_inv in H.
  destruct H as [[_ Hmk] | [e [He _]]]; [|discriminate].
  apply os_makedirs_ok in Hmk. destruct Hmk as (_ & Hdir & _).
  now apply local_create_container_existing.
Qed.

Lemma azure_create_container_existing (self : Azure.AzureBlobStorage) s c :
  lookup (Azure.container_name self) (Azure.containers s) = Some c ->
  Azure.create_container self (mkRemote s []) = (Ok true, mkRemote s []).
Proof.
  intros H.
  unfold Azure.create_container, try_except, bind, Azure.sdk_create_container, sdk_call.
  simpl. now rewrite H.
Qed.

Lemma azure_create_container_twice (self : Azure.AzureBlobStorage) s :
  exists s1,
    Azure.create_container self (mkRemote s []) = (Ok true, mkRemote s1 [])
    /\ Azure.create_container self (mkRemote s1 []) = (Ok true, mkRemote s1 []).
Proof.
  destruct (lookup (Azure.container_name self) (Azure.containers s)) as [c|] eqn:E.
  - exists s. split; now apply azure_create_container_existing with c.
  - eexists. split.
    + unfold Azure.create_container, try_except, bind, Azure.sdk_create_container, sdk_call.
      simpl. rewrite E. reflexivity.
    + eapply azure_create_container_existing. simpl. apply lookup_store_eq.
Qed.

Lemma aws_create_container_existing (self : AWS.AWSS3Storage) s b :
  lookup (AWS.bucket_name self) (AWS.buckets s) = Some b ->
  AWS.create_container self (mkRemote s []) = (Ok true, mkRemote s []).
Proof.
  intros H.
  unfold AWS.create_container, try_except, bind, AWS.head_bucket, sdk_call.
  simpl. now rewrite H.
Qed.

Lemma aws_create_container_twice (self : AWS.AWSS3Storage) s :
  exists s1,
    AWS.create_container self (mkRemote s []) = (Ok true, mkRemote s1 [])
    /\ AWS.create_container self (mkRemote s1 []) = (Ok true, mkRemote s1 []).
Proof.
  destruct (lookup (AWS.bucket_name self) (AWS.buckets s)) as [b|] eqn:E.
  - exists s. split; now apply aws_create_container_existing with b.
  - unfold AWS.create_container at 1.
    unfold try_except, bind, AWS.head_bucket.
    unfold sdk_call at 1. simpl. rewrite E. simpl.
    unfold AWS.put_bucket_policy, AWS.put_public_access_block, AWS.create_bucket, sdk_call,
      AWS.set_bucket.
    destruct (String.eqb (AWS.region_name self) "us-east-1"); simpl; rewrite E; simpl;
      rewrite lookup_store_eq; simpl; rewrite lookup_store_eq; simpl;
      (eexists; split; [reflexivity|]);
      eapply aws_create_container_existing; simpl; apply lookup_store_eq.
Qed.

(** C4.  [create_container] is idempotent in every back end.  When the
    directory, container or bucket is already there the call returns
    [True] and leaves the world as it was; and two calls in a row both
    return [True], the second without any effect.  For the cloud back ends
    this is with the service answering, that is with no fault scheduled. *)
Theorem create_container_idempotent :
  (forall (self : Local.LocalFileStorage) fs,
      (os_path_isdir (Local.full_path self) fs = true ->
       Local.create_container self fs = (Ok true, fs))
      /\ (forall fs1, Local.create_container self fs = (Ok true, fs1) ->
                      Local.create_container self fs1 = (Ok true, fs1)))
  /\ (forall (self : Azure.AzureBlobStorage) s,
        (forall c, lookup (Azure.container_name self) (Azure.containers s) = Some c ->
                   Azure.create_container self (mkRemote s []) = (Ok true, mkRemote s []))
        /\ exists s1,
             Azure.create_container self (mkRemote s []) = (Ok true, mkRemote s1 [])
             /\ Azure.create_container self (mkRemote s1 []) = (Ok true, mkRemote s1 []))
  /\ (forall (self : AWS.AWSS3Storage) s,
        (forall b, lookup (AWS.bucket_name self) (AWS.buckets s) = Some b ->
                   AWS.create_container self (mkRemote s []) = (Ok true, mkRemote s []))
        /\ exists s1,
             AWS.create_container self (mkRemote s []) = (Ok true, mkRemote s1 [])
             /\ AWS.create_container self (mkRemote s1 []) = (Ok true, mkRemote s1 [])).
Proof.
  repeat split.
  - apply local_create_container_existing.
  - apply local_create_container_twice.
  - intros c. apply azure_create_container_existing.
  - apply azure_create_container_twice.
  - intros b. apply aws_create_container_existing.
  - apply aws_create_container_twice.
Qed.

Lemma create_container_idempotent_witness :
  (exists fs1,
      Local.create_container (Local.init "uploads" "photos") (mkFs [] 0) = (Ok true, fs1)
      /\ Local.create_container (Local.init "uploads" "photos") fs1 = (Ok true, fs1))
  /\ Azure.create_container (Azure.mkAzure "cs" "photos" "https://acct.blob.core.windows.net")
       (mkRemote (Azure.mkService [("photos", Azure.mkContainer "blob" [])] 0) [])
     = (Ok true, mkRemote (Azure.mkService [("photos", Azure.mkContainer "blob" [])] 0) [])
  /\ AWS.create_container (AWS.mkAWS "photos" "eu-west-1")
       (mkRemote (AWS.mkS3 [("photos", AWS.mkBucket (Some "eu-west-1") None None [])] 0) [])
     = (Ok true,
        mkRemote (AWS.mkS3 [("photos", AWS.mkBucket (Some "eu-west-1") None None [])] 0) []).
Proof.
  destruct create_container_idempotent as (Hlocal & Hazure & Haws).
  split; [|split].
  - eexists. split; [reflexivity|].
    apply (proj2 (Hlocal (Local.init "uploads" "photos") (mkFs [] 0))).
    reflexivity.
  - apply (proj1 (Hazure _ _) (Azure.mkContainer "blob" [])). reflexivity.
  - apply (proj1 (Haws _ _) (AWS.mkBucket (Some "eu-west-1") None None [])). reflexivity.
Defined.

(** ** Deleting and probing in the cloud back ends *)

Lemma aws_delete_never_false (self : AWS.AWSS3Storage) filename w :
  fst (AWS.delete_file self filename w) = Ok true
  \/ exists e, fst (AWS.delete_file self filename w) = Raise e.
Proof.
  unfold AWS.delete_file, bind, ret.
  destruct (AWS.delete_object (AWS.bucket_name self) filename w) as [[[]|e] w'].
  - now left.
  - right. now exists e.
Qed.

(** C6.  Deleting an object that is not there, its name a non-empty
    string.  The AWS [delete_file] returns [True] or raises, whatever the
    state of the service and the name, and returns [True] when the bucket
    is reachable and lacks the key; the Azure [delete_file], with the
    service answering, returns [False] and raises nothing. *)
Theorem cloud_delete_absent_object :
  (forall (self : AWS.AWSS3Storage) filename w,
      (fst (AWS.delete_file self filename w) = Ok true
       \/ exists e, fst (AWS.delete_file self filename w) = Raise e)
      /\ fst (AWS.delete_file self filename w) <> Ok false)
  /\ (forall (self : AWS.AWSS3Storage) filename s b,
        filename <> "" ->
        lookup (AWS.bucket_name self) (AWS.buckets s) = Some b ->
        lookup filename (AWS.objects b) = None ->
        fst (AWS.delete_file self filename (mkRemote s [])) = Ok true)
  /\ (forall (self : Azure.AzureBlobStorage) filename s,
        filename <> "" ->
        azure_has_blob s (Azure.container_name self) filename = false ->
        Azure.delete_file self filename (mkRemote s []) = (Ok false, mkRemote s [])).
Proof.
  split; [|split].
  - intros self filename w.
    pose proof (aws_delete_never_false self filename w) as H.
    split; [exact H|].
    destruct H as [H | [e H]]; rewrite H; discriminate.
  - intros self filename s b Hne Hb Hk. apply String.eqb_neq in Hne.
    unfold AWS.delete_file, bind, ret, AWS.delete_object, sdk_call. simpl.
    now rewrite Hne, Hb.
  - intros self filename s Hne Habsent. apply String.eqb_neq in Hne.
    unfold azure_has_blob in Habsent.
    unfold Azure.delete_file, try_except, bind, ret, Azure.sdk_delete_blob, sdk_call. simpl.
    rewrite Hne.
    destruct (lookup (Azure.container_name self) (Azure.containers s)) as [c|]; [|reflexivity].
    destruct (lookup filename (Azure.blobs c)); [discriminate | reflexivity].
Qed.

Lemma cloud_delete_absent_object_witness :
  fst (AWS.delete_file (AWS.mkAWS "photos" "us-east-1") "gone.png"
         (mkRemote (AWS.mkS3 [("photos", AWS.mkBucket None None None [])] 0) []))
  = Ok true
  /\ Azure.delete_file (Azure.mkAzure "cs" "photos" "https://acct.blob.core.windows.net")
       "gone.png"
       (mkRemote (Azure.mkService [("photos", Azure.mkContainer "blob" [])] 0) [])
     = (Ok false, mkRemote (Azure.mkService [("photos", Azure.mkContainer "blob" [])] 0) []).
Proof.
  destruct cloud_delete_absent_object as (_ & Haws & Hazure).
  split.
  - apply (Haws (AWS.mkAWS "photos" "us-east-1") "gone.png"
                (AWS.mkS3 [("photos", AWS.mkBucket None None None [])] 0)
                (AWS.mkBucket None None None [])); [discriminate | reflexivity ..].
  - apply Hazure; [discriminate | reflexivity].
Defined.

(** C3, as stated, does not hold: a probe that times out makes both cloud
    back ends answer [False]. *)
Lemma cloud_exists_swallows_timeout :
  AWS.file_exists (AWS.mkAWS "photos" "us-east-1") "a.png"
    (mkRemote (AWS.mkS3 [("photos", AWS.mkBucket None None None [])] 0)
              [Some (OtherError "timed out")])
  = (Ok false, mkRemote (AWS.mkS3 [("photos", AWS.mkBucket None None None [])] 0) [])
  /\ Azure.file_exists (Azure.mkAzure "cs" "photos" "https://acct.blob.core.windows.net") "a.png"
       (mkRemote (Azure.mkService [("photos", Azure.mkContainer "blob" [])] 0)
                 [Some (OtherError "timed out")])
     = (Ok false, mkRemote (Azure.mkService [("photos", Azure.mkContainer "blob" [])] 0) [])
  /\ ~ aws_exists_reraises
  /\ ~ azure_exists_reraises.
Proof.
  split; [reflexivity|]. split; [reflexivity|]. split.
  - intros H.
    specialize (H (AWS.mkAWS "photos" "us-east-1") "a.png" (AWS.mkS3 [] 0)
                  (OtherError "timed out") []).
    discriminate H. discriminate.
  - intros H.
    specialize (H (Azure.mkAzure "cs" "photos" "u") "a.png" (Azure.mkService [] 0)
                  (OtherError "timed out") []).
    discriminate H. discriminate.
Qed.

(** C3, amended.  In both cloud back ends [file_exists] never raises: it
    returns a boolean in every world, and whenever the probe raises, be it
    not-found or any other error, the answer is [False]. *)
Theorem cloud_exists_never_raises :
  (forall (self : AWS.AWSS3Storage) filename w,
      exists b w', AWS.file_exists self filename w = (Ok b, w'))
  /\ (forall (self : AWS.AWSS3Storage) filename s e rest,
        AWS.file_exists self filename (mkRemote s (Some e :: rest))
        = (Ok false, mkRemote s rest))
  /\ (forall (self : AWS.AWSS3Storage) filename s,
        AWS.file_exists self filename (mkRemote s [])
        = (Ok (aws_has_object s (AWS.bucket_name self) filename), mkRemote s []))
  /\ (forall (self : Azure.AzureBlobStorage) filename w,
        exists b w', Azure.file_exists self filename w = (Ok b, w'))
  /\ (forall (self : Azure.AzureBlobStorage) filename s e rest,
        Azure.file_exists self filename (mkRemote s (Some e :: rest))
        = (Ok false, mkRemote s rest))
  /\ (forall (self : Azure.AzureBlobStorage) filename s,
        Azure.file_exists self filename (mkRemote s [])
        = (Ok (azure_has_blob s (Azure.container_name self) filename), mkRemote s [])).
Proof.
  refine (conj _ (conj _ (conj _ (conj _ (conj _ _))))).
  - intros self filename w.
    unfold AWS.file_exists, try_except, bind, ret.
    destruct (AWS.head_object (AWS.bucket_name self) filename w) as [[[]|e] w']; eauto.
    destruct e; eauto.
  - intros self filename s e rest.
    unfold AWS.file_exists, try_except, bind, ret, AWS.head_object, sdk_call. simpl.
    now destruct e.
  - intros self filename s.
    unfold AWS.file_exists, try_except, bind, ret, AWS.head_object, sdk_call, aws_has_object.
    simpl.
    destruct (lookup (AWS.bucket_name self) (AWS.buckets s)) as [b|]; [|reflexivity].
    now destruct (lookup filename (AWS.objects b)).
  - intros self filename w.
    unfold Azure.file_exists, try_except, ret.
    destruct (Azure.sdk_blob_exists (Azure.container_name self) filename w) as [[b|e] w']; eauto.
  - intros self filename s e rest. reflexivity.
  - intros self filename s.
    unfold Azure.file_exists, try_except, Azure.sdk_blob_exists, sdk_call, azure_has_blob.
    simpl.
    destruct (lookup (Azure.container_name self) (Azure.containers s)) as [c|]; [|reflexivity].
    now destruct (lookup filename (Azure.blobs c)).
Qed.

(** ** Start-up selection *)

Section Selection.

Variable endpoint_of : string -> string.

Lemma select_aws_fallback env p :
  (exists e, fst (aws_setup env (App.aws p)) = Raise e) ->
  exists st w,
    App.select_aws env p
    = (Ok tt, App.mkProcess "local" st (App.storage_type_name p) (App.fs p) (App.azure p) w).
Proof.
  intros [e He]. destruct p as [t st0 nm f az s3]. simpl in *.
  unfold aws_setup, bind in He.
  unfold App.select_aws, try_except, bind, App.in_aws, App.assign_storage,
    App.assign_storage_type_name, App.assign_STORAGE_TYPE. simpl.
  destruct (AWS.init _ _ _ _ s3) as [[s|e1] w1]; simpl.
  - destruct (AWS.create_container s w1) as [[b|e2] w2]; simpl.
    + discriminate He.
    + eauto.
  - eauto.
Qed.

Lemma select_azure_fallback env p :
  (exists e, fst (azure_setup endpoint_of env (App.azure p)) = Raise e) ->
  exists st w,
    App.select_azure endpoint_of env p
    = (Ok tt, App.mkProcess "local" st (App.storage_type_name p) (App.fs p) w (App.aws p)).
Proof.
  intros [e He]. destruct p as [t st0 nm f az s3]. simpl in *.
  unfold azure_setup, bind in He.
  unfold App.select_azure, try_except, bind, App.in_azure, App.assign_storage,
    App.assign_storage_type_name, App.assign_STORAGE_TYPE. simpl.
  destruct (Azure.init endpoint_of _ _ az) as [[s|e1] w1]; simpl.
  - destruct (Azure.create_container s w1) as [[b|e2] w2]; simpl.
    + discriminate He.
    + eauto.
  - eauto.
Qed.

Lemma select_local_result p :
  let s := Local.init "uploads" "photos" in
  App.select_local p
  = (Ok tt,
     match Local.create_container s (App.fs p) with
     | (Ok _, f') =>
         App.mkProcess (App.STORAGE_TYPE p) (Some (App.LocalStorage s)) "Local Storage"
                       f' (App.azure p) (App.aws p)
     | (Raise _, f') =>
         App.mkProcess (App.STORAGE_TYPE p) None (App.storage_type_name p)
                       f' (App.azure p) (App.aws p)
     end).
Proof.
  destruct p as [t st0 nm f az s3]. simpl.
  unfold App.select_local, try_except, bind, App.in_fs, App.assign_storage,
    App.assign_storage_type_name. simpl.
  now destruct (Local.create_container (Local.init "uploads" "photos") f) as [[b|e] f'].
Qed.

(** After a failed cloud set-up the local block runs on the untouched file
    system, with the type name still at its initial value. *)
Lemma boot_after_cloud_failure env f az s3 :
  cloud_setup_fails endpoint_of env az s3 ->
  exists st az' s3',
    App.boot endpoint_of env f az s3
    = snd (App.select_local (App.mkProcess "local" st "Local Storage" f az' s3')).
Proof.
  intros Hfail. unfold App.boot, App.module_init.
  unfold bind, App.assign_STORAGE_TYPE, App.assign_storage, App.assign_storage_type_name, gets.
  cbn -[App.select_aws App.select_azure App.select_local lower String.eqb].
  destruct Hfail as [[Ht He] | [Ht He]]; rewrite Ht;
    cbn -[App.select_aws App.select_azure App.select_local lower].
  - destruct (select_aws_fallback env
                (App.mkProcess "aws" None "Local Storage" f az s3) He) as (st & w & Hsel).
    rewrite Hsel. cbn -[App.select_local].
    now exists st, az, w.
  - destruct (select_azure_fallback env
                (App.mkProcess "azure" None "Local Storage" f az s3) He) as (st & w & Hsel).
    rewrite Hsel. cbn -[App.select_local].
    now exists st, w, s3.
Qed.

End Selection.

(** C2, as stated, does not hold: with AWS configured, its credentials
    rejected, and a regular file where the upload directory should go, the
    process ends with no storage handle. *)
Lemma fallback_without_handle :
  cloud_setup_fails (fun cs => cs) [("STORAGE_TYPE", "aws")]
    (mkRemote (Azure.mkService [] 0) [])
    (mkRemote (AWS.mkS3 [] 0) [None; Some (ClientError "403")])
  /\ App.health
       (App.boot (fun cs => cs) [("STORAGE_TYPE", "aws")]
          (mkFs [("uploads", File [] 0)] 1700000000000000)
          (mkRemote (Azure.mkService [] 0) [])
          (mkRemote (AWS.mkS3 [] 0) [None; Some (ClientError "403")]))
     = App.mkHealth "healthy" false "Local Storage"
  /\ ~ fallback_always_ready.
Proof.
  assert (Hfail : cloud_setup_fails (fun cs => cs) [("STORAGE_TYPE", "aws")]
                    (mkRemote (Azure.mkService [] 0) [])
                    (mkRemote (AWS.mkS3 [] 0) [None; Some (ClientError "403")])).
  { left. split; [reflexivity|]. exists (ClientError "403"). reflexivity. }
  split; [exact Hfail|]. split; [reflexivity|].
  intros H.
  specialize (H (fun cs => cs) [("STORAGE_TYPE", "aws")]
                (mkFs [("uploads", File [] 0)] 1700000000000000) _ _ Hfail).
  discriminate H.
Qed.

(** C2, amended.  When the configured back end is AWS or Azure and building
    it or its [create_container] raises at start-up, the selection falls
    back to the local back end: [STORAGE_TYPE] becomes ['local'] and
    [/health] reports the type [Local Storage]; the storage handle is
    present, and is the local adapter on [uploads/photos], when the local
    [create_container] succeeds, and is absent when that raises too. *)
Theorem boot_falls_back_to_local
    (endpoint_of : string -> string) (env : App.environ) (f : filesystem)
    (az : Azure.world) (s3 : AWS.world) :
  cloud_setup_fails endpoint_of env az s3 ->
  let p := App.boot endpoint_of env f az s3 in
  App.STORAGE_TYPE p = "local"
  /\ App.storage_type (App.health p) = "Local Storage"
  /\ (fst (Local.create_container (Local.init "uploads" "photos") f) = Ok true ->
      App.storage p = Some (App.LocalStorage (Local.init "uploads" "photos"))
      /\ App.storage_configured (App.health p) = true)
  /\ (forall e, fst (Local.create_container (Local.init "uploads" "photos") f) = Raise e ->
      App.storage p = None
      /\ App.storage_configured (App.health p) = false).
Proof.
  intros Hfail p.
  destruct (boot_after_cloud_failure endpoint_of env f az s3 Hfail) as (st & az' & s3' & Hboot).
  subst p. rewrite Hboot. rewrite select_local_result. simpl.
  destruct (Local.create_container (Local.init "uploads" "photos") f) as [[b|e] f'] eqn:Ec;
    simpl; repeat split; auto; try discriminate.
  all: intros; discriminate.
Qed.

Lemma boot_falls_back_to_local_witness :
  let p := App.boot (fun cs => cs) [("STORAGE_TYPE", "AWS")]
             (mkFs [] 1700000000000000)
             (mkRemote (Azure.mkService [] 0) [])
             (mkRemote (AWS.mkS3 [] 0) [None; Some (ClientError "403")]) in
  App.STORAGE_TYPE p = "local"
  /\ App.health p = App.mkHealth "healthy" true "Local Storage"
  /\ App.storage p = Some (App.LocalStorage (Local.init "uploads" "photos")).
Proof.
  assert (Hfail : cloud_setup_fails (fun cs => cs) [("STORAGE_TYPE", "AWS")]
                    (mkRemote (Azure.mkService [] 0) [])
                    (mkRemote (AWS.mkS3 [] 0) [None; Some (ClientError "403")])).
  { left. split; [reflexivity|]. exists (ClientError "403"). reflexivity. }
  destruct (boot_falls_back_to_local (fun cs => cs) [("STORAGE_TYPE", "AWS")]
              (mkFs [] 1700000000000000) _ _ Hfail) as (Ht & Hname & Hok & _).
  destruct (Hok eq_refl) as [Hst Hconf].
  split; [exact Ht|]. split; [reflexivity | exact Hst].
Defined.

(** ** Listings *)

Lemma string_ltb_irrefl (s : string) : String.ltb s s = false.
Proof.
  unfold String.ltb.
  destruct (String.compare s s) eqn:E; auto.
  pose proof (String.compare_antisym s s) as H.
  rewrite E in H. discriminate H.
Qed.

(** Entries that carry one and the same [created] string come out of the
    sort in the order they went in. *)
Lemma sort_created_desc_ties (k : string) (l : list file_info) :
  Forall (fun i => created i = k) l -> sort_created_desc l = l.
Proof.
  induction 1 as [|x l Hx Hl IH]; simpl; [reflexivity|].
  rewrite IH. destruct Hl as [|y l' Hy _]; simpl; [reflexivity|].
  now rewrite Hx, Hy, string_ltb_irrefl.
Qed.

Lemma insert_desc_forall (P : file_info -> Prop) x l :
  P x -> Forall P l -> Forall P (insert_desc x l).
Proof.
  intros Hx Hl. induction Hl as [|y l Hy Hl IH]; simpl.
  - now constructor.
  - destruct (String.ltb (created x) (created y)); repeat constructor; auto.
Qed.

Lemma sort_created_desc_forall (P : file_info -> Prop) l :
  Forall P l -> Forall P (sort_created_desc l).
Proof.
  induction 1; simpl; [constructor | now apply insert_desc_forall].
Qed.

Section ListingFacts.

Variable guess_type : string -> option string.
Variable strftime : Z -> string.

(** [list_files] is the sort of what the loop over [os.listdir] collects. *)
Lemma local_list_files_of_loop (self : Local.LocalFileStorage) fs :
  os_path_isdir (Local.full_path self) fs = true ->
  Local.list_files guess_type strftime self fs
  = match Local.list_loop guess_type strftime self
            (children (Local.full_path self) (nodes fs)) fs with
    | (Ok l, fs') => (Ok (sort_created_desc l), fs')
    | (Raise e, fs') => (Raise e, fs')
    end.
Proof.
  intros Hd. unfold Local.list_files, bind, gets, ret, os_path_exists, os_listdir.
  unfold os_path_isdir in Hd.
  destruct (fs_lookup fs (Local.full_path self)) as [[d t|t]|] eqn:E; try discriminate.
  simpl. rewrite E.
  now destruct (Local.list_loop guess_type strftime self
                  (children (Local.full_path self) (nodes fs)) fs) as [[l|e] fs'].
Qed.

Lemma local_list_loop_content_type (self : Local.LocalFileStorage) names : forall fs l fs',
  Local.list_loop guess_type strftime self names fs = (Ok l, fs') ->
  Forall (fun i => content_type i = Local.infer_content_type guess_type (name i)) l.
Proof.
  induction names as [|n names IH]; intros fs l fs' H; simpl in H.
  - inversion H. constructor.
  - unfold bind in H.
    destruct (Local.list_entry guess_type strftime self n fs) as [[o|e] fs1] eqn:Eo;
      [|discriminate].
    destruct (Local.list_loop guess_type strftime self names fs1) as [[l1|e] fs2] eqn:El;
      [|discriminate].
    apply IH in El.
    unfold ret in H. inversion H; subst.
    destruct o as [i|]; auto.
    constructor; auto.
    unfold Local.list_entry, bind, gets, ret in Eo.
    destruct (os_path_isdir (os_path_join (Local.full_path self) n) fs); [discriminate|].
    destruct (os_stat (os_path_join (Local.full_path self) n) fs) as [[st|e] fs3];
      [|discriminate].
    inversion Eo. reflexivity.
Qed.

(** The local listing reports, for every entry, the type looked up from
    its name, or the default. *)
Lemma local_listing_content_type (self : Local.LocalFileStorage) fs l fs' :
  Local.list_files guess_type strftime self fs = (Ok l, fs') ->
  Forall (fun i => content_type i = Local.infer_content_type guess_type (name i)) l.
Proof.
  unfold Local.list_files, bind, gets, ret.
  destruct (os_path_exists (Local.full_path self) fs); simpl.
  - destruct (os_listdir (Local.full_path self) fs) as [[names|e] fs1]; [|discriminate].
    destruct (Local.list_loop guess_type strftime self names fs1) as [[l1|e] fs2] eqn:El;
      [|discriminate].
    intros H. inversion H; subst.
    apply sort_created_desc_forall. eapply local_list_loop_content_type. exact El.
  - intros H. inversion H. constructor.
Qed.

(** The Azure listing reports the type recorded with the blob, which for a
    blob the adapter uploaded is the type looked up from its name. *)
Lemma azure_listing_content_type (self : Azure.AzureBlobStorage) stream filename s c :
  filename <> "" ->
  lookup (Azure.container_name self) (Azure.containers s) = Some c ->
  exists s1 l,
    Azure.upload_file guess_type self stream filename (mkRemote s [])
    = (Ok (Azure.blob_url self filename), mkRemote s1 [])
    /\ Azure.list_files strftime self (mkRemote s1 []) = (Ok l, mkRemote s1 [])
    /\ exists i, In i l /\ name i = filename
                 /\ content_type i = Local.infer_content_type guess_type filename.
Proof.
  intros Hne Hc. apply String.eqb_neq in Hne.
  unfold Azure.upload_file, Azure.list_files, bind, ret, Azure.sdk_upload_blob,
    Azure.sdk_list_blobs, sdk_call. simpl. rewrite Hne, Hc. simpl.
  eexists. eexists. split; [reflexivity|].
  simpl. rewrite lookup_store_eq. simpl. split; [reflexivity|].
  set (b := Azure.mkBlob (stream_rest stream)
              (Some (Azure.mkContentSettings
                       match guess_type filename with
                       | Some t => t
                       | None => "application/octet-stream"
                       end))
              (Some (Azure.service_clock s))).
  exists (Azure.blob_info strftime self (filename, b)).
  split; [|split; reflexivity].
  apply in_map.
  assert (Hin : forall (l : list (string * Azure.blob)), In (filename, b) (store filename b l)).
  { induction l as [|[k v] l IH]; simpl; [now left|].
    destruct (String.eqb filename k); [now left | now right]. }
  apply Hin.
Qed.

(** The AWS upload records the type looked up from the name. *)
Lemma aws_upload_content_type (self : AWS.AWSS3Storage) buffer pos filename s b :
  filename <> "" ->
  lookup (AWS.bucket_name self) (AWS.buckets s) = Some b ->
  exists s1 b1 o,
    AWS.upload_file guess_type self (FileObj buffer pos) filename (mkRemote s [])
    = (Ok (AWS.object_url self filename), mkRemote s1 [])
    /\ lookup (AWS.bucket_name self) (AWS.buckets s1) = Some b1
    /\ lookup filename (AWS.objects b1) = Some o
    /\ AWS.ContentType o = Local.infer_content_type guess_type filename.
Proof.
  intros Hne Hb. apply String.eqb_neq in Hne.
  unfold AWS.upload_file, bind, ret, AWS.upload_fileobj, sdk_call. simpl.
  rewrite Hne, Hb. simpl.
  eexists. eexists. eexists. split; [reflexivity|].
  unfold AWS.set_bucket. simpl.
  split; [apply lookup_store_eq|]. simpl.
  split; [apply lookup_store_eq|]. reflexivity.
Qed.

(** The AWS listing reports one literal for every object. *)
Lemma aws_listing_content_type (self : AWS.AWSS3Storage) w l w' :
  AWS.list_files strftime self w = (Ok l, w') ->
  Forall (fun i => content_type i = "image/*") l.
Proof.
  unfold AWS.list_files, bind, ret.
  destruct (AWS.list_objects_v2 (AWS.bucket_name self) w) as [[[contents|]|e] w1];
    intros H; inversion H; subst; [|constructor].
  apply Forall_forall. intros i Hi.
  apply in_map_iff in Hi. destruct Hi as [[k o] [<- _]]. reflexivity.
Qed.

End ListingFacts.

(** C5, at an input where the code departs from it.  Three objects created
    at [t1 < t2 < t3] inside one second are stored with these three change
    times, and [list_files] returns them oldest first, in the order
    [os.listdir] gave them: their [created] strings are equal, so the sort
    moves nothing. *)
Theorem local_listing_within_one_second
    (guess_type : string -> option string) (strftime : Z -> string) :
  let self := Local.init "uploads" "photos" in
  let entry n := mkInfo n ("/uploads/photos/" ++ n) 1 (strftime 1700000000)
                        (Local.infer_content_type guess_type n) in
  fst (os_stat "uploads/photos/a.png" three_uploads_in_a_second)
    = Ok (mkStat 1 1700000000100000)
  /\ fst (os_stat "uploads/photos/b.png" three_uploads_in_a_second)
     = Ok (mkStat 1 1700000000200000)
  /\ fst (os_stat "uploads/photos/c.png" three_uploads_in_a_second)
     = Ok (mkStat 1 1700000000300000)
  /\ fst (Local.list_files guess_type strftime self three_uploads_in_a_second)
     = Ok [entry "a.png"; entry "b.png"; entry "c.png"]
  /\ fst (Local.list_files guess_type strftime self three_uploads_in_a_second)
     <> Ok [entry "c.png"; entry "b.png"; entry "a.png"].
Proof.
  intros self entry.
  assert (Hlist : fst (Local.list_files guess_type strftime self three_uploads_in_a_second)
                  = Ok [entry "a.png"; entry "b.png"; entry "c.png"]).
  { rewrite local_list_files_of_loop by reflexivity.
    assert (Hloop : Local.list_loop guess_type strftime self
                      (children (Local.full_path self) (nodes three_uploads_in_a_second))
                      three_uploads_in_a_second
                    = (Ok [entry "a.png"; entry "b.png"; entry "c.png"],
                       three_uploads_in_a_second))
      by (vm_compute; reflexivity).
    rewrite Hloop. cbv beta match delta [fst]. f_equal.
    apply sort_created_desc_ties with (k := strftime 1700000000).
    repeat constructor. }
  repeat split; try reflexivity; try exact Hlist.
  rewrite Hlist. intros H. inversion H.
Qed.

(** C8, at an input where the code departs from it.  On AWS an upload of
    [a.png] records the type looked up from the name with the object, and
    the listing reports the literal [image/*] for it. *)
Theorem aws_listing_reports_literal_type
    (guess_type : string -> option string) (strftime : Z -> string) :
  guess_type "a.png" = Some "image/png" ->
  let self := AWS.mkAWS "photos" "us-east-1" in
  let w0 := mkRemote (AWS.mkS3 [("photos", AWS.mkBucket None None None [])]
                               1700000000000000) [] in
  let w1 := snd (AWS.upload_file guess_type self (BytesIO [x01]) "a.png" w0) in
  (exists b o,
      lookup "photos" (AWS.buckets (service w1)) = Some b
      /\ lookup "a.png" (AWS.objects b) = Some o
      /\ AWS.ContentType o = "image/png")
  /\ fst (AWS.list_files strftime self w1)
     = Ok [mkInfo "a.png" "https://photos.s3.us-east-1.amazonaws.com/a.png" 1
                  (strftime 1700000000) "image/*"].
Proof.
  intros Hg self w0 w1. split.
  - eexists. eexists. split; [reflexivity|]. split; [reflexivity|].
    simpl. now rewrite Hg.
  - reflexivity.
Qed.

Lemma aws_listing_reports_literal_type_witness :
  fst (AWS.list_files (fun _ => "2023-11-14 22:13:20") (AWS.mkAWS "photos" "us-east-1")
         (snd (AWS.upload_file (fun _ => Some "image/png") (AWS.mkAWS "photos" "us-east-1")
                 (BytesIO [x01]) "a.png"
                 (mkRemote (AWS.mkS3 [("photos", AWS.mkBucket None None None [])]
                                     1700000000000000) []))))
  = Ok [mkInfo "a.png" "https://photos.s3.us-east-1.amazonaws.com/a.png" 1
               "2023-11-14 22:13:20" "image/*"].
Proof.
  apply (aws_listing_reports_literal_type (fun _ => Some "image/png")
           (fun _ => "2023-11-14 22:13:20") eq_refl).
Defined.

(** * Further properties of the local back end *)

Lemma lookup_store_ne {A} k k' (v : A) l : k <> k' -> lookup k (store k' v l) = lookup k l.
Proof.
  intros Hne. apply String.eqb_neq in Hne.
  induction l as [|[k0 v0] l IH]; simpl.
  - now rewrite Hne.
  - destruct (String.eqb k' k0) eqn:E; simpl.
    + apply String.eqb_eq in E. subst k0. now rewrite Hne.
    + now rewrite IH.
Qed.

Lemma lookup_remove_ne {A} k k' (l : list (string * A)) :
  k <> k' -> lookup k (remove_key k' l) = lookup k l.
Proof.
  intros Hne. unfold remove_key.
  induction l as [|[k0 v0] l IH]; simpl; auto.
  destruct (String.eqb k' k0) eqn:E; simpl.
  - apply String.eqb_eq in E. subst k0.
    apply String.eqb_neq in Hne. now rewrite Hne.
  - now rewrite IH.
Qed.

Lemma append_empty_r a : a ++ "" = a.
Proof. induction a; simpl; congruence. Qed.

Lemma append_inj_l a x y : a ++ x = a ++ y -> x = y.
Proof. induction a; simpl; intros H; [exact H | inversion H; auto]. Qed.

Lemma strip_prefix_some pre p n : strip_prefix pre p = Some n -> p = pre ++ n.
Proof.
  revert p. induction pre as [|a pre IH]; intros p; simpl.
  - now intros [= ->].
  - destruct p as [|b p]; [discriminate|].
    destruct (Ascii.eqb a b) eqn:E; [|discriminate].
    apply Ascii.eqb_eq in E. subst b. intros H. f_equal. now apply IH.
Qed.

(** Joining a directory and one of its listed names gives back the path of
    the entry. *)
Lemma child_name_join d p n : child_name d p = Some n -> os_path_join d n = p.
Proof.
  unfold child_name.
  destruct (strip_prefix (os_path_join d "") p) as [n0|] eqn:E; [|discriminate].
  destruct (negb (String.eqb n0 "") && negb (contains_slash n0)) eqn:Hn; [|discriminate].
  intros [= <-].
  apply andb_prop in Hn. destruct Hn as [_ Hs]. apply negb_true_iff in Hs.
  apply strip_prefix_some in E. subst p.
  unfold os_path_join. rewrite (no_slash_startswith _ Hs). simpl.
  destruct (String.eqb d "" || endswith_slash d).
  - now rewrite append_empty_r.
  - now rewrite !append_assoc.
Qed.

Lemma children_lookup d n (l : list (string * node)) :
  In n (children d l) -> exists v, lookup (os_path_join d n) l = Some v.
Proof.
  induction l as [|[p x] l IH]; simpl; [intros []|].
  intros Hin.
  destruct (String.eqb (os_path_join d n) p) eqn:E; [eauto|].
  destruct (child_name d p) as [n'|] eqn:Ec; [|auto].
  destruct Hin as [-> | Hin]; [|auto].
  apply child_name_join in Ec. apply String.eqb_neq in E. contradiction.
Qed.

Lemma join_valid_inj d a b :
  plain_dir d = true -> valid_name a = true -> valid_name b = true ->
  os_path_join d a = os_path_join d b -> a = b.
Proof.
  intros Hd Ha Hb.
  rewrite (join_plain _ _ Hd (valid_name_no_slash _ Ha)).
  rewrite (join_plain _ _ Hd (valid_name_no_slash _ Hb)).
  intros H. apply append_inj_l in H. now inversion H.
Qed.

Lemma join_valid_longer d n :
  plain_dir d = true -> valid_name n = true ->
  (String.length d < String.length (os_path_join d n))%nat.
Proof.
  intros Hd Hn. rewrite (join_plain _ _ Hd (valid_name_no_slash _ Hn)).
  rewrite append_length. simpl. lia.
Qed.

Lemma mkdir_all_frame qs : forall fs r fs',
  mkdir_all qs fs = (r, fs') ->
  forall k, ~ In k qs -> fs_lookup fs' k = fs_lookup fs k.
Proof.
  induction qs as [|q qs IH]; intros fs r fs' H k Hk.
  - inversion H. reflexivity.
  - cbn [mkdir_all] in H. unfold bind, mkdir_exist_ok in H.
    assert (Hq : k <> q) by (intros ->; apply Hk; now left).
    assert (Hqs : ~ In k qs) by (intros Hin; apply Hk; now right).
    destruct (os_refusal q) as [e|]; [inversion H; reflexivity|].
    destruct (fs_lookup fs q) as [[d t|t]|] eqn:E.
    + inversion H. reflexivity.
    + now apply IH with (k := k) in H.
    + apply IH with (k := k) in H; [|exact Hqs].
      rewrite H. unfold fs_lookup. simpl. rewrite lookup_snoc.
      apply String.eqb_neq in Hq. rewrite Hq.
      now destruct (lookup k (nodes fs)).
Qed.

Lemma os_makedirs_frame p fs r fs' :
  os_makedirs p fs = (r, fs') ->
  forall k, (String.length p < String.length k)%nat -> fs_lookup fs' k = fs_lookup fs k.
Proof.
  unfold os_makedirs. intros H k Hk.
  destruct (os_path_isdir p fs); [inversion H; reflexivity|].
  destruct (String.eqb p ""); [inversion H; reflexivity|].
  eapply mkdir_all_frame; [exact H|].
  intros Hin. apply path_prefixes_length in Hin. simpl in Hin. lia.
Qed.

Lemma write_file_frame {A} p b (u : A) fs r fs' :
  (open_wb p ;;; f_write p b ;;; ret u) fs = (r, fs') ->
  forall q, q <> p -> fs_lookup fs' q = fs_lookup fs q.
Proof.
  unfold bind, open_wb. intros H q Hq.
  assert (Hw : (let (r0, w') := f_write p b (mkFs (store p (File [] (clock fs)) (nodes fs)) (clock fs)) in
                match r0 with
                | Ok _ => ret u w'
                | Raise e => (Raise e, w')
                end) = (r, fs') ->
               fs_lookup fs' q = fs_lookup fs q).
  { rewrite f_write_after_open. unfold ret. intros H'. inversion H'; subst.
    unfold fs_lookup. simpl. now rewrite !lookup_store_ne. }
  destruct (os_refusal p) as [e|]; [inversion H; reflexivity|].
  destruct (fs_lookup fs p) as [[d t|t]|].
  - exact (Hw H).
  - inversion H. reflexivity.
  - destruct (parent_ready p fs); [exact (Hw H) | inversion H; reflexivity].
Qed.

Section LocalMore.

Variable self : Local.LocalFileStorage.

Let file_path (filename : string) : string :=
  os_path_join (Local.full_path self) filename.

(** An upload, whether it returns or raises, touches no path below the
    container other than its own. *)
Lemma upload_file_frame stream filename fs r fs' :
  Local.upload_file self stream filename fs = (r, fs') ->
  forall q, (String.length (Local.full_path self) < String.length q)%nat ->
            q <> file_path filename ->
            fs_lookup fs' q = fs_lookup fs q.
Proof.
  rewrite upload_file_steps. unfold bind at 1.
  destruct (Local.create_container self fs) as [r1 fs1] eqn:Ec.
  intros H q Hlen Hq.
  assert (H1 : fs_lookup fs1 q = fs_lookup fs q).
  { apply create_container_inv in Ec.
    destruct Ec as [[_ Hmk] | [e [_ Hmk]]];
      eapply os_makedirs_frame; eauto. }
  destruct r1 as [b|e].
  - rewrite <- H1. eapply write_file_frame; eauto.
  - inversion H; subst. exact H1.
Qed.

Lemma delete_file_frame filename fs r fs' :
  Local.delete_file self filename fs = (r, fs') ->
  forall q, q <> file_path filename -> fs_lookup fs' q = fs_lookup fs q.
Proof.
  unfold Local.delete_file, bind, gets, ret, os_path_exists, os_remove.
  fold (file_path filename).
  intros H q Hq.
  destruct (fs_lookup fs (file_path filename)) as [[d t|t]|] eqn:E; simpl in H;
    try rewrite E in H; inversion H; subst; try reflexivity.
  unfold fs_lookup. simpl. now apply lookup_remove_ne.
Qed.

Lemma download_by_lookup filename fs fs' :
  fs_lookup fs' (file_path filename) = fs_lookup fs (file_path filename) ->
  fst (Local.download_file self filename fs') = fst (Local.download_file self filename fs).
Proof.
  intros H. unfold Local.download_file, bind, gets, os_path_exists, read_rb.
  fold (file_path filename). rewrite H.
  destruct (fs_lookup fs (file_path filename)) as [[d t|t]|] eqn:E; simpl;
    rewrite ?H, ?E; reflexivity.
Qed.

(** A successful upload leaves the container directory in place. *)
Lemma upload_file_keeps_container stream filename fs url fs' :
  valid_name filename = true ->
  plain_dir (Local.full_path self) = true ->
  Local.upload_file self stream filename fs = (Ok url, fs') ->
  os_path_isdir (Local.full_path self) fs' = true.
Proof.
  intros Hv Hd. rewrite upload_file_steps. unfold bind at 1.
  destruct (Local.create_container self fs) as [r1 fs1] eqn:Ec.
  apply create_container_inv in Ec.
  destruct Ec as [[-> Hmk] | [e [-> _]]]; [|discriminate].
  apply os_makedirs_ok in Hmk. destruct Hmk as (_ & Hdir & _).
  intros H. unfold os_path_isdir in *.
  erewrite write_file_frame; [exact Hdir | exact H |].
  intros Heq. pose proof (join_valid_longer _ _ Hd Hv) as Hlen.
  rewrite <- Heq in Hlen. lia.
Qed.

End LocalMore.

(** X1.  On the local back end an upload that returns makes [file_exists]
    answer [True] for the name, without changing the file system. *)
Theorem local_upload_then_exists
    (self : Local.LocalFileStorage) (stream : file_stream) (filename : string)
    (fs : filesystem) (url : string) (fs' : filesystem) :
  Local.upload_file self stream filename fs = (Ok url, fs') ->
  Local.file_exists self filename fs' = (Ok true, fs').
Proof.
  intros Hup. apply upload_file_ok in Hup. destruct Hup as (Hfile & _ & _).
  unfold Local.file_exists, try_except, gets, os_path_exists.
  now rewrite Hfile.
Qed.

Lemma local_upload_then_exists_witness :
  Local.file_exists (Local.init "uploads" "photos") "a.png"
    (snd (Local.upload_file (Local.init "uploads" "photos") (BytesIO (repeat xff 10))
            "a.png" (mkFs [] 1700000000000000)))
  = (Ok true,
     snd (Local.upload_file (Local.init "uploads" "photos") (BytesIO (repeat xff 10))
            "a.png" (mkFs [] 1700000000000000))).
Proof.
  apply (local_upload_then_exists (Local.init "uploads" "photos") (BytesIO (repeat xff 10))
           "a.png" (mkFs [] 1700000000000000) "/uploads/photos/a.png").
  reflexivity.
Defined.

(** X2.  Uploading to a name that is already stored overwrites it: after a
    first upload has gone through, a second upload to the same name, at any
    instant and with any payload, goes through as well, returns the
    same URL, a download then returns the second payload, and the container
    directory lists the same names as before. *)
Theorem local_reupload_overwrites
    (self : Local.LocalFileStorage) (s1 s2 : file_stream) (filename : string)
    (fs : filesystem) (url : string) (fs1 : filesystem) (t : Z) :
  valid_name filename = true ->
  plain_dir (Local.full_path self) = true ->
  Local.upload_file self s1 filename fs = (Ok url, fs1) ->
  exists fs2,
    Local.upload_file self s2 filename (at_time t fs1) = (Ok url, fs2)
    /\ Local.download_file self filename fs2 = (Ok (stream_rest s2), fs2)
    /\ children (Local.full_path self) (nodes fs2)
       = children (Local.full_path self) (nodes fs1).
Proof.
  intros Hv Hd Hup.
  pose proof (upload_file_keeps_container self s1 filename fs url fs1 Hv Hd Hup) as Hdir.
  pose proof (upload_file_accepted self s1 filename fs url fs1 Hup) as Hacc.
  apply upload_file_ok in Hup. destruct Hup as (Hfile & Hurl & _).
  set (p := os_path_join (Local.full_path self) filename) in *.
  rewrite upload_file_steps. unfold bind at 1.
  rewrite (local_create_container_existing self (at_time t fs1)) by exact Hdir.
  unfold bind, open_wb. fold p. rewrite Hacc.
  replace (fs_lookup (at_time t fs1) p) with (fs_lookup fs1 p) by reflexivity.
  rewrite Hfile. rewrite f_write_after_open. unfold ret.
  eexists. split; [now rewrite Hurl|]. split.
  - apply download_stored with (t := clock (at_time t fs1)).
    unfold fs_lookup. simpl. now rewrite lookup_store_eq.
  - simpl.
    assert (Hstore : forall (v : node) (l : list (string * node)) x,
               lookup p l = Some x ->
               children (Local.full_path self) (store p v l)
               = children (Local.full_path self) l).
    { intros v l. induction l as [|[k y] l IH]; intros x Hl; simpl in *; [discriminate|].
      destruct (String.eqb p k) eqn:E.
      - apply String.eqb_eq in E. subst k. reflexivity.
      - simpl. now rewrite (IH x Hl). }
    unfold fs_lookup in Hfile.
    rewrite (Hstore _ _ (File [] t)); [now apply Hstore with (x := File (stream_rest s1) (clock fs))|].
    apply lookup_store_eq.
Qed.

Lemma local_reupload_overwrites_witness :
  exists fs2,
    Local.upload_file (Local.init "uploads" "photos") (RawBytes [x02; x03]) "a.png"
      (at_time 1700000005000000
         (snd (Local.upload_file (Local.init "uploads" "photos") (BytesIO [x01]) "a.png"
                 (mkFs [] 1700000000000000))))
    = (Ok "/uploads/photos/a.png", fs2)
    /\ Local.download_file (Local.init "uploads" "photos") "a.png" fs2 = (Ok [x02; x03], fs2)
    /\ children "uploads/photos" (nodes fs2) = ["a.png"].
Proof.
  destruct (local_reupload_overwrites (Local.init "uploads" "photos") (BytesIO [x01])
              (RawBytes [x02; x03]) "a.png" (mkFs [] 1700000000000000)
              "/uploads/photos/a.png"
              (snd (Local.upload_file (Local.init "uploads" "photos") (BytesIO [x01]) "a.png"
                      (mkFs [] 1700000000000000)))
              1700000005000000 eq_refl eq_refl eq_refl) as (fs2 & Hup & Hdown & Hnames).
  exists fs2. split; [exact Hup|]. split; [exact Hdown|].
  exact Hnames.
Defined.

(** X3.  Downloading a name the container directory has no entry for
    raises [FileNotFoundError] and leaves the file system as it was. *)
Theorem local_download_missing
    (self : Local.LocalFileStorage) (filename : string) (fs : filesystem) :
  valid_name filename = true ->
  plain_dir (Local.full_path self) = true ->
  ~ In filename (children (Local.full_path self) (nodes fs)) ->
  Local.download_file self filename fs = (Raise FileNotFoundError, fs).
Proof.
  intros Hv Hd Hout.
  unfold Local.download_file, bind, gets, raise, os_path_exists.
  destruct (fs_lookup fs (os_path_join (Local.full_path self) filename)) as [v|] eqn:E;
    [|reflexivity].
  exfalso. apply Hout.
  eapply children_of_lookup; [exact E|].
  now apply child_name_of_join.
Qed.

Lemma local_download_missing_witness :
  Local.download_file (Local.init "uploads" "photos") "a.png"
    (mkFs [("uploads", Dir 0); ("uploads/photos", Dir 0);
           ("uploads/photos/b.png", File [x01] 0)] 5)
  = (Raise FileNotFoundError,
     mkFs [("uploads", Dir 0); ("uploads/photos", Dir 0);
           ("uploads/photos/b.png", File [x01] 0)] 5).
Proof.
  apply (local_download_missing (Local.init "uploads" "photos") "a.png"); try reflexivity.
  simpl. intros [H | []]. discriminate H.
Defined.

(** X4.  Objects do not interfere on the local back end: for two different
    valid names, neither an upload to the first, whether it returns or
    raises, nor a deletion of the first changes what a download of the
    second gives. *)
Theorem local_objects_independent
    (self : Local.LocalFileStorage) (a b : string) :
  valid_name a = true ->
  valid_name b = true ->
  a <> b ->
  plain_dir (Local.full_path self) = true ->
  (forall stream fs,
      fst (Local.download_file self b (snd (Local.upload_file self stream a fs)))
      = fst (Local.download_file self b fs))
  /\ (forall fs,
        fst (Local.download_file self b (snd (Local.delete_file self a fs)))
        = fst (Local.download_file self b fs)).
Proof.
  intros Ha Hb Hab Hd.
  assert (Hpaths : os_path_join (Local.full_path self) b
                   <> os_path_join (Local.full_path self) a).
  { intros H. apply Hab. symmetry. now apply (join_valid_inj _ _ _ Hd Hb Ha). }
  split.
  - intros stream fs. apply download_by_lookup.
    destruct (Local.upload_file self stream a fs) as [r fs'] eqn:E. simpl.
    eapply upload_file_frame; eauto.
    now apply join_valid_longer.
  - intros fs. apply download_by_lookup.
    destruct (Local.delete_file self a fs) as [r fs'] eqn:E. simpl.
    eapply delete_file_frame; eauto.
Qed.

Lemma local_objects_independent_witness :
  fst (Local.download_file (Local.init "uploads" "photos") "b.png"
         (snd (Local.upload_file (Local.init "uploads" "photos") (BytesIO [x07]) "a.png"
                 (mkFs [("uploads", Dir 0); ("uploads/photos", Dir 0);
                        ("uploads/photos/b.png", File [x01] 0)] 5))))
  = Ok [x01]
  /\ fst (Local.download_file (Local.init "uploads" "photos") "b.png"
            (snd (Local.delete_file (Local.init "uploads" "photos") "a.png"
                    (mkFs [("uploads", Dir 0); ("uploads/photos", Dir 0);
                           ("uploads/photos/a.png", File [x07] 1);
                           ("uploads/photos/b.png", File [x01] 0)] 5))))
     = Ok [x01].
Proof.
  assert (Hne : "a.png" <> "b.png") by discriminate.
  destruct (local_objects_independent (Local.init "uploads" "photos") "a.png" "b.png"
              eq_refl eq_refl Hne eq_refl) as [Hup Hdel].
  split.
  - rewrite Hup. reflexivity.
  - rewrite Hdel. reflexivity.
Defined.

(** ** The local listing *)

Lemma ascii_compare_cases a b :
  match Ascii.compare a b with
  | Eq => a = b
  | Lt => (N_of_ascii a < N_of_ascii b)%N
  | Gt => (N_of_ascii b < N_of_ascii a)%N
  end.
Proof.
  destruct (Ascii.compare a b) eqn:E.
  - now apply Ascii.compare_eq_iff.
  - unfold Ascii.compare in E. now apply N.compare_lt_iff.
  - unfold Ascii.compare in E. now apply N.compare_gt_iff.
Qed.

Lemma string_not_lt_trans : forall a b c,
  String.ltb a b = false -> String.ltb b c = false -> String.ltb a c = false.
Proof.
  unfold String.ltb.
  induction a as [|ca a IH]; intros [|cb b] [|cc c]; simpl; auto; try discriminate.
  pose proof (ascii_compare_cases ca cb) as Hab.
  pose proof (ascii_compare_cases cb cc) as Hbc.
  pose proof (ascii_compare_cases ca cc) as Hac.
  destruct (Ascii.compare ca cb) eqn:E1; try discriminate;
  destruct (Ascii.compare cb cc) eqn:E2; try discriminate;
  destruct (Ascii.compare ca cc) eqn:E3; subst; auto; try lia;
    try (rewrite E3 in *; discriminate); try (rewrite E2 in *; discriminate);
    try (rewrite E1 in *; discriminate).
  intros H1 H2. apply (IH b c); assumption.
Qed.

Lemma string_lt_asym a b : String.ltb a b = true -> String.ltb b a = false.
Proof.
  unfold String.ltb. rewrite (String.compare_antisym b a).
  now destruct (String.compare a b).
Qed.

Lemma insert_desc_perm x l : Permutation (insert_desc x l) (x :: l).
Proof.
  induction l as [|y l IH]; simpl; [reflexivity|].
  destruct (String.ltb (created x) (created y)); [|reflexivity].
  rewrite IH. apply perm_swap.
Qed.

Lemma sort_created_desc_perm l : Permutation (sort_created_desc l) l.
Proof.
  induction l as [|x l IH]; simpl; [reflexivity|].
  rewrite insert_desc_perm. now constructor.
Qed.

Lemma insert_desc_sorted x l :
  StronglySorted not_newer l -> StronglySorted not_newer (insert_desc x l).
Proof.
  induction 1 as [|y l Hl IH Hy]; simpl.
  - repeat constructor.
  - destruct (String.ltb (created x) (created y)) eqn:E.
    + constructor; [exact IH|].
      apply Forall_forall. intros z Hz.
      apply (Permutation_in _ (insert_desc_perm x l)) in Hz.
      destruct Hz as [<- | Hz].
      * now apply string_lt_asym.
      * revert z Hz. now apply Forall_forall.
    + constructor; [now constructor|].
      constructor; [exact E|].
      eapply Forall_impl; [|exact Hy].
      intros z Hz. unfold not_newer in *. eapply string_not_lt_trans; eauto.
Qed.

Lemma sort_created_desc_sorted l : StronglySorted not_newer (sort_created_desc l).
Proof.
  induction l; simpl; [constructor | now apply insert_desc_sorted].
Qed.

Section LocalListing.

Variable guess_type : string -> option string.
Variable strftime : Z -> string.
Variable self : Local.LocalFileStorage.

Lemma list_loop_spec names : forall fs,
  (forall n, In n names ->
             exists v, fs_lookup fs (os_path_join (Local.full_path self) n) = Some v) ->
  exists l,
    Local.list_loop guess_type strftime self names fs = (Ok l, fs)
    /\ map name l
       = filter (fun n => negb (os_path_isdir (os_path_join (Local.full_path self) n) fs))
                names
    /\ Forall (describes_file guess_type strftime self fs) l.
Proof.
  induction names as [|n names IH]; intros fs Hall.
  - exists []. repeat split; constructor.
  - destruct (IH fs) as (l & Hl & Hnames & Hdesc).
    { intros m Hm. apply Hall. now right. }
    destruct (Hall n (or_introl eq_refl)) as [v Hv].
    cbn [Local.list_loop filter].
    unfold bind, Local.list_entry, gets, ret, os_stat, os_path_isdir. unfold bind.
    rewrite Hv.
    destruct v as [d t|t]; simpl; rewrite ?Hv, Hl.
    + eexists. split; [reflexivity|]. split; [simpl; now rewrite Hnames|].
      constructor; [|exact Hdesc].
      exists d, t. simpl. split; [exact Hv | reflexivity].
    + exists l. repeat split; assumption.
Qed.

Lemma list_entry_readonly n f r f1 :
  Local.list_entry guess_type strftime self n f = (r, f1) -> f1 = f.
Proof.
  unfold Local.list_entry, bind, gets, ret, os_stat.
  destruct (os_path_isdir (os_path_join (Local.full_path self) n) f); simpl.
  - now intros [= _ <-].
  - destruct (fs_lookup f (os_path_join (Local.full_path self) n)) as [[d t|t]|];
      now intros [= _ <-].
Qed.

Lemma list_loop_readonly names : forall f r f1,
  Local.list_loop guess_type strftime self names f = (r, f1) -> f1 = f.
Proof.
  induction names as [|n names IH]; intros f r f1; cbn [Local.list_loop].
  - now intros [= _ <-].
  - unfold bind.
    destruct (Local.list_entry guess_type strftime self n f) as [[o|e] f2] eqn:Eo;
      apply list_entry_readonly in Eo; subst f2.
    + destruct (Local.list_loop guess_type strftime self names f) as [[l|e] f3] eqn:El;
        apply IH in El; subst f3; unfold ret; now intros [= _ <-].
    + now intros [= _ <-].
Qed.

Lemma list_files_readonly fs r fs' :
  Local.list_files guess_type strftime self fs = (r, fs') -> fs' = fs.
Proof.
  unfold Local.list_files, bind, gets, ret, os_listdir.
  destruct (os_path_exists (Local.full_path self) fs); simpl;
    [|now intros [= _ <-]].
  destruct (fs_lookup fs (Local.full_path self)) as [[d t|t]|]; simpl;
    try now intros [= _ <-].
  destruct (Local.list_loop guess_type strftime self
              (children (Local.full_path self) (nodes fs)) fs) as [[l|e] f2] eqn:E;
    apply list_loop_readonly in E; now intros [= _ <-].
Qed.

End LocalListing.

(** The three cases of the local listing. *)
Lemma local_list_files_cases
    (guess_type : string -> option string) (strftime : Z -> string)
    (self : Local.LocalFileStorage) (fs : filesystem) :
  (os_path_exists (Local.full_path self) fs = false ->
   Local.list_files guess_type strftime self fs = (Ok [], fs))
  /\ ((exists d t, fs_lookup fs (Local.full_path self) = Some (File d t)) ->
      Local.list_files guess_type strftime self fs = (Raise NotADirectoryError, fs))
  /\ (os_path_isdir (Local.full_path self) fs = true ->
      exists l,
        Local.list_files guess_type strftime self fs = (Ok l, fs)
        /\ Permutation (map name l) (regular_children self fs)
        /\ Forall (describes_file guess_type strftime self fs) l).
Proof.
  split; [|split].
  - intros H. unfold Local.list_files, bind, gets, ret. now rewrite H.
  - intros (d & t & H).
    unfold Local.list_files, bind, gets, ret, os_path_exists, os_listdir.
    rewrite H. simpl. now rewrite H.
  - intros Hd. rewrite local_list_files_of_loop by exact Hd.
    destruct (list_loop_spec guess_type strftime self
                (children (Local.full_path self) (nodes fs)) fs) as (l & Hl & Hnames & Hdesc).
    { intros n Hn. now apply children_lookup. }
    rewrite Hl. exists (sort_created_desc l). split; [reflexivity|]. split.
    + unfold regular_children. rewrite <- Hnames.
      apply Permutation_map, sort_created_desc_perm.
    + now apply sort_created_desc_forall.
Qed.

(** X5.  What the local [list_files] returns, by what sits at the
    container path.  Nothing there: the empty list.  A regular file there:
    [NotADirectoryError].  A directory: one entry for each entry of the
    directory that is not itself a directory, no more and no fewer, each
    carrying the name, the URL of the name, the length of the stored
    content, the formatted change time and the type looked up from the
    name.  The file system is left as it was in every case. *)
Theorem local_list_files_contents
    (guess_type : string -> option string) (strftime : Z -> string)
    (self : Local.LocalFileStorage) (fs : filesystem) :
  (os_path_exists (Local.full_path self) fs = false ->
   Local.list_files guess_type strftime self fs = (Ok [], fs))
  /\ ((exists d t, fs_lookup fs (Local.full_path self) = Some (File d t)) ->
      Local.list_files guess_type strftime self fs = (Raise NotADirectoryError, fs))
  /\ (os_path_isdir (Local.full_path self) fs = true ->
      exists l,
        Local.list_files guess_type strftime self fs = (Ok l, fs)
        /\ Permutation (map name l) (regular_children self fs)
        /\ Forall (describes_file guess_type strftime self fs) l).
Proof.
  split; [|split].
  - intros H. unfold Local.list_files, bind, gets, ret. now rewrite H.
  - intros (d & t & H).
    unfold Local.list_files, bind, gets, ret, os_path_exists, os_listdir.
    rewrite H. simpl. now rewrite H.
  - intros Hd. rewrite local_list_files_of_loop by exact Hd.
    destruct (list_loop_spec guess_type strftime self
                (children (Local.full_path self) (nodes fs)) fs) as (l & Hl & Hnames & Hdesc).
    { intros n Hn. now apply children_lookup. }
    rewrite Hl. exists (sort_created_desc l). split; [reflexivity|]. split.
    + unfold regular_children. rewrite <- Hnames.
      apply Permutation_map, sort_created_desc_perm.
    + now apply sort_created_desc_forall.
Qed.

Lemma local_list_files_contents_witness :
  exists l,
    Local.list_files (fun _ => None) (fun _ => "2023-11-14 22:13:20")
      (Local.init "uploads" "photos")
      (mkFs [("uploads", Dir 0); ("uploads/photos", Dir 0);
             ("uploads/photos/b.png", File [x01; x02] 7);
             ("uploads/photos/thumbs", Dir 3)] 9)
    = (Ok l,
       mkFs [("uploads", Dir 0); ("uploads/photos", Dir 0);
             ("uploads/photos/b.png", File [x01; x02] 7);
             ("uploads/photos/thumbs", Dir 3)] 9)
    /\ Permutation (map name l) ["b.png"].
Proof.
  destruct (local_list_files_contents (fun _ => None) (fun _ => "2023-11-14 22:13:20")
              (Local.init "uploads" "photos")
              (mkFs [("uploads", Dir 0); ("uploads/photos", Dir 0);
                     ("uploads/photos/b.png", File [x01; x02] 7);
                     ("uploads/photos/thumbs", Dir 3)] 9)) as (_ & _ & Hdir).
  destruct (Hdir eq_refl) as (l & Hl & Hperm & _).
  exists l. split; [exact Hl | exact Hperm].
Defined.

(** X6.  The local listing is ordered: no entry is followed, anywhere
    further down the list, by one whose [created] string is greater. *)
Theorem local_list_files_sorted
    (guess_type : string -> option string) (strftime : Z -> string)
    (self : Local.LocalFileStorage) (fs : filesystem) (l : list file_info)
    (fs' : filesystem) :
  Local.list_files guess_type strftime self fs = (Ok l, fs') ->
  StronglySorted not_newer l.
Proof.
  unfold Local.list_files, bind, gets, ret.
  destruct (os_path_exists (Local.full_path self) fs); simpl.
  - destruct (os_listdir (Local.full_path self) fs) as [[names|e] fs1]; [|discriminate].
    destruct (Local.list_loop guess_type strftime self names fs1) as [[l1|e] fs2];
      [|discriminate].
    intros [= <- _]. apply sort_created_desc_sorted.
  - intros [= <- _]. constructor.
Qed.

Lemma local_list_files_sorted_witness :
  StronglySorted not_newer
    [mkInfo "b.png" "/uploads/photos/b.png" 1 "2023-11-14 22:13:25" "image/png";
     mkInfo "a.png" "/uploads/photos/a.png" 1 "2023-11-14 22:13:20" "image/png"].
Proof.
  apply (local_list_files_sorted
           (fun _ => Some "image/png")
           (fun t => if Z.eqb t 1700000000 then "2023-11-14 22:13:20" else "2023-11-14 22:13:25")
           (Local.init "uploads" "photos")
           (mkFs [("uploads", Dir 0); ("uploads/photos", Dir 0);
                  ("uploads/photos/a.png", File [x01] 1700000000100000);
                  ("uploads/photos/b.png", File [x02] 1700000005000000)] 1700000009000000)
           _
           (mkFs [("uploads", Dir 0); ("uploads/photos", Dir 0);
                  ("uploads/photos/a.png", File [x01] 1700000000100000);
                  ("uploads/photos/b.png", File [x02] 1700000005000000)] 1700000009000000)).
  reflexivity.
Defined.

(** X7.  [get_storage_info] never raises and never changes the file
    system.  With nothing at the container path it reports zero files and
    zero bytes; with a regular file there, where [list_files] raises, it
    reports zeros and the text of the error; with a directory there it
    reports as many files as the directory has entries that are not
    directories, and as total size the sum of the sizes [list_files]
    lists. *)
Theorem local_storage_info_never_raises
    (guess_type : string -> option string) (strftime : Z -> string)
    (float : Type) (round_mb : Z -> float) (str : exn -> string)
    (self : Local.LocalFileStorage) (fs : filesystem) :
  exists info,
    Local.get_storage_info guess_type strftime round_mb str self fs = (Ok info, fs)
    /\ (os_path_exists (Local.full_path self) fs = false ->
        info = Local.InfoMissing float 0 0 (Local.full_path self))
    /\ ((exists d t, fs_lookup fs (Local.full_path self) = Some (File d t)) ->
        info = Local.InfoError float 0 0 (str NotADirectoryError))
    /\ (os_path_isdir (Local.full_path self) fs = true ->
        exists l,
          Local.list_files guess_type strftime self fs = (Ok l, fs)
          /\ info = Local.InfoStats
                      (Z.of_nat (List.length (regular_children self fs)))
                      (Local.sum_sizes l) (round_mb (Local.sum_sizes l))
                      (Local.full_path self) "local").
Proof.
  destruct (local_list_files_cases guess_type strftime self fs) as (Hnone & Hfile & Hdir).
  unfold Local.get_storage_info, try_except, bind, gets, ret.
  unfold os_path_exists, os_path_isdir in *.
  destruct (fs_lookup fs (Local.full_path self)) as [[d t|t]|] eqn:E; simpl.
  - rewrite Hfile by eauto. eexists. split; [reflexivity|].
    split; [discriminate|]. split; [reflexivity | discriminate].
  - destruct (Hdir eq_refl) as (l & Hl & Hperm & _). rewrite Hl.
    eexists. split; [reflexivity|].
    split; [discriminate|]. split; [intros (d & t' & H); discriminate|].
    intros _. exists l. split; [reflexivity|].
    apply Permutation_length in Hperm. rewrite length_map in Hperm.
    now rewrite Hperm.
  - eexists. split; [reflexivity|].
    split; [reflexivity|]. split; [intros (d & t' & H); discriminate | discriminate].
Qed.

Lemma local_storage_info_never_raises_witness :
  Local.get_storage_info (fun _ => None) (fun _ => "2023-11-14 22:13:20")
    (fun z => z / 1048576) (fun _ => "not a directory")
    (Local.init "uploads" "photos")
    (mkFs [("uploads", Dir 0); ("uploads/photos", File [] 0)] 9)
  = (Ok (Local.InfoError Z 0 0 "not a directory"),
     mkFs [("uploads", Dir 0); ("uploads/photos", File [] 0)] 9).
Proof.
  destruct (local_storage_info_never_raises (fun _ => None) (fun _ => "2023-11-14 22:13:20")
              Z (fun z => z / 1048576) (fun _ => "not a directory")
              (Local.init "uploads" "photos")
              (mkFs [("uploads", Dir 0); ("uploads/photos", File [] 0)] 9))
    as (info & Hinfo & _ & Hfile & _).
  rewrite Hinfo. rewrite (Hfile (ex_intro _ [] (ex_intro _ 0 eq_refl))). reflexivity.
Defined.

(** * Further properties of the cloud back ends *)

Lemma store_store {A} k (v v' : A) l : store k v (store k v' l) = store k v l.
Proof.
  induction l as [|[k0 v0] l IH]; simpl.
  - now rewrite String.eqb_refl.
  - destruct (String.eqb k k0) eqn:E; simpl.
    + now rewrite String.eqb_refl.
    + now rewrite E, IH.
Qed.

Lemma in_store {A} k (v : A) l : In (k, v) (store k v l).
Proof.
  induction l as [|[k0 v0] l IH]; simpl; [now left|].
  destruct (String.eqb k k0); [now left | now right].
Qed.

Lemma store_length {A} k (v : A) l : (List.length (store k v l) <= S (List.length l))%nat.
Proof.
  induction l as [|[k0 v0] l IH]; simpl; [lia|].
  destruct (String.eqb k k0); simpl; lia.
Qed.

(** X8.  Round trip on Azure, for a non-empty blob name.  With the
    container in place and the service answering, [upload_file] returns the
    blob URL, which is also what [get_file_url] gives; afterwards
    [download_file] returns what the stream held from its position on, and
    [file_exists] answers [True]. *)
Theorem azure_upload_download_roundtrip
    (guess_type : string -> option string)
    (self : Azure.AzureBlobStorage) (stream : file_stream) (filename : string)
    (s : Azure.blob_service) (c : Azure.container) (hours : Z) :
  filename <> "" ->
  lookup (Azure.container_name self) (Azure.containers s) = Some c ->
  exists s1,
    Azure.upload_file guess_type self stream filename (mkRemote s [])
    = (Ok (Azure.get_file_url self filename hours), mkRemote s1 [])
    /\ Azure.download_file self filename (mkRemote s1 [])
       = (Ok (stream_rest stream), mkRemote s1 [])
    /\ Azure.file_exists self filename (mkRemote s1 []) = (Ok true, mkRemote s1 []).
Proof.
  intros Hne Hc. apply String.eqb_neq in Hne.
  unfold Azure.upload_file, Azure.download_file, Azure.file_exists, try_except, bind, ret,
    Azure.sdk_upload_blob, Azure.sdk_download_blob, Azure.sdk_blob_exists, sdk_call.
  simpl. rewrite Hne, Hc. simpl.
  eexists. split; [reflexivity|].
  simpl. rewrite !lookup_store_eq. simpl. rewrite !lookup_store_eq. simpl.
  split; reflexivity.
Qed.

Lemma azure_upload_download_roundtrip_witness :
  exists s1,
    Azure.upload_file (fun _ => Some "image/png")
      (Azure.mkAzure "cs" "photos" "https://acct.blob.core.windows.net")
      (FileObj [x01; x02; x03] 1) "a.png"
      (mkRemote (Azure.mkService [("photos", Azure.mkContainer "blob" [])] 0) [])
    = (Ok "https://acct.blob.core.windows.net/photos/a.png", mkRemote s1 [])
    /\ Azure.download_file (Azure.mkAzure "cs" "photos" "https://acct.blob.core.windows.net")
         "a.png" (mkRemote s1 [])
       = (Ok [x02; x03], mkRemote s1 [])
    /\ Azure.file_exists (Azure.mkAzure "cs" "photos" "https://acct.blob.core.windows.net")
         "a.png" (mkRemote s1 [])
       = (Ok true, mkRemote s1 []).
Proof.
  apply (azure_upload_download_roundtrip (fun _ => Some "image/png")
           (Azure.mkAzure "cs" "photos" "https://acct.blob.core.windows.net")
           (FileObj [x01; x02; x03] 1) "a.png"
           (Azure.mkService [("photos", Azure.mkContainer "blob" [])] 0)
           (Azure.mkContainer "blob" []) 24);
    [discriminate | reflexivity].
Defined.

(** X9.  Deleting on Azure, for a non-empty blob name.  After an upload,
    with the service answering, [delete_file] returns [True], [file_exists]
    then answers [False], a download raises [ResourceNotFoundError], and a
    second [delete_file] returns [False]. *)
Theorem azure_delete_after_upload
    (guess_type : string -> option string)
    (self : Azure.AzureBlobStorage) (stream : file_stream) (filename : string)
    (s : Azure.blob_service) (c : Azure.container) :
  filename <> "" ->
  lookup (Azure.container_name self) (Azure.containers s) = Some c ->
  exists s2,
    Azure.delete_file self filename
      (snd (Azure.upload_file guess_type self stream filename (mkRemote s [])))
    = (Ok true, mkRemote s2 [])
    /\ Azure.file_exists self filename (mkRemote s2 []) = (Ok false, mkRemote s2 [])
    /\ Azure.download_file self filename (mkRemote s2 [])
       = (Raise ResourceNotFoundError, mkRemote s2 [])
    /\ Azure.delete_file self filename (mkRemote s2 []) = (Ok false, mkRemote s2 []).
Proof.
  intros Hne Hc. apply String.eqb_neq in Hne.
  unfold Azure.upload_file, Azure.download_file, Azure.file_exists, Azure.delete_file,
    try_except, bind, ret,
    Azure.sdk_upload_blob, Azure.sdk_download_blob, Azure.sdk_blob_exists,
    Azure.sdk_delete_blob, sdk_call.
  simpl. rewrite !Hne, Hc. simpl.
  rewrite !lookup_store_eq. simpl. rewrite !lookup_store_eq. simpl.
  eexists. split; [reflexivity|].
  simpl. rewrite !lookup_store_eq. simpl. rewrite !lookup_remove_eq.
  repeat split; reflexivity.
Qed.

Lemma azure_delete_after_upload_witness :
  exists s2,
    Azure.delete_file (Azure.mkAzure "cs" "photos" "https://acct.blob.core.windows.net") "a.png"
      (snd (Azure.upload_file (fun _ => Some "image/png")
              (Azure.mkAzure "cs" "photos" "https://acct.blob.core.windows.net")
              (BytesIO [x01]) "a.png"
              (mkRemote (Azure.mkService [("photos", Azure.mkContainer "blob" [])] 0) [])))
    = (Ok true, mkRemote s2 [])
    /\ Azure.file_exists (Azure.mkAzure "cs" "photos" "https://acct.blob.core.windows.net")
         "a.png" (mkRemote s2 [])
       = (Ok false, mkRemote s2 [])
    /\ Azure.download_file (Azure.mkAzure "cs" "photos" "https://acct.blob.core.windows.net")
         "a.png" (mkRemote s2 [])
       = (Raise ResourceNotFoundError, mkRemote s2 [])
    /\ Azure.delete_file (Azure.mkAzure "cs" "photos" "https://acct.blob.core.windows.net")
         "a.png" (mkRemote s2 [])
       = (Ok false, mkRemote s2 []).
Proof.
  apply (azure_delete_after_upload (fun _ => Some "image/png")
           (Azure.mkAzure "cs" "photos" "https://acct.blob.core.windows.net")
           (BytesIO [x01]) "a.png"
           (Azure.mkService [("photos", Azure.mkContainer "blob" [])] 0)
           (Azure.mkContainer "blob" []));
    [discriminate | reflexivity].
Defined.

(** X10.  Which errors the Azure adapter lets through.  When an SDK call
    fails with [e], [upload_file], [download_file] and [list_files] raise
    [e]; [delete_file] raises [e] unless [e] is [ResourceNotFoundError],
    which it turns into [False]; [create_container] raises [e] unless [e]
    is [ResourceExistsError], which it turns into [True].  In every case
    the service is left as it was. *)
Theorem azure_error_propagation
    (guess_type : string -> option string) (strftime : Z -> string)
    (self : Azure.AzureBlobStorage) (stream : file_stream) (filename : string)
    (s : Azure.blob_service) (e : exn) (rest : list (option exn)) :
  Azure.upload_file guess_type self stream filename (mkRemote s (Some e :: rest))
  = (Raise e, mkRemote s rest)
  /\ Azure.download_file self filename (mkRemote s (Some e :: rest))
     = (Raise e, mkRemote s rest)
  /\ Azure.list_files strftime self (mkRemote s (Some e :: rest))
     = (Raise e, mkRemote s rest)
  /\ Azure.delete_file self filename (mkRemote s (Some e :: rest))
     = (match e with ResourceNotFoundError => Ok false | _ => Raise e end, mkRemote s rest)
  /\ Azure.create_container self (mkRemote s (Some e :: rest))
     = (match e with ResourceExistsError => Ok true | _ => Raise e end, mkRemote s rest).
Proof.
  repeat split; try reflexivity; now destruct e.
Qed.

(** X11.  What the AWS [create_container] sets up.  With the service
    answering and no bucket of that name, the call returns [True] and
    leaves a bucket that holds no object, carries the policy that allows
    everyone [s3:GetObject] on the objects of this bucket, blocks and
    ignores public ACLs while allowing a public policy, and has a location
    constraint, the region, exactly when the region is not [us-east-1]. *)
Theorem aws_create_container_fresh (self : AWS.AWSS3Storage) (s : AWS.s3) :
  lookup (AWS.bucket_name self) (AWS.buckets s) = None ->
  AWS.create_container self (mkRemote s [])
  = (Ok true,
     mkRemote
       (AWS.set_bucket (AWS.bucket_name self)
          (AWS.mkBucket
             (if String.eqb (AWS.region_name self) "us-east-1"
              then None else Some (AWS.region_name self))
             (Some (AWS.mkPolicy "2012-10-17" "PublicReadGetObject" "Allow" "*" "s3:GetObject"
                      ("arn:aws:s3:::" ++ AWS.bucket_name self ++ "/*")))
             (Some (AWS.mkPAB true true false false))
             [])
          s)
       []).
Proof.
  intros E.
  unfold AWS.create_container, try_except, bind, AWS.head_bucket.
  unfold sdk_call at 1. simpl. rewrite E. simpl.
  unfold AWS.put_bucket_policy, AWS.put_public_access_block, AWS.create_bucket, sdk_call,
    AWS.set_bucket, AWS.public_read_policy.
  destruct (String.eqb (AWS.region_name self) "us-east-1"); simpl; rewrite E; simpl;
    rewrite lookup_store_eq; simpl; rewrite lookup_store_eq; simpl;
    now rewrite !store_store.
Qed.

Lemma aws_create_container_fresh_witness :
  AWS.create_container (AWS.mkAWS "photos" "eu-west-1") (mkRemote (AWS.mkS3 [] 0) [])
  = (Ok true,
     mkRemote
       (AWS.mkS3
          [("photos",
            AWS.mkBucket (Some "eu-west-1")
              (Some (AWS.mkPolicy "2012-10-17" "PublicReadGetObject" "Allow" "*" "s3:GetObject"
                       "arn:aws:s3:::photos/*"))
              (Some (AWS.mkPAB true true false false))
              [])]
          0)
       []).
Proof.
  apply (aws_create_container_fresh (AWS.mkAWS "photos" "eu-west-1") (AWS.mkS3 [] 0) eq_refl).
Defined.

(** X12.  When the first request of the AWS [create_container], the bucket
    probe, fails with anything but a [ClientError] of code [404], the call
    raises that error and makes no further request: the service is as it
    was and one slot of the schedule is used. *)
Theorem aws_create_container_probe_error
    (self : AWS.AWSS3Storage) (s : AWS.s3) (e : exn) (rest : list (option exn)) :
  e <> ClientError "404" ->
  AWS.create_container self (mkRemote s (Some e :: rest)) = (Raise e, mkRemote s rest).
Proof.
  intros He.
  unfold AWS.create_container, try_except, bind, AWS.head_bucket, sdk_call. simpl.
  destruct e as [| | | | | | |code| | |]; try reflexivity.
  destruct (String.eqb code "404") eqn:E; [|reflexivity].
  apply String.eqb_eq in E. subst code. contradiction.
Qed.

Lemma aws_create_container_probe_error_witness :
  AWS.create_container (AWS.mkAWS "photos" "us-east-1")
    (mkRemote (AWS.mkS3 [] 0) [Some (ClientError "403"); None])
  = (Raise (ClientError "403"), mkRemote (AWS.mkS3 [] 0) [None]).
Proof.
  apply (aws_create_container_probe_error (AWS.mkAWS "photos" "us-east-1") (AWS.mkS3 [] 0)
           (ClientError "403") [None]).
  discriminate.
Defined.

(** X13.  A half-made bucket stays half-made.  With no bucket of that
    name, if the bucket is created and the request that sets the policy
    then fails, [create_container] raises and leaves the bucket without
    policy and without public-access block; a later [create_container],
    with the service answering, finds the bucket, returns [True] and sets
    neither. *)
Theorem aws_create_container_half_made
    (self : AWS.AWSS3Storage) (s : AWS.s3) (e : exn) (rest : list (option exn)) :
  lookup (AWS.bucket_name self) (AWS.buckets s) = None ->
  exists s1 b,
    AWS.create_container self (mkRemote s (None :: None :: Some e :: rest))
    = (Raise e, mkRemote s1 rest)
    /\ lookup (AWS.bucket_name self) (AWS.buckets s1) = Some b
    /\ AWS.policy b = None
    /\ AWS.public_access_block b = None
    /\ AWS.create_container self (mkRemote s1 []) = (Ok true, mkRemote s1 []).
Proof.
  intros E.
  unfold AWS.create_container at 1.
  unfold try_except, bind, AWS.head_bucket.
  unfold sdk_call at 1. simpl. rewrite E. simpl.
  unfold AWS.put_bucket_policy, AWS.create_bucket, sdk_call, AWS.set_bucket.
  destruct (String.eqb (AWS.region_name self) "us-east-1"); simpl; rewrite E; simpl;
    (eexists; eexists; split; [reflexivity|]); simpl;
    (split; [apply lookup_store_eq|]); simpl;
    (split; [reflexivity|]); (split; [reflexivity|]);
    eapply aws_create_container_existing; simpl; apply lookup_store_eq.
Qed.

Lemma aws_create_container_half_made_witness :
  exists s1 b,
    AWS.create_container (AWS.mkAWS "photos" "us-east-1")
      (mkRemote (AWS.mkS3 [] 0) [None; None; Some (OtherError "timed out")])
    = (Raise (OtherError "timed out"), mkRemote s1 [])
    /\ lookup "photos" (AWS.buckets s1) = Some b
    /\ AWS.policy b = None
    /\ AWS.public_access_block b = None
    /\ AWS.create_container (AWS.mkAWS "photos" "us-east-1") (mkRemote s1 [])
       = (Ok true, mkRemote s1 []).
Proof.
  apply (aws_create_container_half_made (AWS.mkAWS "photos" "us-east-1") (AWS.mkS3 [] 0)
           (OtherError "timed out") [] eq_refl).
Defined.

(** X14.  Round trip on AWS, for a non-empty key.  [upload_file] rewinds a
    file object: with the bucket in place and the service answering it
    stores the whole buffer, whatever the position of the stream, under the
    type looked up from the name and with a cache lifetime of one year, and
    returns the URL [get_file_url] gives; afterwards [download_file]
    returns the buffer and [file_exists] answers [True].  A [bytes] value
    is refused with [ValueError] before any request is made. *)
Theorem aws_upload_download_roundtrip
    (guess_type : string -> option string)
    (self : AWS.AWSS3Storage) (buffer : bytes) (pos : nat) (filename : string)
    (s : AWS.s3) (b : AWS.bucket) :
  filename <> "" ->
  lookup (AWS.bucket_name self) (AWS.buckets s) = Some b ->
  (exists s1 b1,
      AWS.upload_file guess_type self (FileObj buffer pos) filename (mkRemote s [])
      = (Ok (AWS.get_file_url self filename), mkRemote s1 [])
      /\ lookup (AWS.bucket_name self) (AWS.buckets s1) = Some b1
      /\ lookup filename (AWS.objects b1)
         = Some (AWS.mkObject buffer (Local.infer_content_type guess_type filename)
                              "max-age=31536000" (AWS.s3_clock s))
      /\ AWS.download_file self filename (mkRemote s1 []) = (Ok buffer, mkRemote s1 [])
      /\ AWS.file_exists self filename (mkRemote s1 []) = (Ok true, mkRemote s1 []))
  /\ forall w, AWS.upload_file guess_type self (RawBytes buffer) filename w
               = (Raise ValueError, w).
Proof.
  intros Hne Hb. split; [|reflexivity]. apply String.eqb_neq in Hne.
  unfold AWS.upload_file, AWS.download_file, AWS.file_exists, try_except, bind, ret,
    AWS.upload_fileobj, AWS.get_object, AWS.head_object, sdk_call, AWS.set_bucket.
  simpl. rewrite !Hne, Hb. simpl.
  eexists. eexists. split; [reflexivity|]. simpl.
  split; [apply lookup_store_eq|]. simpl.
  split; [apply lookup_store_eq|].
  rewrite !lookup_store_eq. simpl. rewrite !lookup_store_eq.
  split; reflexivity.
Qed.

Lemma aws_upload_download_roundtrip_witness :
  exists s1,
    AWS.upload_file (fun _ => Some "image/png") (AWS.mkAWS "photos" "us-east-1")
      (FileObj [x01; x02; x03] 2) "a.png"
      (mkRemote (AWS.mkS3 [("photos", AWS.mkBucket None None None [])] 0) [])
    = (Ok "https://photos.s3.us-east-1.amazonaws.com/a.png", mkRemote s1 [])
    /\ AWS.download_file (AWS.mkAWS "photos" "us-east-1") "a.png" (mkRemote s1 [])
       = (Ok [x01; x02; x03], mkRemote s1 []).
Proof.
  assert (Hne : "a.png" <> "") by discriminate.
  destruct (aws_upload_download_roundtrip (fun _ => Some "image/png")
              (AWS.mkAWS "photos" "us-east-1") [x01; x02; x03] 2 "a.png"
              (AWS.mkS3 [("photos", AWS.mkBucket None None None [])] 0)
              (AWS.mkBucket None None None []) Hne eq_refl)
    as [(s1 & b1 & Hup & _ & _ & Hdown & _) _].
  exists s1. split; [exact Hup | exact Hdown].
Defined.

(** X15.  The AWS listing after an upload under a non-empty key.  With the
    bucket in place, fewer than a thousand objects in it and the service
    answering, the listing that follows an upload has an entry of that
    name, with the URL the upload returned and the length of the buffer as
    size; and every entry of every listing has as URL what [get_file_url]
    gives for its name. *)
Theorem aws_listing_after_upload
    (guess_type : string -> option string) (strftime : Z -> string)
    (self : AWS.AWSS3Storage) (buffer : bytes) (pos : nat) (filename : string)
    (s : AWS.s3) (b : AWS.bucket) :
  filename <> "" ->
  lookup (AWS.bucket_name self) (AWS.buckets s) = Some b ->
  (List.length (AWS.objects b) < 1000)%nat ->
  (exists l w1,
      AWS.list_files strftime self
        (snd (AWS.upload_file guess_type self (FileObj buffer pos) filename (mkRemote s [])))
      = (Ok l, w1)
      /\ exists i, In i l
                   /\ name i = filename
                   /\ url i = AWS.get_file_url self filename
                   /\ size i = Z.of_nat (List.length buffer))
  /\ forall w l w',
       AWS.list_files strftime self w = (Ok l, w') ->
       Forall (fun i => url i = AWS.get_file_url self (name i)) l.
Proof.
  intros Hne Hb Hlen. split.
  - apply String.eqb_neq in Hne.
    unfold AWS.upload_file, AWS.list_files, bind, ret, AWS.upload_fileobj,
      AWS.list_objects_v2, sdk_call, AWS.set_bucket.
    simpl. rewrite Hne, Hb. simpl. rewrite lookup_store_eq. simpl.
    set (o := AWS.mkObject buffer
                match guess_type filename with
                | Some t => t
                | None => "application/octet-stream"
                end "max-age=31536000" (AWS.s3_clock s)).
    assert (Hin : In (filename, o) (firstn 1000 (store filename o (AWS.objects b)))).
    { rewrite firstn_all2; [apply in_store|].
      pose proof (store_length filename o (AWS.objects b)). lia. }
    destruct (store filename o (AWS.objects b)) as [|x l0] eqn:Es.
    { rewrite firstn_nil in Hin. destruct Hin. }
    eexists. eexists. split; [reflexivity|].
    exists (AWS.object_info strftime self (filename, o)).
    split; [now apply in_map|]. repeat split.
  - intros w l w'. unfold AWS.list_files, bind, ret.
    destruct (AWS.list_objects_v2 (AWS.bucket_name self) w) as [[[contents|]|e1] w1];
      intros H; inversion H; subst; [|constructor].
    apply Forall_forall. intros i Hi.
    apply in_map_iff in Hi. destruct Hi as [[k o] [<- _]]. reflexivity.
Qed.

Lemma aws_listing_after_upload_witness :
  exists l w1,
    AWS.list_files (fun _ => "2023-11-14 22:13:20") (AWS.mkAWS "photos" "us-east-1")
      (snd (AWS.upload_file (fun _ => Some "image/png") (AWS.mkAWS "photos" "us-east-1")
              (FileObj [x01; x02; x03] 0) "a.png"
              (mkRemote (AWS.mkS3 [("photos", AWS.mkBucket None None None [])] 0) [])))
    = (Ok l, w1)
    /\ exists i, In i l
                 /\ name i = "a.png"
                 /\ url i = "https://photos.s3.us-east-1.amazonaws.com/a.png"
                 /\ size i = 3.
Proof.
  assert (Hlen : (List.length (AWS.objects (AWS.mkBucket None None None [])) < 1000)%nat)
    by (simpl; lia).
  assert (Hne : "a.png" <> "") by discriminate.
  destruct (aws_listing_after_upload (fun _ => Some "image/png")
              (fun _ => "2023-11-14 22:13:20")
              (AWS.mkAWS "photos" "us-east-1") [x01; x02; x03] 0 "a.png"
              (AWS.mkS3 [("photos", AWS.mkBucket None None None [])] 0)
              (AWS.mkBucket None None None []) Hne eq_refl Hlen) as [Hlist _].
  exact Hlist.
Defined.

(** * Further properties of the application *)

Section SelectionMore.

Variable endpoint_of : string -> string.

Lemma select_aws_success env p b w :
  aws_setup env (App.aws p) = (Ok b, w) ->
  App.select_aws env p
  = (Ok tt,
     App.mkProcess (App.STORAGE_TYPE p)
       (Some (App.AWSStorage
                (AWS.mkAWS (App.environ_get_default env "AWS_BUCKET_NAME" "photos")
                           (App.environ_get_default env "AWS_REGION" "us-east-1"))))
       "AWS S3 Storage" (App.fs p) (App.azure p) w).
Proof.
  destruct p as [t st0 nm f az s3]. simpl.
  unfold aws_setup, AWS.init. unfold bind at 1 2.
  unfold App.select_aws, try_except, bind, App.in_aws, App.assign_storage,
    App.assign_storage_type_name, App.assign_STORAGE_TYPE, AWS.init, bind. simpl.
  destruct (AWS.boto3_client s3) as [[[]|e1] w1]; simpl; [|discriminate].
  unfold ret.
  destruct (AWS.create_container _ w1) as [[b'|e2] w2]; simpl; [|discriminate].
  now intros [= _ <-].
Qed.

Lemma select_azure_success env p b w :
  azure_setup endpoint_of env (App.azure p) = (Ok b, w) ->
  exists s,
    App.select_azure endpoint_of env p
    = (Ok tt,
       App.mkProcess (App.STORAGE_TYPE p) (Some (App.AzureStorage s))
         "Azure Blob Storage" (App.fs p) w (App.aws p)).
Proof.
  destruct p as [t st0 nm f az s3]. simpl.
  unfold azure_setup. unfold bind at 1.
  unfold App.select_azure, try_except, bind, App.in_azure, App.assign_storage,
    App.assign_storage_type_name, App.assign_STORAGE_TYPE. simpl.
  destruct (Azure.init endpoint_of _ _ az) as [[s|e1] w1]; simpl; [|discriminate].
  destruct (Azure.create_container s w1) as [[b'|e2] w2]; simpl; [|discriminate].
  intros [= _ <-]. now exists s.
Qed.

Lemma select_local_settled st az s3 f :
  settled (snd (App.select_local (App.mkProcess "local" st "Local Storage" f az s3))).
Proof.
  rewrite select_local_result. simpl.
  destruct (Local.create_container (Local.init "uploads" "photos") f) as [[b|e] f'].
  - right. right. left. simpl. auto.
  - right. right. right. simpl. repeat split; discriminate.
Qed.

(** The module body after its three assignments. *)
Lemma boot_unfold env f az s3 :
  let t := lower (App.environ_get_default env "STORAGE_TYPE" "local") in
  let p0 := App.mkProcess t None "Local Storage" f az s3 in
  App.module_init endpoint_of env (App.mkProcess "" None "" f az s3)
  = ((if String.eqb t "aws" then App.select_aws env else ret tt) ;;;
     t1 <- gets App.STORAGE_TYPE ;;
     (if String.eqb t1 "azure" then App.select_azure endpoint_of env else ret tt) ;;;
     t2 <- gets App.STORAGE_TYPE ;;
     (if String.eqb t2 "local" then App.select_local else ret tt)) p0.
Proof. reflexivity. Qed.

End SelectionMore.

Ltac boot_steps :=
  unfold bind, gets;
  cbn -[App.select_aws App.select_azure App.select_local lower String.eqb].

Ltac boot_eval :=
  unfold bind, gets;
  cbn -[App.select_aws App.select_azure App.select_local lower].

(** X16.  The selection at start-up always completes and always ends in
    one of four states: the AWS, the Azure or the local adapter bound to
    [storage], each with [STORAGE_TYPE] and the label of [/health] naming
    that same back end, or nothing bound, under the label [Local Storage]
    and with [STORAGE_TYPE] naming neither cloud back end. *)
Theorem boot_settles
    (endpoint_of : string -> string) (env : App.environ) (f : filesystem)
    (az : Azure.world) (s3 : AWS.world) :
  fst (App.module_init endpoint_of env (App.mkProcess "" None "" f az s3)) = Ok tt
  /\ settled (App.boot endpoint_of env f az s3).
Proof.
  unfold App.boot. rewrite boot_unfold.
  set (t := lower (App.environ_get_default env "STORAGE_TYPE" "local")).
  cbv zeta.
  destruct (String.eqb t "aws") eqn:Eaws.
  - apply String.eqb_eq in Eaws. rewrite Eaws. boot_eval.
    destruct (aws_setup env s3) as [[b|e] w] eqn:Es.
    + rewrite (select_aws_success env (App.mkProcess "aws" None "Local Storage" f az s3) b w Es).
      boot_eval. split; [reflexivity|].
      left. eexists. repeat split.
    + destruct (select_aws_fallback env (App.mkProcess "aws" None "Local Storage" f az s3))
        as (st & w1 & Hsel).
      { exists e. simpl. now rewrite Es. }
      rewrite Hsel. boot_eval.
      rewrite select_local_result. split; [reflexivity|].
      rewrite <- (select_local_result (App.mkProcess "local" st "Local Storage" f az w1)).
      apply select_local_settled.
  - boot_steps.
    destruct (String.eqb t "azure") eqn:Eaz.
    + apply String.eqb_eq in Eaz. rewrite Eaz.
      destruct (azure_setup endpoint_of env az) as [[b|e] w] eqn:Es.
      * destruct (select_azure_success endpoint_of env
                    (App.mkProcess "azure" None "Local Storage" f az s3) b w Es) as [s Hsel].
        rewrite Hsel. boot_eval. split; [reflexivity|].
        right. left. exists s. repeat split.
      * destruct (select_azure_fallback endpoint_of env
                    (App.mkProcess "azure" None "Local Storage" f az s3))
          as (st & w1 & Hsel).
        { exists e. simpl. now rewrite Es. }
        rewrite Hsel. boot_eval.
        rewrite select_local_result. split; [reflexivity|].
        rewrite <- (select_local_result (App.mkProcess "local" st "Local Storage" f w1 s3)).
        apply select_local_settled.
    + boot_steps.
      destruct (String.eqb t "local") eqn:Eloc.
      * apply String.eqb_eq in Eloc. rewrite Eloc.
        rewrite select_local_result. split; [reflexivity|].
        rewrite <- (select_local_result (App.mkProcess "local" None "Local Storage" f az s3)).
        apply select_local_settled.
      * unfold ret. split; [reflexivity|].
        right. right. right. simpl.
        apply String.eqb_neq in Eaws. apply String.eqb_neq in Eaz. auto.
Qed.

(** X17.  When the configured cloud back end sets up without error, it is
    the one bound to [storage]: [STORAGE_TYPE] keeps its value, [/health]
    reports its label, and the local file system is not touched, so no
    upload directory is made.  For AWS the adapter is the one for the
    configured bucket and region. *)
Theorem boot_cloud_ready
    (endpoint_of : string -> string) (env : App.environ) (f : filesystem)
    (az : Azure.world) (s3 : AWS.world) :
  (forall b w,
      lower (App.environ_get_default env "STORAGE_TYPE" "local") = "aws" ->
      aws_setup env s3 = (Ok b, w) ->
      App.boot endpoint_of env f az s3
      = App.mkProcess "aws"
          (Some (App.AWSStorage
                   (AWS.mkAWS (App.environ_get_default env "AWS_BUCKET_NAME" "photos")
                              (App.environ_get_default env "AWS_REGION" "us-east-1"))))
          "AWS S3 Storage" f az w)
  /\ (forall b w,
        lower (App.environ_get_default env "STORAGE_TYPE" "local") = "azure" ->
        azure_setup endpoint_of env az = (Ok b, w) ->
        exists s,
          App.boot endpoint_of env f az s3
          = App.mkProcess "azure" (Some (App.AzureStorage s)) "Azure Blob Storage" f w s3).
Proof.
  split; intros b w Ht Hs; unfold App.boot; rewrite boot_unfold; rewrite Ht; cbv zeta.
  - unfold bind at 1. cbn [String.eqb Ascii.eqb Bool.eqb].
    rewrite (select_aws_success env (App.mkProcess "aws" None "Local Storage" f az s3) b w Hs).
    reflexivity.
  - unfold bind at 1. cbn [String.eqb Ascii.eqb Bool.eqb]. unfold ret at 1.
    destruct (select_azure_success endpoint_of env
                (App.mkProcess "azure" None "Local Storage" f az s3) b w Hs) as [s Hsel].
    boot_steps. cbn [String.eqb Ascii.eqb Bool.eqb]. rewrite Hsel.
    exists s. reflexivity.
Qed.

Lemma boot_cloud_ready_witness :
  App.boot (fun cs => cs) [("STORAGE_TYPE", "AWS"); ("AWS_BUCKET_NAME", "album")]
    (mkFs [] 0) (mkRemote (Azure.mkService [] 0) []) (mkRemote (AWS.mkS3 [] 0) [])
  = App.mkProcess "aws" (Some (App.AWSStorage (AWS.mkAWS "album" "us-east-1")))
      "AWS S3 Storage" (mkFs [] 0) (mkRemote (Azure.mkService [] 0) [])
      (snd (aws_setup [("STORAGE_TYPE", "AWS"); ("AWS_BUCKET_NAME", "album")]
              (mkRemote (AWS.mkS3 [] 0) []))).
Proof.
  apply (proj1 (boot_cloud_ready (fun cs => cs)
                  [("STORAGE_TYPE", "AWS"); ("AWS_BUCKET_NAME", "album")]
                  (mkFs [] 0) (mkRemote (Azure.mkService [] 0) [])
                  (mkRemote (AWS.mkS3 [] 0) [])) true); reflexivity.
Defined.

(** X18.  Without a cloud back end configured.  When [STORAGE_TYPE], in
    lower case, is ['local'], which it is when the variable is not set,
    the local adapter on [uploads/photos] is set up and neither cloud
    service is contacted.  When it is none of ['aws'], ['azure'] and
    ['local'], nothing is set up at all: no object is bound to [storage],
    the worlds are untouched, and [/health] reports no storage under the
    label [Local Storage]. *)
Theorem boot_without_cloud
    (endpoint_of : string -> string) (env : App.environ) (f : filesystem)
    (az : Azure.world) (s3 : AWS.world) :
  (lower (App.environ_get_default env "STORAGE_TYPE" "local") = "local" ->
   App.boot endpoint_of env f az s3
   = snd (App.select_local (App.mkProcess "local" None "Local Storage" f az s3))
   /\ App.azure (App.boot endpoint_of env f az s3) = az
   /\ App.aws (App.boot endpoint_of env f az s3) = s3)
  /\ (lower (App.environ_get_default env "STORAGE_TYPE" "local") <> "aws" ->
      lower (App.environ_get_default env "STORAGE_TYPE" "local") <> "azure" ->
      lower (App.environ_get_default env "STORAGE_TYPE" "local") <> "local" ->
      App.boot endpoint_of env f az s3
      = App.mkProcess (lower (App.environ_get_default env "STORAGE_TYPE" "local"))
          None "Local Storage" f az s3
      /\ App.health (App.boot endpoint_of env f az s3)
         = App.mkHealth "healthy" false "Local Storage").
Proof.
  split.
  - intros Ht.
    assert (Hboot : App.boot endpoint_of env f az s3
                    = snd (App.select_local
                             (App.mkProcess "local" None "Local Storage" f az s3))).
    { unfold App.boot. rewrite boot_unfold. rewrite Ht. cbv zeta.
      unfold bind at 1. cbn [String.eqb Ascii.eqb Bool.eqb]. unfold ret at 1.
      boot_steps. cbn [String.eqb Ascii.eqb Bool.eqb]. unfold ret at 1.
      boot_steps. cbn [String.eqb Ascii.eqb Bool.eqb].
      now destruct (App.select_local (App.mkProcess "local" None "Local Storage" f az s3))
        as [[[]|e] p']. }
    split; [exact Hboot|].
    rewrite Hboot, select_local_result. simpl.
    now destruct (Local.create_container (Local.init "uploads" "photos") f) as [[b|e] f'].
  - intros H1 H2 H3.
    apply String.eqb_neq in H1. apply String.eqb_neq in H2. apply String.eqb_neq in H3.
    assert (Hboot : App.boot endpoint_of env f az s3
                    = App.mkProcess (lower (App.environ_get_default env "STORAGE_TYPE" "local"))
                        None "Local Storage" f az s3).
    { unfold App.boot. rewrite boot_unfold. cbv zeta.
      unfold bind at 1. rewrite H1. unfold ret at 1. boot_steps.
      rewrite H2. unfold ret at 1. boot_steps. rewrite H3. reflexivity. }
    split; [exact Hboot|]. now rewrite Hboot.
Qed.

Lemma boot_without_cloud_witness :
  App.health (App.boot (fun cs => cs) [("STORAGE_TYPE", "gcs")]
                (mkFs [] 0) (mkRemote (Azure.mkService [] 0) []) (mkRemote (AWS.mkS3 [] 0) []))
  = App.mkHealth "healthy" false "Local Storage"
  /\ App.health (App.boot (fun cs => cs) []
                   (mkFs [] 0) (mkRemote (Azure.mkService [] 0) [])
                   (mkRemote (AWS.mkS3 [] 0) []))
     = App.mkHealth "healthy" true "Local Storage".
Proof.
  split.
  - apply (proj2 (boot_without_cloud (fun cs => cs) [("STORAGE_TYPE", "gcs")]
                    (mkFs [] 0) (mkRemote (Azure.mkService [] 0) [])
                    (mkRemote (AWS.mkS3 [] 0) []))); discriminate.
  - destruct (proj1 (boot_without_cloud (fun cs => cs) []
                       (mkFs [] 0) (mkRemote (Azure.mkService [] 0) [])
                       (mkRemote (AWS.mkS3 [] 0) [])) eq_refl) as [Hboot _].
    rewrite Hboot. reflexivity.
Defined.

(** ** The request handlers *)

Lemma contains_dot_append a b : App.contains_dot (a ++ "." ++ b) = true.
Proof.
  induction a as [|c a IH]; simpl; [reflexivity|].
  simpl in IH. rewrite IH. apply orb_true_r.
Qed.

Lemma after_last_dot_none s : App.contains_dot s = false -> App.after_last_dot s = None.
Proof.
  induction s as [|c s IH]; simpl; [reflexivity|].
  intros H. apply orb_false_elim in H. destruct H as [Hc Hs].
  now rewrite (IH Hs), Hc.
Qed.

Lemma after_last_dot_append a b :
  App.contains_dot b = false -> App.after_last_dot (a ++ "." ++ b) = Some b.
Proof.
  intros Hb. induction a as [|c a IH]; simpl.
  - now rewrite (after_last_dot_none _ Hb).
  - simpl in IH. now rewrite IH.
Qed.

(** X19.  [allowed_file] looks only at what follows the last dot, and
    without regard to case: a name [stem.ext], where [ext] has no dot, is
    allowed exactly when [ext] in lower case is one of [png], [jpg],
    [jpeg], [gif] and [webp]; a name without a dot is never allowed. *)
Theorem allowed_file_by_extension (stem ext : string) :
  App.contains_dot ext = false ->
  App.allowed_file (stem ++ "." ++ ext)
  = existsb (String.eqb (lower ext)) ["png"; "jpg"; "jpeg"; "gif"; "webp"]
  /\ App.allowed_file ext = false.
Proof.
  intros Hext. unfold App.allowed_file. split.
  - now rewrite contains_dot_append, (after_last_dot_append stem ext Hext).
  - now rewrite Hext.
Qed.

Lemma allowed_file_by_extension_witness :
  App.allowed_file "holiday.2024.JPeG" = true
  /\ App.allowed_file "JPeG" = false.
Proof.
  destruct (allowed_file_by_extension "holiday.2024" "JPeG" eq_refl) as [H1 H2].
  split; [exact H1 | exact H2].
Defined.

Section HandlerFacts.

Variable guess_type : string -> option string.
Variable strftime : Z -> string.
Variable secure_filename : string -> string.
Variable str : exn -> string.

(** What the upload handler does with a request it does not pass on. *)
Lemma upload_view_rejected files w :
  App.storage (App.proc w) = None \/ upload_candidate files = None ->
  exists message,
    App.upload_view guess_type secure_filename str files w
    = (Ok (App.redirect_to "index"),
       App.mkWebapp (App.proc w) (List.app (App.flashes w) [("error", message)])).
Proof.
  unfold App.upload_view, upload_candidate, bind, gets, ret, App.flash.
  intros H.
  destruct (App.storage (App.proc w)) as [h|]; [|eauto].
  destruct H as [H | H]; [discriminate|].
  destruct (lookup "file" files) as [file|]; [|eauto].
  destruct (App.filename file) as [[|c n]|]; eauto.
  simpl in H.
  destruct (App.allowed_file (String c n)); [discriminate | eauto].
Qed.

(** What it does with one it passes on. *)
Lemma upload_view_candidate files w h file n :
  App.storage (App.proc w) = Some h ->
  upload_candidate files = Some (file, n) ->
  App.upload_view guess_type secure_filename str files w
  = match App.storage_upload_file guess_type h
            (FileObj (App.buffer file) (App.position file)) (secure_filename n)
            (App.proc w) with
    | (Ok _, p') =>
        (Ok (App.redirect_to "gallery"),
         App.mkWebapp p'
           (List.app (App.flashes w)
              [("success", "File uploaded successfully: " ++ secure_filename n)]))
    | (Raise e, p') =>
        (Ok (App.redirect_to "index"),
         App.mkWebapp p' (List.app (App.flashes w) [("error", "Upload failed: " ++ str e)]))
    end.
Proof.
  unfold App.upload_view, upload_candidate, bind, gets, ret, App.flash, try_except,
    App.in_proc.
  intros Hs Hc. rewrite Hs.
  destruct (lookup "file" files) as [file'|]; [|discriminate].
  destruct (App.filename file') as [[|c m]|]; try discriminate.
  simpl in Hc.
  destruct (App.allowed_file (String c m)); [|discriminate].
  injection Hc as -> ->.
  now destruct (App.storage_upload_file _ _ _ _ _) as [[u|e] p'].
Qed.

End HandlerFacts.

(** X20.  The upload handler never raises and flashes exactly one message
    per request.  Unless an object is bound to [storage] and the request
    carries a file whose name is not empty and has an allowed extension,
    it does not call the storage: the process is as before, the message is
    an error and the response is the redirect to the index page. *)
Theorem upload_view_guards
    (guess_type : string -> option string) (secure_filename : string -> string)
    (str : exn -> string) (files : list (string * App.FileStorage)) (w : App.webapp) :
  exists resp w' category message,
    App.upload_view guess_type secure_filename str files w = (Ok resp, w')
    /\ App.flashes w' = List.app (App.flashes w) [(category, message)]
    /\ (App.storage (App.proc w) = None \/ upload_candidate files = None ->
        App.proc w' = App.proc w
        /\ category = "error"
        /\ resp = App.redirect_to "index").
Proof.
  destruct (App.storage (App.proc w)) as [h|] eqn:Hs.
  - destruct (upload_candidate files) as [[file n]|] eqn:Hc.
    + rewrite (upload_view_candidate guess_type secure_filename str files w h file n Hs Hc).
      destruct (App.storage_upload_file _ _ _ _ _) as [[u|e] p'];
        do 4 eexists; (split; [reflexivity|]); (split; [reflexivity|]);
        intros [H | H]; discriminate.
    + destruct (upload_view_rejected guess_type secure_filename str files w (or_intror Hc))
        as [message Hv].
      rewrite Hv. do 4 eexists. split; [reflexivity|]. split; [reflexivity|].
      intros _. auto.
  - destruct (upload_view_rejected guess_type secure_filename str files w (or_introl Hs))
      as [message Hv].
    rewrite Hv. do 4 eexists. split; [reflexivity|]. split; [reflexivity|].
    intros _. auto.
Qed.

Lemma upload_view_guards_witness :
  exists message,
    App.upload_view (fun _ => None) (fun n => n) (fun _ => "error")
      [("file", App.mkFileStorage (Some "notes.txt") [x01] 0)]
      (App.mkWebapp
         (App.mkProcess "local" (Some (App.LocalStorage (Local.init "uploads" "photos")))
            "Local Storage" (mkFs [] 0) (mkRemote (Azure.mkService [] 0) [])
            (mkRemote (AWS.mkS3 [] 0) []))
         [])
    = (Ok (App.redirect_to "index"),
       App.mkWebapp
         (App.mkProcess "local" (Some (App.LocalStorage (Local.init "uploads" "photos")))
            "Local Storage" (mkFs [] 0) (mkRemote (Azure.mkService [] 0) [])
            (mkRemote (AWS.mkS3 [] 0) []))
         [("error", message)]).
Proof.
  destruct (upload_view_guards (fun _ => None) (fun n => n) (fun _ => "error")
              [("file", App.mkFileStorage (Some "notes.txt") [x01] 0)]
              (App.mkWebapp
                 (App.mkProcess "local"
                    (Some (App.LocalStorage (Local.init "uploads" "photos")))
                    "Local Storage" (mkFs [] 0) (mkRemote (Azure.mkService [] 0) [])
                    (mkRemote (AWS.mkS3 [] 0) []))
                 []))
    as (resp & w' & category & message & Hv & Hfl & Hrej).
  destruct (Hrej (or_intror eq_refl)) as (Hproc & Hcat & Hresp).
  exists message. rewrite Hv. subst resp category.
  destruct w' as [p' fl']. simpl in Hproc, Hfl. now subst p' fl'.
Defined.

(** X21.  An upload through the handler, end to end, on the local back
    end.  When the local adapter is bound to [storage] and the handler
    answers with the redirect to the gallery, the request carried an
    accepted file, the last message flashed is the success message naming
    the secured file name, and a download of that name from the adapter
    returns the bytes of the uploaded stream from its position on. *)
Theorem upload_view_stores_locally
    (guess_type : string -> option string) (secure_filename : string -> string)
    (str : exn -> string) (files : list (string * App.FileStorage)) (w : App.webapp)
    (s : Local.LocalFileStorage) (w' : App.webapp) :
  App.storage (App.proc w) = Some (App.LocalStorage s) ->
  App.upload_view guess_type secure_filename str files w
  = (Ok (App.redirect_to "gallery"), w') ->
  exists file n,
    upload_candidate files = Some (file, n)
    /\ App.flashes w'
       = List.app (App.flashes w)
           [("success", "File uploaded successfully: " ++ secure_filename n)]
    /\ fst (Local.download_file s (secure_filename n) (App.fs (App.proc w')))
       = Ok (skipn (App.position file) (App.buffer file)).
Proof.
  intros Hs Hv.
  destruct (upload_candidate files) as [[file n]|] eqn:Hc.
  - rewrite (upload_view_candidate guess_type secure_filename str files w _ file n Hs Hc)
      in Hv.
    unfold App.storage_upload_file, App.in_fs in Hv.
    destruct (Local.upload_file s (FileObj (App.buffer file) (App.position file))
                (secure_filename n) (App.fs (App.proc w))) as [[u|e] f'] eqn:Hup;
      [|discriminate].
    injection Hv as <-. exists file, n. split; [reflexivity|]. split; [reflexivity|].
    simpl. apply upload_file_ok in Hup. destruct Hup as (Hfile & _ & _).
    now rewrite (download_stored s _ _ _ _ Hfile).
  - destruct (upload_view_rejected guess_type secure_filename str files w (or_intror Hc))
      as [message Hr].
    rewrite Hr in Hv. discriminate.
Qed.

Lemma upload_view_stores_locally_witness :
  exists file n,
    upload_candidate [("file", App.mkFileStorage (Some "Cat.PNG") [x01; x02] 0)]
    = Some (file, n)
    /\ fst (Local.download_file (Local.init "uploads" "photos") (lower n)
              (App.fs (App.proc
                 (snd (App.upload_view (fun _ => None) lower (fun _ => "error")
                         [("file", App.mkFileStorage (Some "Cat.PNG") [x01; x02] 0)]
                         (App.mkWebapp
                            (App.mkProcess "local"
                               (Some (App.LocalStorage (Local.init "uploads" "photos")))
                               "Local Storage" (mkFs [] 0)
                               (mkRemote (Azure.mkService [] 0) [])
                               (mkRemote (AWS.mkS3 [] 0) []))
                            []))))))
       = Ok (skipn (App.position file) (App.buffer file)).
Proof.
  destruct (upload_view_stores_locally (fun _ => None) lower (fun _ => "error")
              [("file", App.mkFileStorage (Some "Cat.PNG") [x01; x02] 0)]
              (App.mkWebapp
                 (App.mkProcess "local"
                    (Some (App.LocalStorage (Local.init "uploads" "photos")))
                    "Local Storage" (mkFs [] 0)
                    (mkRemote (Azure.mkService [] 0) [])
                    (mkRemote (AWS.mkS3 [] 0) []))
                 [])
              (Local.init "uploads" "photos")
              _ eq_refl eq_refl) as (file & n & Hc & _ & Hdown).
  exists file, n. split; [exact Hc | exact Hdown].
Defined.

Lemma local_delete_absent (s : Local.LocalFileStorage) filename fs :
  valid_name filename = true ->
  plain_dir (Local.full_path s) = true ->
  ~ In filename (children (Local.full_path s) (nodes fs)) ->
  Local.delete_file s filename fs = (Ok false, fs).
Proof.
  intros Hv Hd Hout.
  unfold Local.delete_file, bind, gets, ret, os_path_exists.
  destruct (fs_lookup fs (os_path_join (Local.full_path s) filename)) as [v|] eqn:E;
    [|reflexivity].
  exfalso. apply Hout.
  eapply children_of_lookup; [exact E|].
  now apply child_name_of_join.
Qed.

(** X22.  The delete handler never raises, and it does not look at what
    the storage's [delete_file] returns: with the local adapter bound and
    a name the container directory has no entry for, it still answers
    with the success document and flashes that the file was deleted, the
    process being as before. *)
Theorem delete_view_ignores_result (str : exn -> string) (filename : string)
    (w : App.webapp) :
  (exists resp w', App.delete_view str filename w = (Ok resp, w'))
  /\ forall s,
       App.storage (App.proc w) = Some (App.LocalStorage s) ->
       valid_name filename = true ->
       plain_dir (Local.full_path s) = true ->
       ~ In filename (children (Local.full_path s) (nodes (App.fs (App.proc w)))) ->
       App.delete_view str filename w
       = (Ok App.json_success,
          App.mkWebapp (App.proc w)
            (List.app (App.flashes w) [("success", "File deleted: " ++ filename)])).
Proof.
  split.
  - unfold App.delete_view, bind, gets, ret, try_except, App.flash, App.in_proc.
    destruct (App.storage (App.proc w)) as [h|]; [|eauto].
    destruct (App.storage_delete_file h filename (App.proc w)) as [[b|e] p']; eauto.
  - intros s Hs Hv Hd Hout.
    pose proof (local_delete_absent s filename (App.fs (App.proc w)) Hv Hd Hout) as Habsent.
    unfold App.delete_view, bind, gets, ret, try_except, App.flash, App.in_proc.
    rewrite Hs. unfold App.storage_delete_file, App.in_fs. rewrite Habsent.
    simpl. now destruct w as [[t st nm f az s3] fl].
Qed.

Lemma delete_view_ignores_result_witness :
  App.delete_view (fun _ => "error") "gone.png"
    (App.mkWebapp
       (App.mkProcess "local" (Some (App.LocalStorage (Local.init "uploads" "photos")))
          "Local Storage" (mkFs [("uploads", Dir 0); ("uploads/photos", Dir 0)] 5)
          (mkRemote (Azure.mkService [] 0) []) (mkRemote (AWS.mkS3 [] 0) []))
       [])
  = (Ok App.json_success,
     App.mkWebapp
       (App.mkProcess "local" (Some (App.LocalStorage (Local.init "uploads" "photos")))
          "Local Storage" (mkFs [("uploads", Dir 0); ("uploads/photos", Dir 0)] 5)
          (mkRemote (Azure.mkService [] 0) []) (mkRemote (AWS.mkS3 [] 0) []))
       [("success", "File deleted: gone.png")]).
Proof.
  destruct (delete_view_ignores_result (fun _ => "error") "gone.png"
              (App.mkWebapp
                 (App.mkProcess "local"
                    (Some (App.LocalStorage (Local.init "uploads" "photos")))
                    "Local Storage" (mkFs [("uploads", Dir 0); ("uploads/photos", Dir 0)] 5)
                    (mkRemote (Azure.mkService [] 0) []) (mkRemote (AWS.mkS3 [] 0) []))
                 [])) as [_ Hlocal].
  apply (Hlocal (Local.init "uploads" "photos")); try reflexivity.
  simpl. intros [].
Defined.

(** X23.  The gallery handler never raises.  With the local adapter bound
    it renders the gallery and leaves the process as it was: over the
    listing, whose names are the entries of the container directory that
    are not directories, when the container path is a directory; over no
    image, silently, when nothing is at the container path; and over no
    image, with the error of the listing flashed, when a regular file is
    there. *)
Theorem gallery_view_never_raises
    (guess_type : string -> option string) (strftime : Z -> string)
    (str : exn -> string) (w : App.webapp) :
  (exists resp w', App.gallery_view guess_type strftime str w = (Ok resp, w'))
  /\ forall s,
       App.storage (App.proc w) = Some (App.LocalStorage s) ->
       (os_path_isdir (Local.full_path s) (App.fs (App.proc w)) = true ->
        exists l,
          App.gallery_view guess_type strftime str w = (Ok (App.render_gallery l), w)
          /\ Permutation (map name l) (regular_children s (App.fs (App.proc w))))
       /\ (os_path_exists (Local.full_path s) (App.fs (App.proc w)) = false ->
           App.gallery_view guess_type strftime str w = (Ok (App.render_gallery []), w))
       /\ ((exists d t, fs_lookup (App.fs (App.proc w)) (Local.full_path s)
                        = Some (File d t)) ->
           App.gallery_view guess_type strftime str w
           = (Ok (App.render_gallery []),
              App.mkWebapp (App.proc w)
                (List.app (App.flashes w)
                   [("error", "Error loading gallery: " ++ str NotADirectoryError)]))).
Proof.
  split.
  - unfold App.gallery_view, bind, gets, ret, try_except, App.flash, App.in_proc.
    destruct (App.storage (App.proc w)) as [h|]; [|eauto].
    destruct (App.storage_list_files guess_type strftime h (App.proc w)) as [[l|e] p']; eauto.
  - intros s Hs.
    destruct (local_list_files_cases guess_type strftime s (App.fs (App.proc w)))
      as (Hnone & Hfile & Hdir).
    unfold App.gallery_view, bind, gets, ret, try_except, App.flash, App.in_proc.
    rewrite Hs. unfold App.storage_list_files, App.in_fs.
    destruct w as [[t st nm f az s3] fl]. simpl in *.
    split; [|split].
    + intros Hd. destruct (Hdir Hd) as (l & Hl & Hperm & _).
      exists l. rewrite Hl. split; [reflexivity | exact Hperm].
    + intros Hm. now rewrite (Hnone Hm).
    + intros Hf. now rewrite (Hfile Hf).
Qed.

Lemma gallery_view_never_raises_witness :
  App.gallery_view (fun _ => None) (fun _ => "2023-11-14 22:13:20") (fun _ => "not a directory")
    (App.mkWebapp
       (App.mkProcess "local" (Some (App.LocalStorage (Local.init "uploads" "photos")))
          "Local Storage" (mkFs [("uploads", Dir 0); ("uploads/photos", File [] 0)] 5)
          (mkRemote (Azure.mkService [] 0) []) (mkRemote (AWS.mkS3 [] 0) []))
       [])
  = (Ok (App.render_gallery []),
     App.mkWebapp
       (App.mkProcess "local" (Some (App.LocalStorage (Local.init "uploads" "photos")))
          "Local Storage" (mkFs [("uploads", Dir 0); ("uploads/photos", File [] 0)] 5)
          (mkRemote (Azure.mkService [] 0) []) (mkRemote (AWS.mkS3 [] 0) []))
       [("error", "Error loading gallery: not a directory")]).
Proof.
  destruct (gallery_view_never_raises (fun _ => None) (fun _ => "2023-11-14 22:13:20")
              (fun _ => "not a directory")
              (App.mkWebapp
                 (App.mkProcess "local"
                    (Some (App.LocalStorage (Local.init "uploads" "photos")))
                    "Local Storage"
                    (mkFs [("uploads", Dir 0); ("uploads/photos", File [] 0)] 5)
                    (mkRemote (Azure.mkService [] 0) []) (mkRemote (AWS.mkS3 [] 0) []))
                 [])) as [_ Hlocal].
  destruct (Hlocal (Local.init "uploads" "photos") eq_refl) as (_ & _ & Hfile).
  apply Hfile. exists [], 0. reflexivity.
Defined.

Lemma serve_uploaded_file_eval (container filename : string) (w : App.webapp) :
  App.serve_uploaded_file_view container filename w
  = if String.eqb (App.STORAGE_TYPE (App.proc w)) "local"
    then (Ok (App.send_from_directory (os_path_join "uploads" container) filename), w)
    else match App.storage (App.proc w) with
         | Some h => (Ok (App.redirect_url (App.storage_get_file_url h filename)), w)
         | None => (Raise (OtherError "AttributeError"), w)
         end.
Proof.
  unfold App.serve_uploaded_file_view, bind, gets, ret, raise.
  destruct (String.eqb (App.STORAGE_TYPE (App.proc w)) "local"); [reflexivity|].
  now destruct (App.storage (App.proc w)).
Qed.

(** X24.  Serving a file after start-up.  In a process the start-up
    selection has settled, the file route hands the file over from the
    directory [uploads/<container>] when [STORAGE_TYPE] is ['local'],
    redirects to the URL the adapter gives for the name when a cloud
    adapter is bound, and raises only when nothing is bound and
    [STORAGE_TYPE] is not ['local']; it changes nothing. *)
Theorem serve_uploaded_file_after_boot
    (container filename : string) (w : App.webapp) :
  settled (App.proc w) ->
  (App.STORAGE_TYPE (App.proc w) = "local" ->
   App.serve_uploaded_file_view container filename w
   = (Ok (App.send_from_directory (os_path_join "uploads" container) filename), w))
  /\ (forall s, App.storage (App.proc w) = Some (App.AWSStorage s) ->
                App.serve_uploaded_file_view container filename w
                = (Ok (App.redirect_url (AWS.get_file_url s filename)), w))
  /\ (forall s, App.storage (App.proc w) = Some (App.AzureStorage s) ->
                App.serve_uploaded_file_view container filename w
                = (Ok (App.redirect_url (Azure.get_file_url s filename 24)), w))
  /\ (App.storage (App.proc w) = None ->
      App.STORAGE_TYPE (App.proc w) <> "local" ->
      App.serve_uploaded_file_view container filename w
      = (Raise (OtherError "AttributeError"), w)).
Proof.
  intros Hset. rewrite serve_uploaded_file_eval.
  split; [|split; [|split]].
  - intros Hl. now rewrite Hl.
  - intros s Hs.
    destruct Hset as [(s0 & Hst & Ht & _) | [(s0 & Hst & Ht & _) | [(Hst & Ht & _) | (Hst & _)]]];
      try congruence.
    now rewrite Ht, Hs.
  - intros s Hs.
    destruct Hset as [(s0 & Hst & Ht & _) | [(s0 & Hst & Ht & _) | [(Hst & Ht & _) | (Hst & _)]]];
      try congruence.
    now rewrite Ht, Hs.
  - intros Hs Hl. apply String.eqb_neq in Hl. now rewrite Hl, Hs.
Qed.

Lemma serve_uploaded_file_after_boot_witness :
  App.serve_uploaded_file_view "photos" "a.png"
    (App.mkWebapp
       (App.mkProcess "aws" (Some (App.AWSStorage (AWS.mkAWS "album" "us-east-1")))
          "AWS S3 Storage" (mkFs [] 0) (mkRemote (Azure.mkService [] 0) [])
          (mkRemote (AWS.mkS3 [] 0) []))
       [])
  = (Ok (App.redirect_url "https://album.s3.us-east-1.amazonaws.com/a.png"),
     App.mkWebapp
       (App.mkProcess "aws" (Some (App.AWSStorage (AWS.mkAWS "album" "us-east-1")))
          "AWS S3 Storage" (mkFs [] 0) (mkRemote (Azure.mkService [] 0) [])
          (mkRemote (AWS.mkS3 [] 0) []))
       []).
Proof.
  assert (Hset : settled (App.mkProcess "aws"
                            (Some (App.AWSStorage (AWS.mkAWS "album" "us-east-1")))
                            "AWS S3 Storage" (mkFs [] 0) (mkRemote (Azure.mkService [] 0) [])
                            (mkRemote (AWS.mkS3 [] 0) []))).
  { left. eexists. simpl. repeat split. }
  destruct (serve_uploaded_file_after_boot "photos" "a.png"
              (App.mkWebapp
                 (App.mkProcess "aws" (Some (App.AWSStorage (AWS.mkAWS "album" "us-east-1")))
                    "AWS S3 Storage" (mkFs [] 0) (mkRemote (Azure.mkService [] 0) [])
                    (mkRemote (AWS.mkS3 [] 0) []))
                 []) Hset) as (_ & Haws & _).
  apply (Haws (AWS.mkAWS "album" "us-east-1")). reflexivity.
Defined.
